(** * Expense lifecycle and balance ledger

    A shallow embedding of [ExpenseService] (the expense state machine:
    create, update, submit, assign, verify, approve, reject) and of the
    [handleReturnMoney] handler of the [Expenses] page (the "return money"
    transfer), over an explicit model of the remote relational store.

    Modelling conventions.
    - The store is passed explicitly.  A query that the client library
      answers with an [error] object is a store call that fails; which
      calls fail is decided by the environment ([fails], one flag per call
      site), so every failure path of the source can be exercised.
    - [throw] does not undo writes that were already sent: an operation
      returns the store it leaves behind together with its result.
    - Amounts are the numbers of the source: IEEE 754 binary64 values,
      with the rounding of [-] and [+], the comparisons that are false on
      NaN, and [null] where JSON cannot carry a number.  A column holds
      the number that was written to it; what the database makes of it
      depends on the schema, which is not part of the sources.
    - Strings are sequences of bytes, the UTF-8 encoding of the text.
    - Instants ([new Date()], [assigned_at]) are integers. *)

From Stdlib Require Import ZArith Lia SpecFloat.
From stdpp Require Import gmap strings list fin_maps pretty sorting.

#[local] Open Scope Z_scope.

(** ** Numbers *)

(** A [number] of the source: a binary64 value ([S754_finite s m e] is
    [m * 2^e], negated when [s] is set). *)
Definition number : Type := spec_float.

Definition zero : number := S754_zero false.

(** The number a whole numeral denotes. *)
Definition of_Z (n : Z) : number := binary_normalize 53 1024 n 0 false.

(** [a + b], [a - b], [a / b], [a < b] and [a <= b] on numbers;
    [a > b] is [ltb b a]. *)
Definition add : number → number → number := SFadd 53 1024.
Definition sub : number → number → number := SFsub 53 1024.
Definition quot : number → number → number := SFdiv 53 1024.
Definition ltb : number → number → bool := SFltb.
Definition leb : number → number → bool := SFleb.

(** The number a numeral with two decimal places denotes: the binary64
    value nearest to [n / 100]. *)
Definition cents (n : Z) : number := quot (of_Z n) (of_Z 100).

Definition isNaN (x : number) : bool :=
  match x with
  | S754_nan => true
  | _ => false
  end.

Definition Math_min (a b : number) : number :=
  match a, b with
  | S754_nan, _ | _, S754_nan => S754_nan
  | _, _ =>
      if ltb a b then a
      else if ltb b a then b
      else match a with
           | S754_zero true => a
           | _ => b
           end
  end.

(** [Number(x ?? 0)] and [Number(x)] for a nullable numeric column:
    [null] counts as 0. *)
Definition Number (x : option number) : number := default zero x.

(** [x || 0]: [null], NaN and the two zeros give 0. *)
Definition or_zero (x : option number) : number :=
  match x with
  | Some (S754_finite s m e) => S754_finite s m e
  | Some (S754_infinity s) => S754_infinity s
  | _ => zero
  end.

(** A number as it travels in the body of a request: JSON has no NaN and
    no infinities, which become [null], and writes the negative zero as
    [0]. *)
Definition json_number (x : number) : option number :=
  match x with
  | S754_nan | S754_infinity _ => None
  | S754_zero _ => Some zero
  | S754_finite s m e => Some (S754_finite s m e)
  end.

(** The value of a finite number in units of [2^-1074], the spacing of
    the smallest binary64 values: a whole number for each of them. *)
Definition units (x : number) : option Z :=
  match x with
  | S754_zero _ => Some 0
  | S754_finite s m e => Some ((if s then -1 else 1) * Z.pos m * 2 ^ (e + 1074))
  | _ => None
  end.

(** ** Data model *)

Inductive Status := submitted | verified | approved | rejected.

Inductive Role := admin | engineer | employee | cashier.

#[global] Instance Status_eq_dec : EqDecision Status.
Proof. solve_decision. Defined.

#[global] Instance Role_eq_dec : EqDecision Role.
Proof. solve_decision. Defined.

(** [a === b] on status and role tags. *)
Definition status_eqb (a b : Status) : bool := bool_decide (a = b).
Definition role_eqb (a b : Role) : bool := bool_decide (a = b).

(** Row of [expenses]. *)
Record Expense := {
  id : string;
  user_id : string;
  title : string;
  destination : string;
  trip_start : string;
  trip_end : string;
  purpose : option string;
  category : string;
  total_amount : option number;
  status : Status;
  admin_comment : option string;
  assigned_engineer_id : option string;
  created_at : Z;
  updated_at : Z
}.

(** Row of [profiles], keyed by [user_id]. *)
Record Profile := {
  name : option string;
  balance : option number;
  reporting_engineer_id : option string
}.

(** Row of [audit_logs]. *)
Record AuditLog := {
  log_expense_id : string;
  log_user_id : string;
  action : string;
  log_comment : option string
}.

(** Row of [money_assignments]. *)
Record MoneyAssignment := {
  ma_id : string;
  cashier_id : string;
  recipient_id : string;
  amount : option number;
  assigned_at : Z;
  is_returned : bool;
  returned_at : option Z;
  ma_updated_at : Z
}.

Record Store := {
  expenses : gmap string Expense;
  profiles : gmap string Profile;
  user_roles : list (string * Role);
  audit_logs : list AuditLog;
  money_assignments : list MoneyAssignment
}.

(** [CreateExpenseData].  [createExpense] also reads a [status] property
    that the interface does not declare. *)
Record CreateExpenseData := {
  c_title : string;
  c_destination : string;
  c_trip_start : string;
  c_trip_end : string;
  c_purpose : option string;
  c_amount : option number;
  c_category : string;
  c_status : option Status
}.

(** The values the [status] field of [UpdateExpenseData] admits. *)
Inductive PatchStatus := to_submitted | to_verified | to_approved.

Definition patched (p : PatchStatus) : Status :=
  match p with
  | to_submitted => submitted
  | to_verified => verified
  | to_approved => approved
  end.

(** [UpdateExpenseData]: every field optional. *)
Record UpdateExpenseData := {
  u_title : option string;
  u_destination : option string;
  u_trip_start : option string;
  u_trip_end : option string;
  u_purpose : option string;
  u_status : option PatchStatus;
  u_admin_comment : option string;
  u_assigned_engineer_id : option string;
  u_amount : option number;
  u_category : option string
}.

(** ** Store calls and their failures *)

(** The places where the source awaits the store. *)
Inductive Site :=
  | RoleSelect (userId : string) (role : Role)
  | EditCheckSelect
  | ReviewCheckSelect
  | ExpenseInsert
  | ExpenseSelect
  | ExpenseUpdate
  | ProfileSelect
  | BalanceUpdate
  | StatusRevert
  | AuditInsert
  | OriginalCashierRpc
  | TargetRoleSelect
  | TargetProfileSelect
  | UserBalanceUpdate
  | TargetBalanceUpdate
  | AssignmentsSelect
  | AssignmentUpdate (assignmentId : string).

(** What the operation cannot decide for itself: which store calls fail,
    the clock, the answer of the [get_original_cashier] procedure, which
    lives in the database, and the order in which the store returns rows
    that the [order] of a query leaves tied (the lower rank first). *)
Record Env := {
  fails : Site -> bool;
  now : Z;
  original_cashier : option string;
  tie_rank : MoneyAssignment -> Z
}.

(** One constructor for each [throw] of the service; [StoreError] is an
    error object of the store thrown as it is. *)
Inductive Error :=
  | CreateFailed
  | EditDenied
  | NotEditable
  | SubmitDenied
  | NotResubmittable
  | NoReportingEngineer
  | AssignNotAdmin
  | AssigneeNotEngineer
  | ReviewDenied
  | VerifyAlreadyApproved
  | VerifyNotSubmitted
  | ApproveNotAdmin
  | ApproveAlreadyApproved
  | ApproveNotVerified
  | InsufficientBalance (employee : option string) (has requires : number)
  | DeductionFailed
  | RejectNotAdmin
  | NoTargetFound (targetRole : Role)
  | InvalidReturnRole
  | StoreError (site : Site).

Inductive Result (A : Type) :=
  | Ok (a : A)
  | Throw (e : Error).

Arguments Ok {A} a.
Arguments Throw {A} e.

(** An asynchronous operation: from the store before to the store after
    and the value or the exception. *)
Definition M (A : Type) : Type := Store -> Store * Result A.

Definition ret {A} (a : A) : M A := fun s => (s, Ok a).

Definition throw {A} (e : Error) : M A := fun s => (s, Throw e).

Definition bind {A B} (m : M A) (k : A -> M B) : M B :=
  fun s =>
    match m s with
    | (s', Ok a) => k a s'
    | (s', Throw e) => (s', Throw e)
    end.

Declare Scope svc_scope.
Delimit Scope svc_scope with svc.

Notation "'let*' x ':=' m 'in' k" := (bind m (fun x => k))
  (at level 10, x name, m at level 100, k at level 200) : svc_scope.

Notation "m ';;' k" := (bind m (fun _ => k))
  (at level 100, k at level 200, right associativity) : svc_scope.

(** ** Strings and numbers of the source *)

(** [x.toFixed(2)].  A finite number below [10^21] is rounded to the
    nearest hundredth, upwards from the middle; from [10^21] on the text
    is the one of [String(x)]: the shortest digits that denote the number,
    in exponent notation. *)
Definition two_digits (n : Z) : string :=
  if n <? 10 then "0" +:+ pretty n else pretty n.

(** The whole number nearest to [100 * m * 2^e]. *)
Definition round_hundredths (m : positive) (e : Z) : Z :=
  if 0 <=? e then 100 * Z.pos m * 2 ^ e
  else (200 * Z.pos m + 2 ^ (- e)) / 2 ^ (1 - e).

(** [m * 2^e >= 10^21]. *)
Definition at_least_1e21 (m : positive) (e : Z) : bool :=
  if 0 <=? e then 10 ^ 21 <=? Z.pos m * 2 ^ e
  else 10 ^ 21 * 2 ^ (- e) <=? Z.pos m.

(** Among [smin .. smax] the whole number nearest to [N / p], the even
    one from the middle. *)
Definition nearest_in (N p smin smax : Z) : Z :=
  let q := N / p in
  let r := N mod p in
  let s := if 2 * r <? p then q
           else if p <? 2 * r then q + 1
           else if Z.even q then q else q + 1 in
  Z.max smin (Z.min smax s).

(** The [k] digits [s] for which [s * 10^(n-k)] lies between [lo] and
    [hi] (the bounds included when [closed]), nearest to [N], if any. *)
Definition digits_with (N lo hi : Z) (closed : bool) (k n : Z) : option Z :=
  let p := 10 ^ (n - k) in
  let from_lo := if closed then (lo + p - 1) / p else lo / p + 1 in
  let to_hi := if closed then hi / p else (hi - 1) / p in
  let smin := Z.max (10 ^ (k - 1)) from_lo in
  let smax := Z.min (10 ^ k - 1) to_hi in
  if smin <=? smax then Some (nearest_in N p smin smax) else None.

(** The fewest digits, from [k] on, that denote a number between [lo]
    and [hi]: the digits, their count and the count of the digits of the
    number denoted. *)
Fixpoint shortest (fuel : nat) (N lo hi : Z) (closed : bool) (k D : Z)
  : Z * Z * Z :=
  match digits_with N lo hi closed k D with
  | Some s => (s, k, D)
  | None =>
      match digits_with N lo hi closed k (D + 1) with
      | Some s => (s, k, D + 1)
      | None =>
          match fuel with
          | O => (N, D, D)
          | S fuel' => shortest fuel' N lo hi closed (k + 1) D
          end
      end
  end.

(** [String(x)] for a whole [x = m * 2^e] of at least [10^21]: the
    numbers between [lo] and [hi] are the ones binary64 rounds to [x]. *)
Definition toString_large (m : positive) (e : Z) : string :=
  let N := Z.pos m * 2 ^ e in
  let half := 2 ^ (e - 1) in
  let lo := N - (if Pos.eqb m (2 ^ 52)%positive then 2 ^ (e - 2) else half) in
  let hi := N + half in
  let D := Z.of_nat (String.length (pretty N)) in
  let '(s, k, n) := shortest 17 N lo hi (Z.even (Z.pos m)) 1 D in
  match pretty s with
  | String d rest =>
      String d (match rest with
                | EmptyString => ""
                | _ => "." +:+ rest
                end) +:+ "e+" +:+ pretty (n - 1)
  | EmptyString => ""
  end.

Definition toFixed2 (x : number) : string :=
  match x with
  | S754_nan => "NaN"
  | S754_infinity s => if s then "-Infinity" else "Infinity"
  | S754_zero _ => "0.00"
  | S754_finite s m e =>
      (if s then "-" else "") +:+
      (if at_least_1e21 m e then toString_large m e
       else
         let n := round_hundredths m e in
         pretty (n / 100) +:+ "." +:+ two_digits (n mod 100))
  end.

(** Template interpolation of a nullable string. *)
Definition interp (o : option string) : string := default "null" o.

(** The code points [s.trim()] strips, WhiteSpace and LineTerminator of
    the language, each as the bytes of its UTF-8 encoding: U+0009 to
    U+000D, U+0020, U+00A0, U+1680, U+2000 to U+200A, U+2028, U+2029,
    U+202F, U+205F, U+3000 and U+FEFF. *)
Definition white_space : list (list nat) :=
  [[9]; [10]; [11]; [12]; [13]; [32]; [194; 160]; [225; 154; 128];
   [226; 128; 128]; [226; 128; 129]; [226; 128; 130]; [226; 128; 131];
   [226; 128; 132]; [226; 128; 133]; [226; 128; 134]; [226; 128; 135];
   [226; 128; 136]; [226; 128; 137]; [226; 128; 138]; [226; 128; 168];
   [226; 128; 169]; [226; 128; 175]; [226; 129; 159]; [227; 128; 128];
   [239; 187; 191]]%nat.

(** [s] without the bytes [p] it starts with, if it does. *)
Fixpoint strip (p : list nat) (s : string) : option string :=
  match p with
  | [] => Some s
  | b :: p' =>
      match s with
      | String a s' =>
          if Nat.eqb (Ascii.nat_of_ascii a) b then strip p' s' else None
      | EmptyString => None
      end
  end.

(** [s] without the first of the [codes] it starts with. *)
Fixpoint strip_any (codes : list (list nat)) (s : string) : option string :=
  match codes with
  | [] => None
  | p :: codes' =>
      match strip p s with
      | Some s' => Some s'
      | None => strip_any codes' s
      end
  end.

(** [s] without the run of [codes] it starts with; [n] bounds the run. *)
Fixpoint drop_run (n : nat) (codes : list (list nat)) (s : string) : string :=
  match n with
  | O => s
  | S n' =>
      match strip_any codes s with
      | Some s' => drop_run n' codes s'
      | None => s
      end
  end.

(** [s.trim()]: the white space is dropped at the start, and at the end
    by reading the bytes backwards. *)
Definition trim (s : string) : string :=
  let t := drop_run (String.length s) white_space s in
  String.rev
    (drop_run (String.length t) (List.map (@List.rev nat) white_space)
       (String.rev t)).

(** [Number(profile?.balance ?? 0)]. *)
Definition balance_or_0 (p : Profile) : number := Number (balance p).

Definition rupee : string := "₹".

(** The role tags as the store spells them. *)
Definition role_name (r : Role) : string :=
  match r with
  | admin => "admin"
  | engineer => "engineer"
  | employee => "employee"
  | cashier => "cashier"
  end.

(** The [message] of each exception.  Where the source splices in the
    message of a store error, the text stops before it. *)
Definition message (e : Error) : string :=
  match e with
  | CreateFailed => "Failed to create expense: "
  | EditDenied => "You don't have permission to edit this expense"
  | NotEditable =>
      "Only submitted expenses can be edited. Verified or approved expenses cannot be modified."
  | SubmitDenied => "You don't have permission to submit this expense"
  | NotResubmittable => "Only submitted expenses can be re-submitted"
  | NoReportingEngineer =>
      "No reporting engineer is assigned to your profile. Please contact admin to set your reporting engineer before submitting the expense."
  | AssignNotAdmin => "Only administrators can assign expenses to engineers"
  | AssigneeNotEngineer => "Assigned user must have engineer role"
  | ReviewDenied => "You don't have permission to review this expense"
  | VerifyAlreadyApproved =>
      "This expense is already approved and cannot be updated"
  | VerifyNotSubmitted => "Only submitted expenses can be verified"
  | ApproveNotAdmin => "Only administrators can approve expenses"
  | ApproveAlreadyApproved => "This expense is already approved"
  | ApproveNotVerified =>
      "Expense must be verified by an engineer before admin approval"
  | InsufficientBalance who has requires =>
      "Insufficient balance. Employee " +:+ interp who +:+ " has " +:+ rupee
      +:+ toFixed2 has +:+ " but expense requires " +:+ rupee
      +:+ toFixed2 requires +:+ ". Please add balance before approving."
  | DeductionFailed => "Failed to deduct balance. Expense approval reverted."
  | RejectNotAdmin => "Only administrators can reject expenses"
  | NoTargetFound r =>
      "No " +:+ role_name r
      +:+ " found in the system. Please contact an administrator."
  | InvalidReturnRole =>
      "Invalid role for returning money or target user not found"
  | StoreError _ => ""
  end.

(** A string used as a condition: [null], [undefined] and [""] are falsy. *)
Definition truthy (o : option string) : bool :=
  match o with
  | Some s => negb (String.eqb s "")
  | None => false
  end.

(** [a || b] on strings. *)
Definition or_else (a : option string) (b : string) : string :=
  if truthy a then default b a else b.

(** [column === value] for a nullable column and a string. *)
Definition is_string (o : option string) (v : string) : bool :=
  match o with
  | Some s => String.eqb s v
  | None => false
  end.

(** ** Field updates of an expense row *)

Definition set_status (v : Status) (e : Expense) : Expense :=
  {| id := id e; user_id := user_id e; title := title e;
     destination := destination e; trip_start := trip_start e;
     trip_end := trip_end e; purpose := purpose e; category := category e;
     total_amount := total_amount e; status := v;
     admin_comment := admin_comment e;
     assigned_engineer_id := assigned_engineer_id e;
     created_at := created_at e; updated_at := updated_at e |}.

Definition set_total_amount (v : option number) (e : Expense) : Expense :=
  {| id := id e; user_id := user_id e; title := title e;
     destination := destination e; trip_start := trip_start e;
     trip_end := trip_end e; purpose := purpose e; category := category e;
     total_amount := v; status := status e;
     admin_comment := admin_comment e;
     assigned_engineer_id := assigned_engineer_id e;
     created_at := created_at e; updated_at := updated_at e |}.

Definition set_admin_comment (v : option string) (e : Expense) : Expense :=
  {| id := id e; user_id := user_id e; title := title e;
     destination := destination e; trip_start := trip_start e;
     trip_end := trip_end e; purpose := purpose e; category := category e;
     total_amount := total_amount e; status := status e;
     admin_comment := v;
     assigned_engineer_id := assigned_engineer_id e;
     created_at := created_at e; updated_at := updated_at e |}.

Definition set_assigned_engineer_id (v : option string) (e : Expense)
  : Expense :=
  {| id := id e; user_id := user_id e; title := title e;
     destination := destination e; trip_start := trip_start e;
     trip_end := trip_end e; purpose := purpose e; category := category e;
     total_amount := total_amount e; status := status e;
     admin_comment := admin_comment e;
     assigned_engineer_id := v;
     created_at := created_at e; updated_at := updated_at e |}.

Definition set_updated_at (v : Z) (e : Expense) : Expense :=
  {| id := id e; user_id := user_id e; title := title e;
     destination := destination e; trip_start := trip_start e;
     trip_end := trip_end e; purpose := purpose e; category := category e;
     total_amount := total_amount e; status := status e;
     admin_comment := admin_comment e;
     assigned_engineer_id := assigned_engineer_id e;
     created_at := created_at e; updated_at := v |}.

(** The descriptive columns, which no check of the service reads. *)
Definition set_details (t d ts te : string) (p : option string) (c : string)
    (e : Expense) : Expense :=
  {| id := id e; user_id := user_id e; title := t;
     destination := d; trip_start := ts;
     trip_end := te; purpose := p; category := c;
     total_amount := total_amount e; status := status e;
     admin_comment := admin_comment e;
     assigned_engineer_id := assigned_engineer_id e;
     created_at := created_at e; updated_at := updated_at e |}.

(** A property that is [undefined] is left out of the request, so the
    column keeps its value. *)
Definition when_given {A} (o : option A) (set : A -> Expense -> Expense)
    (e : Expense) : Expense :=
  match o with
  | Some v => set v e
  | None => e
  end.

(** The row after [update({ balance: v })]. *)
Definition set_balance (v : number) (p : Profile) : Profile :=
  {| name := name p; balance := json_number v;
     reporting_engineer_id := reporting_engineer_id p |}.

Definition with_expenses (m : gmap string Expense) (s : Store) : Store :=
  {| expenses := m; profiles := profiles s; user_roles := user_roles s;
     audit_logs := audit_logs s; money_assignments := money_assignments s |}.

Definition with_profiles (m : gmap string Profile) (s : Store) : Store :=
  {| expenses := expenses s; profiles := m; user_roles := user_roles s;
     audit_logs := audit_logs s; money_assignments := money_assignments s |}.

Definition with_audit_logs (l : list AuditLog) (s : Store) : Store :=
  {| expenses := expenses s; profiles := profiles s;
     user_roles := user_roles s; audit_logs := l;
     money_assignments := money_assignments s |}.

Definition with_money_assignments (l : list MoneyAssignment) (s : Store)
  : Store :=
  {| expenses := expenses s; profiles := profiles s;
     user_roles := user_roles s; audit_logs := audit_logs s;
     money_assignments := l |}.

(** ** ExpenseService *)

Section Service.

Variable env : Env.

#[local] Open Scope svc_scope.

(** A store error object is thrown as it is. *)
Definition orThrow {A} (site : Site) (r : option A) : M A :=
  match r with
  | Some a => ret a
  | None => throw (StoreError site)
  end.

(** [from("expenses").select(..).eq("id", expenseId).single()]: the row,
    or an error when the call fails or no row has this id. *)
Definition select_expense (site : Site) (expenseId : string)
  : M (option Expense) :=
  fun s =>
    if fails env site then (s, Ok None)
    else (s, Ok (expenses s !! expenseId)).

(** [from("expenses").update(..).eq("id", expenseId).select().single()]:
    the updated row, or an error when the call fails or no row has this
    id; nothing is written in that case. *)
Definition update_expense (site : Site) (expenseId : string)
    (f : Expense -> Expense) : M (option Expense) :=
  fun s =>
    if fails env site then (s, Ok None)
    else match expenses s !! expenseId with
         | Some e =>
             (with_expenses (<[expenseId := f e]> (expenses s)) s,
              Ok (Some (f e)))
         | None => (s, Ok None)
         end.

(** [from("expenses").update(..).eq("id", expenseId)] whose answer is
    not looked at. *)
Definition update_expense_unchecked (site : Site) (expenseId : string)
    (f : Expense -> Expense) : M unit :=
  fun s =>
    if fails env site then (s, Ok tt)
    else (with_expenses (alter f expenseId (expenses s)) s, Ok tt).

(** [from("profiles").select(..).eq("user_id", userId).single()]. *)
Definition select_profile (site : Site) (userId : string)
  : M (option Profile) :=
  fun s =>
    if fails env site then (s, Ok None)
    else (s, Ok (profiles s !! userId)).

(** [from("profiles").update({ balance }).eq("user_id", userId)]: [true]
    when the answer carries an error.  A user without a profile row is
    not an error: no row is written. *)
Definition update_balance (site : Site) (userId : string) (v : number)
  : M bool :=
  fun s =>
    if fails env site then (s, Ok true)
    else (with_profiles (alter (set_balance v) userId (profiles s)) s,
          Ok false).

(** Rows of [user_roles] with this user and this role. *)
Definition role_rows (userId : string) (role : Role) (s : Store)
  : list (string * Role) :=
  List.filter
    (fun r => String.eqb (fst r) userId && role_eqb (snd r) role)
    (user_roles s).

(** [hasRole]: [maybeSingle()] answers with an error when several rows
    match. *)
Definition hasRole (userId : string) (role : Role) : M bool :=
  fun s =>
    if String.eqb userId "" || String.eqb (trim userId) ""
    then (s, Ok false)
    else if fails env (RoleSelect userId role) then (s, Ok false)
    else match role_rows userId role s with
         | [_] => (s, Ok true)
         | _ => (s, Ok false)
         end.

(** [logAction]: the answer of the insert is not looked at. *)
Definition logAction (expenseId userId : string) (act : string)
    (comment : option string) : M unit :=
  fun s =>
    if fails env AuditInsert then (s, Ok tt)
    else (with_audit_logs
            (audit_logs s ++
             [{| log_expense_id := expenseId; log_user_id := userId;
                 action := act; log_comment := comment |}]) s,
          Ok tt).

Definition canUserEditExpense (expenseId userId : string) : M bool :=
  let* isAdmin := hasRole userId admin in
  if isAdmin then ret true
  else
    let* r := select_expense EditCheckSelect expenseId in
    match r with
    | None => ret false
    | Some expense =>
        ret (String.eqb (user_id expense) userId
             && status_eqb (status expense) submitted)
    end.

Definition canEngineerReviewExpense (expenseId engineerId : string)
  : M bool :=
  let* r := select_expense ReviewCheckSelect expenseId in
  match r with
  | None => ret false
  | Some expense => ret (is_string (assigned_engineer_id expense) engineerId)
  end.

(** The row the insert of [createExpense] produces; the store generates
    the id and the two instants. *)
Definition new_expense (newId userId : string) (data : CreateExpenseData)
  : Expense :=
  {| id := newId; user_id := userId; title := c_title data;
     destination := c_destination data; trip_start := c_trip_start data;
     trip_end := c_trip_end data; purpose := c_purpose data;
     category := c_category data;
     total_amount := json_number (or_zero (c_amount data));
     status := default submitted (c_status data);
     admin_comment := None; assigned_engineer_id := None;
     created_at := now env; updated_at := now env |}.

(** [from("expenses").insert(..).select().single()]. *)
Definition insert_expense (userId : string) (data : CreateExpenseData)
  : M (option Expense) :=
  fun s =>
    if fails env ExpenseInsert then (s, Ok None)
    else
      let newId := fresh (dom (expenses s)) in
      let e := new_expense newId userId data in
      (with_expenses (<[newId := e]> (expenses s)) s, Ok (Some e)).

Definition createExpense (userId : string) (data : CreateExpenseData)
  : M Expense :=
  let* r := insert_expense userId data in
  match r with
  | None => throw CreateFailed
  | Some expense =>
      logAction (id expense) userId "expense_created"
        (Some "Expense created") ;;
      ret expense
  end.

Definition status_name (p : PatchStatus) : string :=
  match p with
  | to_submitted => "submitted"
  | to_verified => "verified"
  | to_approved => "approved"
  end.

(** The request [{ ...data, total_amount, updated_at }] of
    [updateExpense] applied to a row.  The [amount] property travels in
    the request too; it names no column of the row. *)
Definition apply_update (data : UpdateExpenseData)
    (totalAmount : option number) (e : Expense) : Expense :=
  set_updated_at (now env)
    (set_total_amount
       (match u_amount data with
        | Some v => json_number v
        | None => totalAmount
        end)
      (when_given (u_category data)
         (fun v e => set_details (title e) (destination e) (trip_start e)
                       (trip_end e) (purpose e) v e)
      (when_given (u_assigned_engineer_id data)
         (fun v => set_assigned_engineer_id (Some v))
      (when_given (u_admin_comment data)
         (fun v => set_admin_comment (Some v))
      (when_given (u_status data) (fun v => set_status (patched v))
      (when_given (u_purpose data)
         (fun v e => set_details (title e) (destination e) (trip_start e)
                       (trip_end e) (Some v) (category e) e)
      (when_given (u_trip_end data)
         (fun v e => set_details (title e) (destination e) (trip_start e)
                       v (purpose e) (category e) e)
      (when_given (u_trip_start data)
         (fun v e => set_details (title e) (destination e) v
                       (trip_end e) (purpose e) (category e) e)
      (when_given (u_destination data)
         (fun v e => set_details (title e) v (trip_start e)
                       (trip_end e) (purpose e) (category e) e)
      (when_given (u_title data)
         (fun v e => set_details v (destination e) (trip_start e)
                       (trip_end e) (purpose e) (category e) e)
         e)))))))))).

Definition updateExpense (expenseId userId : string)
    (data : UpdateExpenseData) : M Expense :=
  let* canEdit := canUserEditExpense expenseId userId in
  if negb canEdit then throw EditDenied
  else
    let* r := select_expense ExpenseSelect expenseId in
    let* currentExpense := orThrow ExpenseSelect r in
    if negb (status_eqb (status currentExpense) submitted)
       && negb (bool_decide (is_Some (u_status data)))
    then throw NotEditable
    else
      let totalAmount := total_amount currentExpense in
      let* r := update_expense ExpenseUpdate expenseId
                  (apply_update data totalAmount) in
      let* updatedExpense := orThrow ExpenseUpdate r in
      let act := match u_status data with
                 | Some st => "status_changed_to_" +:+ status_name st
                 | None => "expense_updated"
                 end in
      logAction expenseId userId act (u_admin_comment data) ;;
      ret updatedExpense.

Definition submitExpense (expenseId userId : string) : M Expense :=
  let* canEdit := canUserEditExpense expenseId userId in
  if negb canEdit then throw SubmitDenied
  else
    let* r := select_expense ExpenseSelect expenseId in
    let* expense := orThrow ExpenseSelect r in
    if negb (status_eqb (status expense) submitted)
    then throw NotResubmittable
    else
      let* r := select_profile ProfileSelect userId in
      let* profile := orThrow ProfileSelect r in
      if negb (truthy (reporting_engineer_id profile))
      then throw NoReportingEngineer
      else
        let* r := update_expense ExpenseUpdate expenseId
                    (fun e => set_updated_at (now env)
                       (set_assigned_engineer_id
                          (reporting_engineer_id profile)
                          (set_status submitted e))) in
        let* updatedExpense := orThrow ExpenseUpdate r in
        let logMsg := "Expense submitted and auto-assigned to engineer "
                      +:+ interp (reporting_engineer_id profile) in
        logAction expenseId userId "expense_submitted" (Some logMsg) ;;
        ret updatedExpense.

Definition assignToEngineer (expenseId engineerId adminId : string)
  : M Expense :=
  let* isAdmin := hasRole adminId admin in
  if negb isAdmin then throw AssignNotAdmin
  else
    let* isEngineer := hasRole engineerId engineer in
    if negb isEngineer then throw AssigneeNotEngineer
    else
      let* r := update_expense ExpenseUpdate expenseId
                  (fun e => set_updated_at (now env)
                     (set_status submitted
                        (set_assigned_engineer_id (Some engineerId) e))) in
      let* updatedExpense := orThrow ExpenseUpdate r in
      logAction expenseId adminId "expense_assigned"
        (Some ("Assigned to engineer " +:+ engineerId)) ;;
      ret updatedExpense.

Definition verifyExpense (expenseId engineerId : string)
    (comment : option string) : M Expense :=
  let* canReview := canEngineerReviewExpense expenseId engineerId in
  if negb canReview then throw ReviewDenied
  else
    let* r := select_expense ExpenseSelect expenseId in
    let* current := orThrow ExpenseSelect r in
    if status_eqb (status current) approved
    then throw VerifyAlreadyApproved
    else if negb (status_eqb (status current) submitted)
    then throw VerifyNotSubmitted
    else
      let* r := update_expense ExpenseUpdate expenseId
                  (fun e => set_updated_at (now env)
                              (set_status verified e)) in
      let* updatedExpense := orThrow ExpenseUpdate r in
      logAction expenseId engineerId "expense_verified" comment ;;
      ret updatedExpense.

Definition approveExpense (expenseId adminId : string)
    (comment : option string) : M Expense :=
  let* isAdmin := hasRole adminId admin in
  if negb isAdmin then throw ApproveNotAdmin
  else
    let* r := select_expense ExpenseSelect expenseId in
    let* expense := orThrow ExpenseSelect r in
    if status_eqb (status expense) approved
    then throw ApproveAlreadyApproved
    else if negb (status_eqb (status expense) verified)
    then throw ApproveNotVerified
    else
      let* r := select_profile ProfileSelect (user_id expense) in
      let* profile := orThrow ProfileSelect r in
      let currentBalance := balance_or_0 profile in
      let expenseAmount := Number (total_amount expense) in
      if ltb currentBalance expenseAmount
      then throw (InsufficientBalance (name profile) currentBalance
                    expenseAmount)
      else
        let* r := update_expense ExpenseUpdate expenseId
                    (fun e => set_updated_at (now env)
                       (when_given comment
                          (fun v => set_admin_comment (Some v))
                          (set_status approved e))) in
        let* updatedExpense := orThrow ExpenseUpdate r in
        let newBalance := sub currentBalance expenseAmount in
        let* balanceUpdateError :=
          update_balance BalanceUpdate (user_id expense) newBalance in
        if balanceUpdateError
        then
          update_expense_unchecked StatusRevert expenseId
            (fun e => set_updated_at (now env) (set_status verified e)) ;;
          throw DeductionFailed
        else
          let logComment :=
            trim (default "" comment +:+ " Balance deducted: " +:+ rupee
                  +:+ toFixed2 expenseAmount +:+ ". Remaining balance: "
                  +:+ rupee +:+ toFixed2 newBalance) in
          logAction expenseId adminId "expense_approved"
            (Some logComment) ;;
          ret updatedExpense.

Definition rejectExpense (expenseId adminId : string)
    (comment : option string) : M Expense :=
  let* isAdmin := hasRole adminId admin in
  if negb isAdmin then throw RejectNotAdmin
  else
    let* r := update_expense ExpenseUpdate expenseId
                (fun e => set_updated_at (now env)
                   (when_given comment
                      (fun v => set_admin_comment (Some v))
                      (set_status rejected e))) in
    let* updatedExpense := orThrow ExpenseUpdate r in
    logAction expenseId adminId "expense_rejected" comment ;;
    ret updatedExpense.

End Service.

(** ** The Expenses page: returning money *)

(** What the handler reads from the page: the signed-in user and role of
    [useAuth()], the [userBalance] the page fetched when it was mounted,
    and the number [parseFloat(returnAmount)] makes of the text typed
    (NaN when it makes none). *)
Record Page := {
  user : option string;
  userRole : option Role;
  userBalance : option number;
  returnAmount : number
}.

(** The toasts of [handleReturnMoney]. *)
Inductive Toast :=
  | InvalidAmount
  | InsufficientBalanceToast (has wanted : number)
  | MoneyReturned (returned : number) (target : string) (newBalance : number)
  | ErrorToast (e : Error).

(** The page after [setUserBalance(v)] and [setReturnAmount("")]. *)
Definition set_userBalance (v : number) (p : Page) : Page :=
  {| user := user p; userRole := userRole p; userBalance := Some v;
     returnAmount := S754_nan |}.

Definition mark_returned_row (t : Z) (r : MoneyAssignment) : MoneyAssignment :=
  {| ma_id := ma_id r; cashier_id := cashier_id r;
     recipient_id := recipient_id r; amount := amount r;
     assigned_at := assigned_at r; is_returned := true;
     returned_at := Some t; ma_updated_at := t |}.

(** [order("assigned_at", { ascending: true })]: the earlier row first;
    rows of the same instant in the order the store chooses. *)
Definition assigned_before (rank : MoneyAssignment → Z)
    (a b : MoneyAssignment) : Prop :=
  assigned_at a < assigned_at b
  ∨ (assigned_at a = assigned_at b ∧ rank a <= rank b).

#[global] Instance assigned_before_dec rank a b :
  Decision (assigned_before rank a b).
Proof. unfold assigned_before. apply _. Defined.

Section ReturnMoney.

Variable env : Env.

#[local] Open Scope svc_scope.

(** [from("user_roles").select("user_id").eq("role", targetRole).limit(1)]
    and the [throw]s that follow it.  A store error is thrown as it is, or
    reworded when its message speaks of permissions; both are the store
    error here. *)
Definition first_with_role (targetRole : Role) : M string :=
  fun s =>
    if fails env TargetRoleSelect
    then (s, Throw (StoreError TargetRoleSelect))
    else match List.filter (fun r => role_eqb (snd r) targetRole)
                 (user_roles s) with
         | [] => (s, Throw (NoTargetFound targetRole))
         | r :: _ => (s, Ok (fst r))
         end.

(** [rpc('get_original_cashier', { recipient_user_id })]. *)
Definition get_original_cashier : option string :=
  if fails env OriginalCashierRpc then None else original_cashier env.

(** The target role and target user for the caller's role. *)
Definition find_target (role : Role) : M (option Role * option string) :=
  match role with
  | engineer | employee =>
      let originalCashierId := get_original_cashier in
      if truthy originalCashierId
      then ret (Some cashier, originalCashierId)
      else
        let* t := first_with_role cashier in
        ret (Some cashier, Some t)
  | cashier =>
      let* t := first_with_role admin in
      ret (Some admin, Some t)
  | admin => ret (None, None)
  end.

(** The unreturned assignments of [cashierId] to [userId], oldest
    first. *)
Definition unreturned_assignments (userId cashierId : string) (s : Store)
  : list MoneyAssignment :=
  merge_sort (assigned_before (tie_rank env))
    (List.filter
       (fun r => String.eqb (recipient_id r) userId
                 && String.eqb (cashier_id r) cashierId
                 && negb (is_returned r))
       (money_assignments s)).

Definition select_assignments (userId cashierId : string)
  : M (option (list MoneyAssignment)) :=
  fun s =>
    if fails env AssignmentsSelect then (s, Ok None)
    else (s, Ok (Some (unreturned_assignments userId cashierId s))).

(** [from("money_assignments").update(..).eq("id", assignment.id)]; an
    error is logged and not thrown. *)
Definition mark_returned (assignmentId : string) : M unit :=
  fun s =>
    if fails env (AssignmentUpdate assignmentId) then (s, Ok tt)
    else
      (with_money_assignments
         (List.map
            (fun r => if String.eqb (ma_id r) assignmentId
                      then mark_returned_row (now env) r else r)
            (money_assignments s)) s,
       Ok tt).

(** The [for (const assignment of assignments)] loop. *)
Fixpoint mark_assignments (assignments : list MoneyAssignment)
    (remainingAmount : number) : M unit :=
  match assignments with
  | [] => ret tt
  | assignment :: rest =>
      if leb remainingAmount zero then ret tt
      else
        let assignmentAmount :=
          Math_min (Number (amount assignment)) remainingAmount in
        mark_returned (ma_id assignment) ;;
        mark_assignments rest (sub remainingAmount assignmentAmount)
  end.

Definition is_returner (role : Role) : bool :=
  role_eqb role engineer || role_eqb role employee.

(** The body of the [try] block; it yields the arguments of the success
    toast. *)
Definition return_money (userId : string) (role : Role)
    (userBalance amount : number) : M (string * number) :=
  let* t := find_target role in
  match t with
  | (Some targetRole, Some targetUserId) =>
      if negb (truthy (Some targetUserId)) then throw InvalidReturnRole
      else
        let* r := select_profile env TargetProfileSelect targetUserId in
        let* targetProfile := orThrow TargetProfileSelect r in
        let newUserBalance := sub userBalance amount in
        let* userBalanceError :=
          update_balance env UserBalanceUpdate userId newUserBalance in
        if userBalanceError then throw (StoreError UserBalanceUpdate)
        else
          let newTargetBalance :=
            add (or_zero (balance targetProfile)) amount in
          let* targetBalanceError :=
            update_balance env TargetBalanceUpdate targetUserId
              newTargetBalance in
          if targetBalanceError then throw (StoreError TargetBalanceUpdate)
          else
            (if is_returner role && role_eqb targetRole cashier
             then
               let* r := select_assignments userId targetUserId in
               match r with
               | Some (a :: l) => mark_assignments (a :: l) amount
               | _ => ret tt
               end
             else ret tt) ;;
            ret (or_else (name targetProfile) (role_name targetRole),
                 newUserBalance)
  | _ => throw InvalidReturnRole
  end.

(** [handleReturnMoney]: the store and the page it leaves, and the toast
    it shows, if any. *)
Definition handleReturnMoney (page : Page) (s : Store)
  : Store * Page * option Toast :=
  match user page, userRole page, userBalance page with
  | Some userId, Some role, Some userBalance =>
      let amount := returnAmount page in
      if isNaN amount || leb amount zero then (s, page, Some InvalidAmount)
      else if ltb userBalance amount
      then (s, page, Some (InsufficientBalanceToast userBalance amount))
      else
        match return_money userId role userBalance amount s with
        | (s', Ok (targetName, newUserBalance)) =>
            (s', set_userBalance newUserBalance page,
             Some (MoneyReturned amount targetName newUserBalance))
        | (s', Throw e) => (s', page, Some (ErrorToast e))
        end
  | _, _, _ => (s, page, None)
  end.

End ReturnMoney.

(** ** Observations on a store *)

(** The status of an expense, if the row exists. *)
Definition status_of (s : Store) (expenseId : string) : option Status :=
  status <$> expenses s !! expenseId.

(** The balance of a user as the source reads it ([null] counts as 0), if
    the profile exists. *)
Definition balance_of (s : Store) (userId : string) : option number :=
  balance_or_0 <$> profiles s !! userId.

(** The error taxonomy of the specification.  The service throws plain
    [Error]s that differ by their message only; [kind] files each [throw]
    under the heading the specification gives it.  Store errors that are
    passed on unchanged have no heading of their own. *)
Inductive ErrorKind :=
  | PermissionError
  | StateError
  | ValidationError
  | FatalError.

Definition kind (e : Error) : option ErrorKind :=
  match e with
  | EditDenied | SubmitDenied | AssignNotAdmin | AssigneeNotEngineer
  | ReviewDenied | ApproveNotAdmin | RejectNotAdmin => Some PermissionError
  | NotEditable | NotResubmittable | VerifyAlreadyApproved
  | VerifyNotSubmitted | ApproveAlreadyApproved | ApproveNotVerified =>
      Some StateError
  | NoReportingEngineer | InsufficientBalance _ _ _ => Some ValidationError
  | DeductionFailed => Some FatalError
  | CreateFailed | NoTargetFound _ | InvalidReturnRole | StoreError _ => None
  end.

(** The status transitions the specification lists. *)
Definition spec_transition (a b : Status) : bool :=
  match a, b with
  | submitted, verified
  | verified, approved
  | submitted, rejected
  | verified, rejected
  | submitted, submitted => true
  | _, _ => false
  end.

(** The operations of the lifecycle engine. *)
Inductive Op :=
  | Create (userId : string) (data : CreateExpenseData)
  | Update (expenseId userId : string) (data : UpdateExpenseData)
  | Submit (expenseId userId : string)
  | AssignToEngineer (expenseId engineerId adminId : string)
  | Verify (expenseId engineerId : string) (comment : option string)
  | Approve (expenseId adminId : string) (comment : option string)
  | Reject (expenseId adminId : string) (comment : option string).

Definition exec (env : Env) (op : Op) : M Expense :=
  match op with
  | Create userId data => createExpense env userId data
  | Update expenseId userId data => updateExpense env expenseId userId data
  | Submit expenseId userId => submitExpense env expenseId userId
  | AssignToEngineer expenseId engineerId adminId =>
      assignToEngineer env expenseId engineerId adminId
  | Verify expenseId engineerId comment =>
      verifyExpense env expenseId engineerId comment
  | Approve expenseId adminId comment =>
      approveExpense env expenseId adminId comment
  | Reject expenseId adminId comment =>
      rejectExpense env expenseId adminId comment
  end.

(** A sequence of operations, each with the environment it runs in; the
    exceptions are dropped, the writes stay. *)
Fixpoint exec_all (steps : list (Env * Op)) (s : Store) : Store :=
  match steps with
  | [] => s
  | (env, op) :: rest => exec_all rest (exec env op s).1
  end.

(** The changes of status each operation can make to expense [x] in
    store [s]: from [a] to [b]. *)
Definition moves (env : Env) (s : Store) (op : Op) (x : string)
    (a b : Status) : Prop :=
  match op with
  | Create _ _ => False
  | Submit _ _ => False
  | Verify expenseId _ _ => expenseId = x ∧ a = submitted ∧ b = verified
  | Approve expenseId _ _ => expenseId = x ∧ a = verified ∧ b = approved
  | Reject expenseId adminId _ =>
      expenseId = x ∧ b = rejected ∧ hasRole env adminId admin s = (s, Ok true)
  | AssignToEngineer expenseId _ adminId =>
      expenseId = x ∧ b = submitted
      ∧ hasRole env adminId admin s = (s, Ok true)
  | Update expenseId userId data =>
      expenseId = x
      ∧ (∃ st, u_status data = Some st ∧ b = patched st)
      ∧ (a = submitted ∨ hasRole env userId admin s = (s, Ok true))
  end.

(** What is left of an amount [L] after a row took its share: the amount
    assigned to the row, or all of [L] when the row was assigned at least
    as much. *)
Definition after_row (L : number) (r : MoneyAssignment) : number :=
  sub L (Math_min (Number (amount r)) L).

(** What is left of [A] after the rows [p] took their shares in turn. *)
Definition amount_left (A : number) (p : list MoneyAssignment) : number :=
  foldl after_row A p.

(** The rows a return of [A] consumes: the oldest rows, as long as what
    is left of [A] is positive. *)
Fixpoint oldest_reaching (A : number) (l : list MoneyAssignment)
  : list MoneyAssignment :=
  match l with
  | [] => []
  | r :: l' =>
      if leb A zero then [] else r :: oldest_reaching (after_row A r) l'
  end.

(** Of the rows [ids], those whose marking write answers. *)
Definition answered (env : Env) (ids : list string) : list string :=
  List.filter (fun i => negb (fails env (AssignmentUpdate i))) ids.

(** A table in which the rows whose id is among [ids] are marked
    returned at instant [t]. *)
Definition marked (t : Z) (ids : list string) (table : list MoneyAssignment)
  : list MoneyAssignment :=
  List.map
    (fun r => if bool_decide (ma_id r ∈ ids) then mark_returned_row t r else r)
    table.

(** ** A sample store *)

Definition sample_expense (st : Status) : Expense :=
  {| id := "exp-1"; user_id := "emp-1"; title := "Site visit";
     destination := "Pune"; trip_start := "2024-03-01";
     trip_end := "2024-03-03"; purpose := None; category := "travel";
     total_amount := Some (of_Z 1500); status := st; admin_comment := None;
     assigned_engineer_id := Some "eng-1"; created_at := 10;
     updated_at := 10 |}.

Definition sample_profile (b : number) (eng : option string) : Profile :=
  {| name := Some "E. One"; balance := Some b; reporting_engineer_id := eng |}.

Definition sample_assignment (i c : string) (a : number) (t : Z) (ret : bool)
  : MoneyAssignment :=
  {| ma_id := i; cashier_id := c; recipient_id := "emp-1"; amount := Some a;
     assigned_at := t; is_returned := ret; returned_at := None;
     ma_updated_at := t |}.

(** One expense of 1500.00 of employee [emp-1] with the given status,
    whose balance is [b]; a second employee, an engineer, an admin and a
    cashier holding 2000.00; the money the cashiers assigned to [emp-1]. *)
Definition sample_store (st : Status) (b : number) : Store :=
  {| expenses := {[ "exp-1" := sample_expense st ]};
     profiles :=
       <[ "emp-1" := sample_profile b (Some "eng-1") ]>
       (<[ "emp-2" := sample_profile zero (Some "eng-2") ]>
       (<[ "csh-1" := sample_profile (of_Z 2000) None ]>
       (<[ "eng-1" := sample_profile zero None ]>
       (<[ "adm-1" := sample_profile zero None ]> ∅))));
     user_roles := [("emp-1", employee); ("emp-2", employee);
                    ("eng-1", engineer);
                    ("adm-1", admin); ("csh-1", cashier)];
     audit_logs := [];
     money_assignments :=
       [sample_assignment "ma-1" "csh-1" (of_Z 100) 3 false;
        sample_assignment "ma-2" "csh-1" (of_Z 200) 1 false;
        sample_assignment "ma-3" "csh-2" (of_Z 400) 0 false;
        sample_assignment "ma-4" "csh-1" (of_Z 500) 2 false;
        sample_assignment "ma-5" "csh-1" (of_Z 700) 0 true] |}.

(** An environment in which every store call answers. *)
Definition calm : Env :=
  {| fails := fun _ => false; now := 20; original_cashier := None;
     tie_rank := fun _ => 0 |}.

(** The environment in which exactly the calls of [bad] fail. *)
Definition failing (bad : Site -> bool) : Env :=
  {| fails := bad; now := 20; original_cashier := None;
     tie_rank := fun _ => 0 |}.

(** The write of the balance in [approveExpense] fails, nothing else. *)
Definition deduction_fails : Env :=
  failing (fun site => match site with BalanceUpdate => true | _ => false end).

(** The write of the target's balance in [handleReturnMoney] fails,
    nothing else. *)
Definition credit_fails : Env :=
  failing (fun site =>
             match site with TargetBalanceUpdate => true | _ => false end).

(** The select of the assignments in [handleReturnMoney] fails, nothing
    else. *)
Definition select_fails : Env :=
  failing (fun site =>
             match site with AssignmentsSelect => true | _ => false end).

(** Three assignments of [csh-1] to [emp-1], of 0.70, 0.10 and 5.00, in
    this order. *)
Definition small_assignments : list MoneyAssignment :=
  [sample_assignment "ma-1" "csh-1" (cents 70) 1 false;
   sample_assignment "ma-2" "csh-1" (cents 10) 2 false;
   sample_assignment "ma-3" "csh-1" (of_Z 5) 3 false].

(** The store without the role rows of [userId]. *)
Definition without_roles (userId : string) (s : Store) : Store :=
  {| expenses := expenses s; profiles := profiles s;
     user_roles :=
       List.filter (fun r => negb (String.eqb (fst r) userId)) (user_roles s);
     audit_logs := audit_logs s;
     money_assignments := money_assignments s |}.

(** The write of the balance and the write that takes the approval back
    both fail, nothing else. *)
Definition deduction_and_revert_fail : Env :=
  failing (fun site =>
             match site with
             | BalanceUpdate | StatusRevert => true
             | _ => false
             end).

(** The store in which every expense has the total amount [a]. *)
Definition priced (a : number) (s : Store) : Store :=
  with_expenses (set_total_amount (Some a) <$> expenses s) s.

(** A patch that sets the status and nothing else. *)
Definition status_patch (st : PatchStatus) : UpdateExpenseData :=
  {| u_title := None; u_destination := None; u_trip_start := None;
     u_trip_end := None; u_purpose := None; u_status := Some st;
     u_admin_comment := None; u_assigned_engineer_id := None;
     u_amount := None; u_category := None |}.

(** The page of the signed-in [userId] showing balance [b], with [a]
    typed as the amount to return. *)
Definition sample_page (userId : string) (role : Role) (b a : number)
  : Page :=
  {| user := Some userId; userRole := Some role; userBalance := Some b;
     returnAmount := a |}.


(** ** Who acts on what *)

(** The user on whose behalf an operation runs: the argument the service
    checks roles and ownership against. *)
Definition caller (op : Op) : string :=
  match op with
  | Create userId _ => userId
  | Update _ userId _ => userId
  | Submit _ userId => userId
  | AssignToEngineer _ _ adminId => adminId
  | Verify _ engineerId _ => engineerId
  | Approve _ adminId _ => adminId
  | Reject _ adminId _ => adminId
  end.

(** The expense an operation is asked to work on; [createExpense] is
    given none. *)
Definition target (op : Op) : option string :=
  match op with
  | Create _ _ => None
  | Update expenseId _ _ => Some expenseId
  | Submit expenseId _ => Some expenseId
  | AssignToEngineer expenseId _ _ => Some expenseId
  | Verify expenseId _ _ => Some expenseId
  | Approve expenseId _ _ => Some expenseId
  | Reject expenseId _ _ => Some expenseId
  end.

(** What the new-expense form sends. *)
Definition sample_data (a : number) : CreateExpenseData :=
  {| c_title := "Plant audit"; c_destination := "Surat";
     c_trip_start := "2024-04-02"; c_trip_end := "2024-04-04";
     c_purpose := None; c_amount := Some a; c_category := "travel";
     c_status := None |}.

(** ** The review page of the engineers *)

Module EngineerReview.

(** What the handlers read from the page: the signed-in user, the expense
    opened in the dialog (the page's copy of the row), the comment typed,
    the approval limit loaded from the settings and the busy flag. *)
Record Page := {
  user : option string;
  selectedExpense : option Expense;
  engineerComment : string;
  engineerApprovalLimit : number;
  reviewLoading : bool
}.

(** The toast a handler ends with. *)
Inductive Toast :=
  | Done (title : string)
  | Failed (e : Error).

(** The body shared by the three handlers: nothing without a selection or
    a user, else the call of the service and its toast. *)
Definition review (call : string → string → option string → M Expense)
    (title : string) (page : Page) (s : Store) : Store * option Toast :=
  match selectedExpense page, user page with
  | Some exp, Some userId =>
      match call (id exp) userId (Some (engineerComment page)) s with
      | (s', Ok _) => (s', Some (Done title))
      | (s', Throw e) => (s', Some (Failed e))
      end
  | _, _ => (s, None)
  end.

Definition verifyExpense (env : Env) : Page → Store → Store * option Toast :=
  review (verifyExpense env) "Success".

Definition approveExpense (env : Env) : Page → Store → Store * option Toast :=
  review (approveExpense env) "Expense Approved".

Definition rejectExpense (env : Env) : Page → Store → Store * option Toast :=
  review (rejectExpense env) "Expense Rejected".

Definition isActionDisabled (page : Page) (exp : option Expense) : bool :=
  match exp with
  | None => true
  | Some exp =>
      if status_eqb (status exp) approved then true
      else if status_eqb (status exp) rejected then true
      else if status_eqb (status exp) verified
              && leb (engineerApprovalLimit page) (Number (total_amount exp))
      then true
      else false
  end.

Inductive Button := Reject | Approve | Verify.

(** The action buttons of the dialog, each with its [disabled] flag: none
    for a rejected expense, Reject and Approve up to the limit, Reject and
    Verify above it. *)
Definition action_buttons (page : Page) : list (Button * bool) :=
  match selectedExpense page with
  | None => []
  | Some exp =>
      if status_eqb (status exp) rejected then []
      else
        let expenseAmount := Number (total_amount exp) in
        let limit := engineerApprovalLimit page in
        let canTakeAction := negb (isActionDisabled page (Some exp)) in
        let disabled := reviewLoading page || negb canTakeAction in
        if leb expenseAmount limit
        then [(Reject, disabled); (Approve, disabled)]
        else [(Reject, disabled); (Verify, disabled)]
  end.

(** The handler behind a button. *)
Definition click (env : Env) (b : Button)
  : Page → Store → Store * option Toast :=
  match b with
  | Reject => rejectExpense env
  | Approve => approveExpense env
  | Verify => verifyExpense env
  end.

End EngineerReview.

(** The review page of [userId] with the dialog open on [exp]. *)
Definition sample_review (userId : string) (exp : Expense) (limit : number)
  : EngineerReview.Page :=
  {| EngineerReview.user := Some userId;
     EngineerReview.selectedExpense := Some exp;
     EngineerReview.engineerComment := "ok";
     EngineerReview.engineerApprovalLimit := limit;
     EngineerReview.reviewLoading := false |}.

(** ** The CSV export of the Expenses page *)

(** The quote character, the comma and the line feed. *)
Definition quote : Ascii.ascii := Ascii.ascii_of_nat 34.
Definition comma : Ascii.ascii := Ascii.ascii_of_nat 44.
Definition line_feed : Ascii.ascii := Ascii.ascii_of_nat 10.

(** [str.includes(c)] for a one-character [c]. *)
Fixpoint has_char (c : Ascii.ascii) (s : string) : bool :=
  match s with
  | EmptyString => false
  | String a s' => Ascii.eqb a c || has_char c s'
  end.

(** The [str.replace] of [escapeCSV]: every quote becomes two quotes. *)
Fixpoint double_quotes (s : string) : string :=
  match s with
  | EmptyString => EmptyString
  | String a s' =>
      if Ascii.eqb a quote
      then String quote (String quote (double_quotes s'))
      else String a (double_quotes s')
  end.

(** [escapeCSV], on the values the export passes to it: strings, [null]
    and [undefined]. *)
Definition escapeCSV (value : option string) : string :=
  match value with
  | None => EmptyString
  | Some str =>
      if has_char comma str || has_char quote str || has_char line_feed str
      then String quote (double_quotes str +:+ String quote EmptyString)
      else str
  end.

(** A string in which every quote is one of a pair of adjacent quotes. *)
Fixpoint quotes_paired (s : string) : bool :=
  match s with
  | EmptyString => true
  | String a s' =>
      if Ascii.eqb a quote
      then match s' with
           | String b s'' => Ascii.eqb b quote && quotes_paired s''
           | EmptyString => false
           end
      else quotes_paired s'
  end.

(** ** The Balances page: adding money to users *)

Module Balances.

(** A row of the table the page shows: a profile with the role the page
    worked out for it. *)
Record ProfileRow := {
  row_user_id : string;
  row_name : option string;
  row_balance : option number;
  row_role : string
}.

(** What the handlers read from the page: the signed-in user and role,
    the rows and the cashier's balance as they were loaded. *)
Record Page := {
  user : option string;
  userRole : option Role;
  rows : list ProfileRow;
  cashierBalance : number
}.

(** Row of [notifications]. *)
Record Notification := {
  n_user_id : string;
  n_type : string;
  n_title : string;
  n_message : string;
  n_expense_id : option string
}.

(** The store together with the table of notifications. *)
Record World := {
  store : Store;
  notifications : list Notification
}.

(** The places where the handlers of the page await the store; the
    writes for a recipient are told apart by the recipient. *)
Inductive Site :=
  | CashierUpdate
  | TargetUpdate (userId : string)
  | CashierRollback
  | AdderSelect
  | NotificationInsert (userId : string).

Inductive Failure :=
  | UserNotFound
  | StoreFailure (site : Site).

Inductive Toast :=
  | NotAllowed
  | InsufficientBalance (needed has : number)
  | AmountAdded (added : number) (to : option string)
  | BalanceUpdated (added : option (number * option string))
  | Failed (f : Failure)
  | EnterAmount
  | SelectUser
  | EnterValidAmount
  | BulkSuccess (added : number) (users : nat)
  | BulkPartial (users failed : nat).

Definition with_store (s : Store) (w : World) : World :=
  {| store := s; notifications := notifications w |}.

Definition set_cashierBalance (v : number) (p : Page) : Page :=
  {| user := user p; userRole := userRole p; rows := rows p;
     cashierBalance := v |}.

Definition set_rows (l : list ProfileRow) (p : Page) : Page :=
  {| user := user p; userRole := userRole p; rows := l;
     cashierBalance := cashierBalance p |}.

(** [{ ...r, balance: v }]. *)
Definition set_row_balance (v : number) (r : ProfileRow) : ProfileRow :=
  {| row_user_id := row_user_id r; row_name := row_name r;
     row_balance := Some v; row_role := row_role r |}.

(** [rows.find(r => r.user_id === userId)]. *)
Definition find_row (page : Page) (userId : string) : option ProfileRow :=
  List.find (fun r => String.eqb (row_user_id r) userId) (rows page).

(** [userRole === 'cashier' && user?.id], with the id when it holds. *)
Definition cashier_user (page : Page) : option string :=
  match userRole page, user page with
  | Some cashier, Some u => if String.eqb u "" then None else Some u
  | _, _ => None
  end.

(** [userRole === 'cashier' && amount > 0 && user?.id]: the cashier whose
    balance pays for [amount]. *)
Definition debited (page : Page) (amount : number) : option string :=
  match cashier_user page with
  | Some u => if ltb zero amount then Some u else None
  | None => None
  end.

(** [from("profiles").update({ balance }).eq("user_id", userId)]. *)
Definition write_balance (userId : string) (v : number) (w : World) : World :=
  with_store
    (with_profiles (alter (set_balance v) userId (profiles (store w)))
       (store w)) w.

(** The [setRows] at the end of [addAmountToUser] and [updateBalance]. *)
Definition rows_after (page : Page) (userId : string)
    (payer : option string) (paid newBalance : number) : list ProfileRow :=
  List.map
    (fun r =>
       if String.eqb (row_user_id r) userId
       then set_row_balance newBalance r
       else if bool_decide (payer = Some (row_user_id r))
       then set_row_balance (sub (cashierBalance page) paid) r
       else r)
    (rows page).

Section Handlers.

Variable fails : Site → bool.

(** [createNotification], by way of [notifyBalanceAdded]; an error is
    logged and not thrown. *)
Definition notifyBalanceAdded (userId : string) (amount : number)
    (cashierName : option string) (w : World) : World :=
  if fails (NotificationInsert userId) then w
  else
    {| store := store w;
       notifications :=
         notifications w ++
         [{| n_user_id := userId; n_type := "balance_added";
             n_title := "Balance Added";
             n_message := interp cashierName +:+ " has added " +:+ rupee
                          +:+ toFixed2 amount +:+ " to your account";
             n_expense_id := None |}] |}.

(** [from("profiles").select("name").eq("user_id", user?.id).single()]. *)
Definition adder_profile (page : Page) (w : World) : option Profile :=
  if fails AdderSelect then None
  else match user page with
       | Some u => profiles (store w) !! u
       | None => None
       end.

Definition addAmountToUser (page : Page) (userId : string)
    (amountToAdd : number)
    (w : World) : World * Page * option Toast :=
  if bool_decide (cashier_user page = Some userId)
  then (w, page, Some NotAllowed)
  else
    match find_row page userId with
    | None => (w, page, Some (Failed UserNotFound))
    | Some currentRow =>
        let debit := debited page amountToAdd in
        if bool_decide (is_Some debit)
           && ltb (cashierBalance page) amountToAdd
        then (w, page,
              Some (InsufficientBalance amountToAdd (cashierBalance page)))
        else if bool_decide (is_Some debit) && fails CashierUpdate
        then (w, page, Some (Failed (StoreFailure CashierUpdate)))
        else
          let w1 :=
            match debit with
            | Some u =>
                write_balance u (sub (cashierBalance page) amountToAdd) w
            | None => w
            end in
          let page1 :=
            match debit with
            | Some _ =>
                set_cashierBalance (sub (cashierBalance page) amountToAdd)
                  page
            | None => page
            end in
          let newBalance :=
            add (or_zero (row_balance currentRow)) amountToAdd in
          if fails (TargetUpdate userId)
          then
            match cashier_user page with
            | Some u =>
                ((if fails CashierRollback then w1
                  else write_balance u (cashierBalance page) w1),
                 set_cashierBalance (cashierBalance page) page1,
                 Some (Failed (StoreFailure (TargetUpdate userId))))
            | None =>
                (w1, page1, Some (Failed (StoreFailure (TargetUpdate userId))))
            end
          else
            let w2 := write_balance userId newBalance w1 in
            let w3 :=
              match adder_profile page w2 with
              | Some p =>
                  if bool_decide (userRole page = Some cashier)
                     || bool_decide (userRole page = Some admin)
                  then notifyBalanceAdded userId amountToAdd (name p) w2
                  else w2
              | None => w2
              end in
            (w3,
             set_rows
               (rows_after page userId (cashier_user page) amountToAdd
                  newBalance) page1,
             Some (AmountAdded amountToAdd (row_name currentRow)))
    end.

(** The click handler of the Add button of a row. *)
Definition add_clicked (page : Page) (userId : string)
    (typed : option number) (w : World) : World * Page * option Toast :=
  let amountToAdd := or_zero typed in
  if ltb zero amountToAdd then addAmountToUser page userId amountToAdd w
  else (w, page, Some EnterAmount).

Definition updateBalance (page : Page) (userId : string)
    (newBalance : number)
    (w : World) : World * Page * option Toast :=
  if bool_decide (cashier_user page = Some userId)
  then (w, page, Some NotAllowed)
  else
    match find_row page userId with
    | None => (w, page, Some (Failed UserNotFound))
    | Some currentRow =>
        let currentBalance := or_zero (row_balance currentRow) in
        let balanceDifference := sub newBalance currentBalance in
        let debit := debited page balanceDifference in
        if bool_decide (is_Some debit)
           && ltb (cashierBalance page) balanceDifference
        then (w, page,
              Some (InsufficientBalance balanceDifference
                      (cashierBalance page)))
        else if bool_decide (is_Some debit) && fails CashierUpdate
        then (w, page, Some (Failed (StoreFailure CashierUpdate)))
        else
          let w1 :=
            match debit with
            | Some u =>
                write_balance u (sub (cashierBalance page) balanceDifference)
                  w
            | None => w
            end in
          let page1 :=
            match debit with
            | Some _ =>
                set_cashierBalance
                  (sub (cashierBalance page) balanceDifference) page
            | None => page
            end in
          if fails (TargetUpdate userId)
          then (w1, page1, Some (Failed (StoreFailure (TargetUpdate userId))))
          else
            (write_balance userId newBalance w1,
             set_rows
               (rows_after page userId debit balanceDifference newBalance)
               page1,
             Some (BalanceUpdated
                     (if bool_decide (userRole page = Some cashier)
                         && ltb zero balanceDifference
                      then Some (balanceDifference, row_name currentRow)
                      else None)))
    end.

(** The loop of the bulk dialog over the selected users, with its two
    counters. *)
Fixpoint bulk_loop (page : Page) (bulkAmount : number)
    (adminProfile : option Profile) (userIds : list string) (w : World)
    (successCount errorCount : nat) : World * nat * nat :=
  match userIds with
  | [] => (w, successCount, errorCount)
  | userId :: rest =>
      match find_row page userId with
      | None =>
          bulk_loop page bulkAmount adminProfile rest w successCount errorCount
      | Some userRow =>
          if fails (TargetUpdate userId)
          then bulk_loop page bulkAmount adminProfile rest w successCount
                 (S errorCount)
          else
            let w1 :=
              write_balance userId
                (add (or_zero (row_balance userRow)) bulkAmount) w in
            let w2 :=
              match adminProfile with
              | Some p => notifyBalanceAdded userId bulkAmount (name p) w1
              | None => w1
              end in
            bulk_loop page bulkAmount adminProfile rest w2 (S successCount)
              errorCount
      end
  end.

(** The confirm button of the dialog that adds one amount to the
    selected users. *)
Definition bulk_add_clicked (page : Page) (selectedUserIds : list string)
    (bulkAmount : number) (w : World) : World * Page * option Toast :=
  match selectedUserIds with
  | [] => (w, page, Some SelectUser)
  | _ =>
      if leb bulkAmount zero then (w, page, Some EnterValidAmount)
      else
        let adminProfile := adder_profile page w in
        let '(w', successCount, errorCount) :=
          bulk_loop page bulkAmount adminProfile selectedUserIds w 0 0 in
        (w',
         set_rows
           (List.map
              (fun r =>
                 if bool_decide (row_user_id r ∈ selectedUserIds)
                 then set_row_balance (add (or_zero (row_balance r)) bulkAmount)
                        r
                 else r)
              (rows page)) page,
         Some (if Nat.eqb errorCount 0
               then BulkSuccess bulkAmount successCount
               else BulkPartial successCount errorCount))
  end.

End Handlers.

End Balances.

(** The Balances page as a cashier or an admin sees it over
    [sample_store]: the employee holds 1000.00, the cashier 2000.00. *)
Definition sample_rows : list Balances.ProfileRow :=
  [ {| Balances.row_user_id := "emp-1"; Balances.row_name := Some "E. One";
       Balances.row_balance := Some (of_Z 1000);
       Balances.row_role := "employee" |};
    {| Balances.row_user_id := "emp-2"; Balances.row_name := Some "E. One";
       Balances.row_balance := Some zero;
       Balances.row_role := "employee" |};
    {| Balances.row_user_id := "csh-1"; Balances.row_name := Some "E. One";
       Balances.row_balance := Some (of_Z 2000);
       Balances.row_role := "cashier" |} ].

Definition sample_balances (u : string) (r : Role) : Balances.Page :=
  {| Balances.user := Some u; Balances.userRole := Some r;
     Balances.rows := sample_rows; Balances.cashierBalance := of_Z 2000 |}.

Definition sample_world : Balances.World :=
  {| Balances.store := sample_store submitted (of_Z 1000);
     Balances.notifications := [] |}.

(** Every call of the Balances page answers. *)
Definition all_answer : Balances.Site → bool := fun _ => false.

(** The write of the balance of [userId] fails, nothing else. *)
Definition target_write_fails (userId : string) : Balances.Site → bool :=
  fun site =>
    match site with
    | Balances.TargetUpdate u => String.eqb u userId
    | _ => false
    end.

(** The selected users the bulk dialog writes to: those with a row of the
    table; and of these the ones whose write fails. *)
Definition bulk_attempted (page : Balances.Page) (userIds : list string)
  : list string :=
  List.filter (fun i => bool_decide (is_Some (Balances.find_row page i)))
    userIds.

Definition bulk_failed (fails : Balances.Site → bool) (page : Balances.Page)
    (userIds : list string) : list string :=
  List.filter (fun i => fails (Balances.TargetUpdate i))
    (bulk_attempted page userIds).
(** ** Basic facts about the store calls *)

Lemma hasRole_reads env userId role s :
  ∃ b, hasRole env userId role s = (s, Ok b).
Proof.
  unfold hasRole. repeat case_match; eauto.
Qed.

Lemma logAction_writes_log env expenseId userId act comment s :
  ∃ l, logAction env expenseId userId act comment s
       = (with_audit_logs l s, Ok tt).
Proof.
  unfold logAction. destruct s. case_match; eauto.
Qed.

Lemma status_when_given {A} (o : option A) set e :
  (∀ v e', status (set v e') = status e') →
  status (when_given o set e) = status e.
Proof. intros Hset. destruct o; simpl; [apply Hset | reflexivity]. Qed.

(** The status a patch leaves: the patched one, or the old one. *)
Lemma apply_update_status env data totalAmount e :
  status (apply_update env data totalAmount e)
  = from_option patched (status e) (u_status data).
Proof.
  unfold apply_update. simpl.
  rewrite !status_when_given by reflexivity.
  destruct (u_status data); simpl; [reflexivity|].
  rewrite !status_when_given by reflexivity. reflexivity.
Qed.

#[local] Opaque apply_update.

Ltac run_hasRole :=
  match goal with
  | H : context [hasRole ?env ?u ?r ?s] |- _ =>
      let b := fresh "isRole" in
      let E := fresh "HRole" in
      destruct (hasRole_reads env u r s) as [b E]; rewrite E in H;
      destruct b; simpl in H
  end.

Ltac run_logAction :=
  match goal with
  | H : context [logAction ?env ?i ?u ?a ?c ?s] |- _ =>
      let l := fresh "l" in
      let E := fresh "HLog" in
      destruct (logAction_writes_log env i u a c s) as [l E]; rewrite E in H;
      simpl in H
  end.

(** ** Approval *)

(** C1, as the code has it. Whenever [approveExpense] returns normally,
    the caller held the admin role, the expense was verified, the balance of
    its owner was not below the total amount, the expense is approved
    afterwards and the balance written for its owner is the difference the
    subtraction of the source gives, in binary64 arithmetic, for the balance
    before and the total amount of the expense. *)
Theorem approve_deducts_total env expenseId adminId comment s s' e :
  approveExpense env expenseId adminId comment s = (s', Ok e) →
  ∃ e0 b0,
    expenses s !! expenseId = Some e0 ∧
    hasRole env adminId admin s = (s, Ok true) ∧
    status e0 = verified ∧
    balance_of s (user_id e0) = Some b0 ∧
    ltb b0 (Number (total_amount e0)) = false ∧
    (balance <$> profiles s' !! user_id e0)
    = Some (json_number (sub b0 (Number (total_amount e0)))) ∧
    status_of s' expenseId = Some approved ∧
    status e = approved.
Proof.
  intros H. unfold approveExpense, bind in H.
  run_hasRole; [|discriminate].
  unfold select_expense, orThrow, ret, throw in H.
  destruct (fails env ExpenseSelect); [discriminate|].
  destruct (expenses s !! expenseId) as [e0|] eqn:He0; [|discriminate].
  unfold status_eqb in H.
  repeat case_bool_decide; simpl in H; try discriminate.
  unfold select_profile in H.
  destruct (fails env ProfileSelect); [discriminate|].
  destruct (profiles s !! user_id e0) as [p0|] eqn:Hp0; [|discriminate].
  destruct (ltb (balance_or_0 p0) (Number (total_amount e0))) eqn:Hlt;
    [discriminate|].
  unfold update_expense in H.
  destruct (fails env ExpenseUpdate); [discriminate|].
  rewrite He0 in H. simpl in H. unfold update_balance in H.
  destruct (fails env BalanceUpdate); simpl in H.
  { unfold update_expense_unchecked in H.
    destruct (fails env StatusRevert); discriminate H. }
  run_logAction. injection H as <- <-.
  exists e0, (balance_or_0 p0). unfold balance_of, status_of. simpl.
  rewrite Hp0, lookup_alter_eq, Hp0, lookup_insert_eq. simpl.
  repeat split; try done.
  all: destruct comment; reflexivity.
Qed.

Lemma approve_deducts_total_witness :
  balance_of (sample_store verified (of_Z 5000)) "emp-1" = Some (of_Z 5000) ∧
  balance_of (approveExpense calm "exp-1" "adm-1" (Some "ok")
                (sample_store verified (of_Z 5000))).1 "emp-1"
  = Some (of_Z 3500) ∧
  status_of (approveExpense calm "exp-1" "adm-1" (Some "ok")
               (sample_store verified (of_Z 5000))).1 "exp-1" = Some approved.
Proof.
  destruct (approve_deducts_total calm "exp-1" "adm-1" (Some "ok")
              (sample_store verified (of_Z 5000))
              (approveExpense calm "exp-1" "adm-1" (Some "ok")
                 (sample_store verified (of_Z 5000))).1
              (set_updated_at 20
                 (set_admin_comment (Some "ok")
                    (set_status approved (sample_expense verified)))))
    as (e0 & b0 & He0 & _ & _ & Hb0 & _ & Hb & Hst & _).
  - vm_compute. reflexivity.
  - vm_compute in He0. injection He0 as <-.
    vm_compute in Hb0. injection Hb0 as <-.
    split; [reflexivity|]. split; [|exact Hst].
    unfold balance_of.
    destruct (profiles _ !! _) as [p|]; [|discriminate Hb].
    simpl in Hb |- *. injection Hb as Hb. unfold balance_or_0. rewrite Hb.
    vm_compute. reflexivity.
Defined.

(** C1, as it is worded, fails: the source computes on binary64 numbers.
    An owner holding 0.03 whose expense of 0.01 is approved is left with
    0.019999999999999997: that is not the number 0.02, and it is not the
    difference of the two numbers either, which no binary64 value is. *)
Lemma approve_difference_is_rounded :
  balance_of (priced (cents 1) (sample_store verified (cents 3))) "emp-1"
  = Some (cents 3)
  ∧ (total_amount <$>
       expenses (priced (cents 1) (sample_store verified (cents 3))) !! "exp-1")
    = Some (Some (cents 1))
  ∧ ∃ s' e r,
      approveExpense calm "exp-1" "adm-1" None
        (priced (cents 1) (sample_store verified (cents 3))) = (s', Ok e)
      ∧ balance_of s' "emp-1" = Some r
      ∧ r ≠ cents 2
      ∧ ∃ before total after,
          units (cents 3) = Some before ∧ units (cents 1) = Some total
          ∧ units r = Some after ∧ after ≠ before - total.
Proof.
  split; [vm_compute; reflexivity|]. split; [vm_compute; reflexivity|].
  eexists _, _, _. split; [vm_compute; reflexivity|].
  split; [vm_compute; reflexivity|].
  split; [vm_compute; discriminate|].
  eexists _, _, _. split; [reflexivity|]. split; [reflexivity|].
  split; [reflexivity|]. vm_compute. discriminate.
Qed.

(** C2, as the code has it. When the balance of the owner is below the total
    amount of the expense, [approveExpense] throws and leaves the store as
    it was, so neither the status nor the balance changes. The exception is
    the one about the insufficient balance when the caller is an admin, the
    expense is verified and the two reads answer; the role check and the
    status checks come first in the source. *)
Theorem approve_insufficient_balance env expenseId adminId comment s e0 p0 :
  expenses s !! expenseId = Some e0 →
  profiles s !! user_id e0 = Some p0 →
  ltb (balance_or_0 p0) (Number (total_amount e0)) = true →
  ∃ err,
    approveExpense env expenseId adminId comment s = (s, Throw err) ∧
    (hasRole env adminId admin s = (s, Ok true) →
     status e0 = verified →
     fails env ExpenseSelect = false →
     fails env ProfileSelect = false →
     err = InsufficientBalance (name p0) (balance_or_0 p0)
             (Number (total_amount e0))
     ∧ kind err = Some ValidationError
     ∧ String.prefix "Insufficient balance" (message err) = true).
Proof.
  intros He0 Hp0 Hlt. unfold approveExpense, bind.
  destruct (hasRole_reads env adminId admin s) as [isAdmin ->].
  destruct isAdmin; simpl; [|eexists; split; [reflexivity|discriminate]].
  unfold select_expense.
  destruct (fails env ExpenseSelect); simpl;
    [eexists; split; [reflexivity|discriminate]|].
  rewrite He0. simpl. unfold status_eqb.
  case_bool_decide as Ha; simpl;
    [eexists; split; [reflexivity|congruence]|].
  case_bool_decide as Hv; simpl;
    [|eexists; split; [reflexivity|congruence]].
  unfold select_profile.
  destruct (fails env ProfileSelect); simpl;
    [eexists; split; [reflexivity|discriminate]|].
  rewrite Hp0. simpl.
  rewrite Hlt. unfold throw.
  eexists; split; [reflexivity|]. intros _ _ _ _.
  split; [reflexivity|]. split; reflexivity.
Qed.

Lemma approve_insufficient_balance_witness :
  approveExpense calm "exp-1" "adm-1" None (sample_store verified (of_Z 1000))
  = (sample_store verified (of_Z 1000),
     Throw (InsufficientBalance (Some "E. One") (of_Z 1000) (of_Z 1500))).
Proof.
  destruct (approve_insufficient_balance calm "exp-1" "adm-1" None
              (sample_store verified (of_Z 1000)) (sample_expense verified)
              (sample_profile (of_Z 1000) (Some "eng-1")))
    as (err & Hrun & Herr).
  - vm_compute. reflexivity.
  - vm_compute. reflexivity.
  - vm_compute. reflexivity.
  - destruct Herr as (-> & _); [vm_compute; reflexivity ..|].
    exact Hrun.
Defined.

(** C2, as it is worded, fails: an admin approving an expense that is still
    submitted, whose owner holds less than its total amount, is told that
    the expense must be verified first. *)
Lemma approve_low_balance_not_verified :
  balance_of (sample_store submitted (of_Z 1000)) "emp-1"
  = Some (of_Z 1000) ∧
  ltb (of_Z 1000) (Number (total_amount (sample_expense submitted))) = true ∧
  approveExpense calm "exp-1" "adm-1" None (sample_store submitted (of_Z 1000))
  = (sample_store submitted (of_Z 1000), Throw ApproveNotVerified) ∧
  kind ApproveNotVerified = Some StateError ∧
  String.prefix "Insufficient balance" (message ApproveNotVerified) = false.
Proof. vm_compute. repeat split; reflexivity. Qed.

(** C6, as the code has it. When the write of the balance fails after the
    expense was set to approved, [approveExpense] sends one write that sets
    the status back to verified and throws the deduction failure, whatever
    becomes of that write, whose answer it does not look at: the status is
    verified again when the write goes through and stays approved when it
    does not, and no balance has changed. *)
Theorem approve_reverts_on_failed_deduction
    env expenseId adminId comment s e0 p0 :
  hasRole env adminId admin s = (s, Ok true) →
  expenses s !! expenseId = Some e0 →
  status e0 = verified →
  profiles s !! user_id e0 = Some p0 →
  ltb (balance_or_0 p0) (Number (total_amount e0)) = false →
  fails env ExpenseSelect = false →
  fails env ProfileSelect = false →
  fails env ExpenseUpdate = false →
  fails env BalanceUpdate = true →
  ∃ s',
    approveExpense env expenseId adminId comment s = (s', Throw DeductionFailed)
    ∧ kind DeductionFailed = Some FatalError
    ∧ status_of s' expenseId
      = Some (if fails env StatusRevert then approved else verified)
    ∧ profiles s' = profiles s.
Proof.
  intros Hrole He0 Hst Hp0 Hle HfS HfP HfU HfB.
  unfold approveExpense, bind. rewrite Hrole. simpl.
  unfold select_expense, select_profile.
  rewrite HfS, He0. simpl. unfold status_eqb. rewrite Hst. simpl.
  rewrite HfP, Hp0. simpl.
  rewrite Hle.
  unfold update_expense. rewrite HfU, He0. simpl.
  unfold update_balance. rewrite HfB. simpl.
  unfold update_expense_unchecked.
  destruct (fails env StatusRevert); simpl.
  - eexists. split; [reflexivity|]. split; [reflexivity|].
    unfold status_of. simpl. rewrite lookup_insert_eq. simpl.
    split; [|reflexivity]. destruct comment; reflexivity.
  - eexists. split; [reflexivity|]. split; [reflexivity|].
    unfold status_of. simpl. rewrite lookup_alter_eq, lookup_insert_eq.
    done.
Qed.

Lemma approve_reverts_on_failed_deduction_witness :
  (approveExpense
     deduction_fails "exp-1" "adm-1" None (sample_store verified (of_Z 5000))).2
  = Throw DeductionFailed
  ∧ status_of
      (approveExpense
         deduction_fails "exp-1" "adm-1" None (sample_store verified (of_Z 5000))).1 "exp-1"
    = Some verified
  ∧ balance_of
      (approveExpense
         deduction_fails "exp-1" "adm-1" None (sample_store verified (of_Z 5000))).1 "emp-1"
    = Some (of_Z 5000).
Proof.
  destruct (approve_reverts_on_failed_deduction
              deduction_fails "exp-1" "adm-1" None (sample_store verified (of_Z 5000))
              (sample_expense verified)
              (sample_profile (of_Z 5000) (Some "eng-1")))
    as (s' & Hrun & _ & Hst & Hprof); [vm_compute; reflexivity ..|].
  rewrite Hrun. simpl. split; [reflexivity|]. split; [exact Hst|].
  unfold balance_of. rewrite Hprof. vm_compute. reflexivity.
Defined.

(** C6, as it is worded, fails: the write that takes the approval back can
    fail like the write of the balance before it. The deduction failure is
    thrown all the same, and the expense stays approved with no balance
    deducted. *)
Lemma approve_revert_can_fail :
  status_of (sample_store verified (of_Z 5000)) "exp-1" = Some verified
  ∧ (approveExpense deduction_and_revert_fail "exp-1" "adm-1" None
       (sample_store verified (of_Z 5000))).2
    = Throw DeductionFailed
  ∧ status_of
      (approveExpense deduction_and_revert_fail "exp-1" "adm-1" None
         (sample_store verified (of_Z 5000))).1 "exp-1"
    = Some approved
  ∧ balance_of
      (approveExpense deduction_and_revert_fail "exp-1" "adm-1" None
         (sample_store verified (of_Z 5000))).1 "emp-1"
    = Some (of_Z 5000).
Proof. vm_compute. repeat split; reflexivity. Qed.

(** ** Verification *)

(** C8. [verifyExpense] on an existing expense: an engineer other than the
    assigned one is refused (permission); the assigned engineer is refused
    with a state error when the status is not submitted, approved included;
    otherwise the status becomes verified. The last two cases are for
    store calls that answer. *)
Theorem verify_checks env expenseId engineerId comment s e0 :
  expenses s !! expenseId = Some e0 →
  (assigned_engineer_id e0 ≠ Some engineerId →
   verifyExpense env expenseId engineerId comment s = (s, Throw ReviewDenied)
   ∧ kind ReviewDenied = Some PermissionError)
  ∧ (assigned_engineer_id e0 = Some engineerId →
     fails env ReviewCheckSelect = false →
     fails env ExpenseSelect = false →
     (status e0 ≠ submitted →
      ∃ err,
        verifyExpense env expenseId engineerId comment s = (s, Throw err)
        ∧ kind err = Some StateError
        ∧ (status e0 = approved → err = VerifyAlreadyApproved))
     ∧ (status e0 = submitted →
        fails env ExpenseUpdate = false →
        ∃ s' e',
          verifyExpense env expenseId engineerId comment s = (s', Ok e')
          ∧ status_of s' expenseId = Some verified
          ∧ status e' = verified
          ∧ profiles s' = profiles s)).
Proof.
  intros He0. split.
  - intros Hne. split; [|reflexivity].
    unfold verifyExpense, canEngineerReviewExpense, bind, select_expense.
    destruct (fails env ReviewCheckSelect); simpl; [reflexivity|].
    rewrite He0. simpl.
    destruct (assigned_engineer_id e0) as [a|]; simpl; [|reflexivity].
    destruct (String.eqb_spec a engineerId) as [->|_]; [congruence|].
    reflexivity.
  - intros Heq HfR HfS.
    unfold verifyExpense, canEngineerReviewExpense, bind, select_expense.
    rewrite HfR, HfS, He0. simpl. rewrite Heq. simpl.
    rewrite String.eqb_refl. simpl. rewrite He0. simpl.
    unfold status_eqb. split.
    + intros Hns. case_bool_decide as Ha; simpl.
      * eexists. split; [reflexivity|]. split; [reflexivity|]. done.
      * case_bool_decide; [done|]. simpl.
        eexists. split; [reflexivity|]. split; [reflexivity|]. done.
    + intros Hs HfU. rewrite Hs. simpl.
      unfold update_expense. rewrite HfU, He0. simpl.
      destruct (logAction_writes_log env expenseId engineerId
                  "expense_verified" comment
                  (with_expenses
                     (<[expenseId:=set_updated_at (now env)
                                     (set_status verified e0)]> (expenses s))
                     s)) as [l ->].
      eexists _, _. split; [reflexivity|].
      unfold status_of. simpl. rewrite lookup_insert_eq. done.
Qed.

Lemma verify_checks_witness :
  verifyExpense calm "exp-1" "eng-2" None (sample_store submitted zero)
  = (sample_store submitted zero, Throw ReviewDenied)
  ∧ verifyExpense calm "exp-1" "eng-1" None (sample_store approved zero)
    = (sample_store approved zero, Throw VerifyAlreadyApproved)
  ∧ verifyExpense calm "exp-1" "eng-1" None (sample_store rejected zero)
    = (sample_store rejected zero, Throw VerifyNotSubmitted)
  ∧ status_of
      (verifyExpense calm "exp-1" "eng-1" None (sample_store submitted zero)).1
      "exp-1" = Some verified.
Proof.
  split; [|split; [|split]].
  - apply (verify_checks calm "exp-1" "eng-2" None (sample_store submitted zero)
             (sample_expense submitted)); [vm_compute; reflexivity|].
    simpl. discriminate.
  - destruct (verify_checks calm "exp-1" "eng-1" None
                (sample_store approved zero) (sample_expense approved))
      as [_ H]; [vm_compute; reflexivity|].
    destruct H as [H _]; [reflexivity ..|].
    destruct H as (err & Hrun & _ & Herr); [discriminate|].
    rewrite Hrun, Herr; reflexivity.
  - destruct (verify_checks calm "exp-1" "eng-1" None
                (sample_store rejected zero) (sample_expense rejected))
      as [_ H]; [vm_compute; reflexivity|].
    destruct H as [H _]; [reflexivity ..|].
    destruct H as (err & Hrun & _ & _); [discriminate|].
    rewrite Hrun. vm_compute in Hrun. vm_compute. exact (eq_sym Hrun).
  - destruct (verify_checks calm "exp-1" "eng-1" None
                (sample_store submitted zero) (sample_expense submitted))
      as [_ H]; [vm_compute; reflexivity|].
    destruct H as [_ H]; [reflexivity ..|].
    destruct H as (s' & e' & Hrun & Hst & _); [reflexivity ..|].
    rewrite Hrun. exact Hst.
Defined.

(** ** Submission *)

(** C9, as the code has it. [submitExpense] first asks whether the caller
    may edit the expense (its owner while it is submitted, or an admin) and
    refuses a caller who may not. For a caller who may, on a submitted
    expense and with store calls that answer: without a reporting engineer
    in the caller's profile ([null] or empty) nothing is written and the
    validation error is thrown; otherwise the expense is assigned to that
    engineer and stays submitted. *)
Theorem submit_routes_to_reporting_engineer env expenseId userId s e0 p0 :
  expenses s !! expenseId = Some e0 →
  status e0 = submitted →
  profiles s !! userId = Some p0 →
  (canUserEditExpense env expenseId userId s = (s, Ok false) →
   submitExpense env expenseId userId s = (s, Throw SubmitDenied)
   ∧ kind SubmitDenied = Some PermissionError)
  ∧ (canUserEditExpense env expenseId userId s = (s, Ok true) →
     fails env ExpenseSelect = false →
     fails env ProfileSelect = false →
     (truthy (reporting_engineer_id p0) = false →
      submitExpense env expenseId userId s = (s, Throw NoReportingEngineer)
      ∧ kind NoReportingEngineer = Some ValidationError)
     ∧ (truthy (reporting_engineer_id p0) = true →
        fails env ExpenseUpdate = false →
        ∃ s' e',
          submitExpense env expenseId userId s = (s', Ok e')
          ∧ expenses s' !! expenseId = Some e'
          ∧ assigned_engineer_id e' = reporting_engineer_id p0
          ∧ status e' = submitted)).
Proof.
  intros He0 Hst Hp0. split.
  - intros Hcan. unfold submitExpense, bind. rewrite Hcan. done.
  - intros Hcan HfS HfP. unfold submitExpense, bind. rewrite Hcan. simpl.
    unfold select_expense, select_profile.
    rewrite HfS, He0. simpl. unfold status_eqb. rewrite Hst. simpl.
    rewrite HfP, Hp0. simpl. split.
    + intros ->. done.
    + intros -> HfU. simpl. unfold update_expense. rewrite HfU, He0. simpl.
      match goal with
      | |- context [logAction ?e ?i ?u ?a ?c ?st] =>
          destruct (logAction_writes_log e i u a c st) as [l ->]
      end.
      eexists _, _. split; [reflexivity|]. simpl.
      rewrite lookup_insert_eq. done.
Qed.

Lemma submit_routes_to_reporting_engineer_witness :
  submitExpense calm "exp-1" "eng-1" (sample_store submitted zero)
  = (sample_store submitted zero, Throw SubmitDenied)
  ∧ submitExpense calm "exp-1" "adm-1" (sample_store submitted zero)
    = (sample_store submitted zero, Throw NoReportingEngineer)
  ∧ (assigned_engineer_id <$>
       expenses (submitExpense calm "exp-1" "emp-1"
                   (sample_store submitted zero)).1 !! "exp-1")
    = Some (Some "eng-1").
Proof.
  split; [|split].
  - apply (submit_routes_to_reporting_engineer calm "exp-1" "eng-1"
             (sample_store submitted zero) (sample_expense submitted)
             (sample_profile zero None));
      vm_compute; reflexivity.
  - destruct (submit_routes_to_reporting_engineer calm "exp-1" "adm-1"
                (sample_store submitted zero) (sample_expense submitted)
                (sample_profile zero None)) as [_ H];
      [vm_compute; reflexivity ..|].
    destruct H as [H _]; [vm_compute; reflexivity ..|].
    apply H. reflexivity.
  - destruct (submit_routes_to_reporting_engineer calm "exp-1" "emp-1"
                (sample_store submitted zero) (sample_expense submitted)
                (sample_profile zero (Some "eng-1"))) as [_ H];
      [vm_compute; reflexivity ..|].
    destruct H as [_ H]; [vm_compute; reflexivity ..|].
    destruct H as (s' & e' & Hrun & He' & Ha & _); [reflexivity ..|].
    rewrite Hrun. simpl. rewrite He'. simpl. rewrite Ha. reflexivity.
Defined.

(** C9, as it is worded, fails: a second employee, who has a reporting
    engineer but neither owns the submitted expense nor is an admin, is
    refused, and the expense is not assigned to that engineer. *)
Lemma submit_by_stranger_refused :
  status_of (sample_store submitted zero) "exp-1" = Some submitted
  ∧ (reporting_engineer_id <$> profiles (sample_store submitted zero) !! "emp-2")
    = Some (Some "eng-2")
  ∧ submitExpense calm "exp-1" "emp-2" (sample_store submitted zero)
    = (sample_store submitted zero, Throw SubmitDenied)
  ∧ kind SubmitDenied = Some PermissionError
  ∧ (assigned_engineer_id <$>
       expenses (submitExpense calm "exp-1" "emp-2"
                   (sample_store submitted zero)).1 !! "exp-1")
    = Some (Some "eng-1").
Proof. vm_compute. repeat split; reflexivity. Qed.

(** ** Update *)

(** C4. The owner of a submitted expense who is not an admin passes the
    edit check of [updateExpense]; a patch that carries a status is written
    as it is, whatever the status (approved and verified included), no role
    is asked for and no profile is touched, so no balance is deducted. *)
Theorem owner_update_sets_any_status env expenseId userId data st s e0 :
  hasRole env userId admin s = (s, Ok false) →
  expenses s !! expenseId = Some e0 →
  user_id e0 = userId →
  status e0 = submitted →
  u_status data = Some st →
  fails env EditCheckSelect = false →
  fails env ExpenseSelect = false →
  fails env ExpenseUpdate = false →
  canUserEditExpense env expenseId userId s = (s, Ok true)
  ∧ ∃ s' e',
      updateExpense env expenseId userId data s = (s', Ok e')
      ∧ status_of s' expenseId = Some (patched st)
      ∧ status e' = patched st
      ∧ profiles s' = profiles s.
Proof.
  intros Hrole He0 Hown Hst Hpatch HfC HfS HfU.
  assert (Hcan : canUserEditExpense env expenseId userId s = (s, Ok true)).
  { unfold canUserEditExpense, bind. rewrite Hrole. simpl.
    unfold select_expense. rewrite HfC, He0. simpl.
    rewrite Hown, String.eqb_refl. unfold status_eqb. rewrite Hst. done. }
  split; [exact Hcan|].
  unfold updateExpense, bind. rewrite Hcan. simpl.
  unfold select_expense. rewrite HfS, He0. simpl.
  unfold status_eqb. rewrite Hst. simpl.
  unfold update_expense. rewrite HfU, He0. simpl.
  match goal with
  | |- context [logAction ?e ?i ?u ?a ?c ?st] =>
      destruct (logAction_writes_log e i u a c st) as [l ->]
  end.
  eexists _, _. split; [reflexivity|].
  unfold status_of. simpl. rewrite lookup_insert_eq. simpl.
  rewrite apply_update_status, Hpatch. done.
Qed.

Lemma owner_update_sets_any_status_witness :
  role_rows "emp-1" admin (without_roles "emp-1" (sample_store submitted zero))
  = []
  ∧ user_roles (without_roles "emp-1" (sample_store submitted zero))
    = [("emp-2", employee); ("eng-1", engineer); ("adm-1", admin);
       ("csh-1", cashier)]
  ∧ status_of
      (updateExpense calm "exp-1" "emp-1" (status_patch to_approved)
         (without_roles "emp-1" (sample_store submitted (of_Z 1000)))).1 "exp-1"
    = Some approved
  ∧ balance_of
      (updateExpense calm "exp-1" "emp-1" (status_patch to_approved)
         (without_roles "emp-1" (sample_store submitted (of_Z 1000)))).1 "emp-1"
    = Some (of_Z 1000).
Proof.
  split; [reflexivity|]. split; [reflexivity|].
  destruct (owner_update_sets_any_status calm "exp-1" "emp-1"
              (status_patch to_approved) to_approved
              (without_roles "emp-1" (sample_store submitted (of_Z 1000)))
              (sample_expense submitted))
    as (_ & s' & e' & Hrun & Hst & _ & Hprof);
    [vm_compute; reflexivity ..|].
  rewrite Hrun. simpl. split; [exact Hst|].
  unfold balance_of. rewrite Hprof. vm_compute. reflexivity.
Defined.

(** ** The status changes of the operations *)

(** One step through the body of an operation. *)
Ltac svc_step :=
  first
    [ match goal with
      | |- context [logAction ?e ?i ?u ?a ?c ?s] =>
          let l := fresh "l" in
          destruct (logAction_writes_log e i u a c s) as [l ->]
      end
    | match goal with
      | |- context [hasRole ?e ?u ?r ?s] =>
          let b := fresh "b" in
          let Hb := fresh "Hrole" in
          destruct (hasRole_reads e u r s) as [b Hb]; rewrite Hb;
          destruct b
      end
    | case_match ];
  simpl in *; simplify_eq.

Ltac svc_run :=
  unfold canUserEditExpense, canEngineerReviewExpense, bind, select_expense,
    select_profile, update_expense, update_expense_unchecked, update_balance,
    insert_expense, orThrow, ret, throw, status_eqb;
  repeat svc_step.

Ltac split_target :=
  match goal with
  | |- context [decide (?i = ?x)] => destruct (decide (i = x))
  end.

Ltac status_cases Ha :=
  unfold status_of in Ha |- *; simpl;
  apply fmap_Some in Ha as (? & ? & ->);
  rewrite ?alter_insert_eq, ?lookup_insert;
  try split_target; simplify_eq; simpl;
  repeat case_bool_decide; simplify_eq; simpl in *;
  repeat match goal with
         | H : ?m !! ?x = Some _ |- context [?m !! ?x] => rewrite H
         end;
  simpl; eauto 10.

Lemma verify_moves env i eng c s x a :
  status_of s x = Some a →
  ∃ b, status_of (verifyExpense env i eng c s).1 x = Some b
       ∧ (a = b ∨ (i = x ∧ a = submitted ∧ b = verified)).
Proof.
  intros Ha. unfold verifyExpense. svc_run; eauto.
  all: status_cases Ha.
Qed.

Lemma submit_moves env i u s x a :
  status_of s x = Some a →
  status_of (submitExpense env i u s).1 x = Some a.
Proof.
  intros Ha. unfold submitExpense. svc_run; eauto.
  all: status_cases Ha.
  all: congruence.
Qed.

Lemma assign_moves env i eng adm s x a :
  status_of s x = Some a →
  ∃ b, status_of (assignToEngineer env i eng adm s).1 x = Some b
       ∧ (a = b ∨ (i = x ∧ b = submitted
                   ∧ hasRole env adm admin s = (s, Ok true))).
Proof.
  intros Ha. unfold assignToEngineer. svc_run; eauto.
  all: status_cases Ha.
Qed.

Lemma reject_moves env i adm c s x a :
  status_of s x = Some a →
  ∃ b, status_of (rejectExpense env i adm c s).1 x = Some b
       ∧ (a = b ∨ (i = x ∧ b = rejected
                   ∧ hasRole env adm admin s = (s, Ok true))).
Proof.
  intros Ha. unfold rejectExpense. svc_run; eauto.
  all: status_cases Ha.
  all: destruct c; simpl; eauto 10.
Qed.

Lemma approve_moves env i adm c s x a :
  status_of s x = Some a →
  ∃ b, status_of (approveExpense env i adm c s).1 x = Some b
       ∧ (a = b ∨ (i = x ∧ a = verified ∧ b = approved)).
Proof.
  intros Ha. unfold approveExpense. svc_run; eauto.
  all: status_cases Ha.
  all: destruct c; simpl; eauto 10.
Qed.

Lemma update_moves env i u data s x a :
  status_of s x = Some a →
  ∃ b, status_of (updateExpense env i u data s).1 x = Some b
       ∧ (a = b
          ∨ (i = x
             ∧ (∃ st, u_status data = Some st ∧ b = patched st)
             ∧ (a = submitted ∨ hasRole env u admin s = (s, Ok true)))).
Proof.
  intros Ha. unfold updateExpense. svc_run; eauto.
  all: status_cases Ha.
  all: rewrite apply_update_status.
  all: destruct (u_status data) as [st|] eqn:Hst; simpl in *; eauto 10.
  all: repeat case_bool_decide; simplify_eq; simpl in *; eauto 10.
  all: try match goal with
           | H : negb (_ && false) = false |- _ =>
               rewrite andb_false_r in H; discriminate H
           end.
Qed.

Lemma create_moves env u data s x a :
  status_of s x = Some a →
  status_of (createExpense env u data s).1 x = Some a.
Proof.
  intros Ha. unfold createExpense, bind, insert_expense.
  destruct (fails env ExpenseInsert); simpl; [done|].
  match goal with
  | |- context [logAction ?e ?i ?u ?a ?c ?s] =>
      destruct (logAction_writes_log e i u a c s) as [l ->]
  end.
  unfold status_of in Ha |- *. simpl.
  apply fmap_Some in Ha as (e' & He' & ->).
  rewrite lookup_insert_ne, He'; [done|].
  intros Heq. pose proof (is_fresh (dom (expenses s))) as Hfresh.
  rewrite Heq in Hfresh. apply not_elem_of_dom in Hfresh. congruence.
Qed.

(** C3, as the code has it. Along every sequence of operations, a step
    changes the status of an expense only in these ways: [verifyExpense]
    from submitted to verified; [approveExpense] from verified to approved;
    [rejectExpense], for an admin, from any status to rejected;
    [assignToEngineer], for an admin, from any status to submitted;
    [updateExpense] with a status in the patch, to that status, from
    submitted or, for an admin, from any status. [createExpense] and
    [submitExpense] change the status of no expense. *)
Theorem status_changes_of_operations steps env op s x a :
  status_of (exec_all steps s) x = Some a →
  ∃ b,
    status_of (exec_all (steps ++ [(env, op)]) s) x = Some b
    ∧ (a = b ∨ moves env (exec_all steps s) op x a b).
Proof.
  revert s. induction steps as [|[env' op'] steps IH]; intros s Ha; simpl.
  - simpl in Ha. destruct op; simpl.
    + exists a. split; [by apply create_moves | by left].
    + by apply update_moves.
    + exists a. split; [by apply submit_moves | by left].
    + by apply assign_moves.
    + by apply verify_moves.
    + by apply approve_moves.
    + by apply reject_moves.
  - apply IH. exact Ha.
Qed.

Lemma status_changes_of_operations_witness :
  status_of
    (exec_all [(calm, Verify "exp-1" "eng-1" None);
               (calm, Approve "exp-1" "adm-1" None)]
       (sample_store submitted (of_Z 5000))) "exp-1" = Some approved
  ∧ moves calm
      (exec_all [(calm, Verify "exp-1" "eng-1" None)]
         (sample_store submitted (of_Z 5000)))
      (Approve "exp-1" "adm-1" None) "exp-1" verified approved.
Proof.
  destruct (status_changes_of_operations
              [(calm, Verify "exp-1" "eng-1" None)] calm
              (Approve "exp-1" "adm-1" None)
              (sample_store submitted (of_Z 5000)) "exp-1" verified)
    as (b & Hb & Hmove); [vm_compute; reflexivity|].
  assert (b = approved) as ->.
  { vm_compute in Hb. by injection Hb. }
  split; [exact Hb|].
  destruct Hmove as [Hsame|Hmove]; [discriminate Hsame | exact Hmove].
Defined.

(** C3, as it is worded, fails. The owner's [updateExpense] takes a
    submitted expense to approved; an admin's [rejectExpense] takes an
    approved expense to rejected; an admin's [assignToEngineer] takes a
    rejected expense to submitted; an admin's [updateExpense] takes an
    approved expense to verified. None of the four is a transition the
    specification lists. *)
Lemma status_changes_outside_the_specification :
  (status_of (sample_store submitted zero) "exp-1" = Some submitted
   ∧ status_of
       (exec calm (Update "exp-1" "emp-1" (status_patch to_approved))
          (sample_store submitted zero)).1 "exp-1" = Some approved
   ∧ spec_transition submitted approved = false)
  ∧ (status_of (sample_store approved zero) "exp-1" = Some approved
     ∧ status_of
         (exec calm (Reject "exp-1" "adm-1" None)
            (sample_store approved zero)).1 "exp-1" = Some rejected
     ∧ spec_transition approved rejected = false)
  ∧ (status_of (sample_store rejected zero) "exp-1" = Some rejected
     ∧ status_of
         (exec calm (AssignToEngineer "exp-1" "eng-1" "adm-1")
            (sample_store rejected zero)).1 "exp-1" = Some submitted
     ∧ spec_transition rejected submitted = false)
  ∧ (status_of (sample_store approved zero) "exp-1" = Some approved
     ∧ status_of
         (exec calm (Update "exp-1" "adm-1" (status_patch to_verified))
            (sample_store approved zero)).1 "exp-1" = Some verified
     ∧ spec_transition approved verified = false).
Proof. vm_compute. repeat split; reflexivity. Qed.

(** ** Returning money *)

#[local] Instance assigned_before_total rank : Total (assigned_before rank).
Proof. intros a b. unfold assigned_before. lia. Qed.

#[local] Instance assigned_before_trans rank :
  Transitive (assigned_before rank).
Proof. intros a b c. unfold assigned_before. lia. Qed.

(** The rows selected come oldest first, whatever the store does with rows
    of the same instant. *)
Lemma unreturned_assignments_sorted env userId cashierId s :
  StronglySorted (fun a b => assigned_at a <= assigned_at b)
    (unreturned_assignments env userId cashierId s).
Proof.
  assert (H : StronglySorted (assigned_before (tie_rank env))
                (unreturned_assignments env userId cashierId s))
    by (apply StronglySorted_merge_sort; apply _).
  induction H as [|r l _ IH Hall]; constructor; [exact IH|].
  eapply Forall_impl; [exact Hall|].
  intros b Hb. unfold assigned_before in Hb. simpl. lia.
Qed.

(** The rows selected are the unreturned rows of this cashier and this
    recipient, each as often as the table has it. *)
Lemma unreturned_assignments_rows env userId cashierId s r :
  r ∈ unreturned_assignments env userId cashierId s
  ↔ r ∈ money_assignments s ∧ recipient_id r = userId
    ∧ cashier_id r = cashierId ∧ is_returned r = false.
Proof.
  unfold unreturned_assignments. rewrite merge_sort_Permutation.
  rewrite !list_elem_of_In, filter_In, !andb_true_iff, negb_true_iff.
  rewrite !String.eqb_eq. tauto.
Qed.

(** A finite amount taken from itself leaves the zero. *)
Lemma sub_diag_finite s m e :
  sub (S754_finite s m e) (S754_finite s m e) = zero.
Proof.
  unfold sub, SFsub, shl_align. rewrite Z.min_id, Z.sub_diag. cbn [fst].
  reflexivity.
Qed.

Lemma oldest_reaching_nonpos A l : leb A zero = true → oldest_reaching A l = [].
Proof. intros HA. destruct l; simpl; [done|]. by rewrite HA. Qed.

Lemma oldest_reaching_prefix A l : oldest_reaching A l `prefix_of` l.
Proof.
  revert A. induction l as [|r l IH]; intros A; simpl; [done|].
  destruct (leb A zero); [apply prefix_nil|]. by apply prefix_cons.
Qed.

(** Before each consumed row something is left of [A]. *)
Lemma oldest_reaching_before A l p r q :
  oldest_reaching A l = p ++ r :: q → leb (amount_left A p) zero = false.
Proof.
  revert A p. induction l as [|r' l IH]; intros A p; simpl; [by destruct p|].
  destruct (leb A zero) eqn:HA; [by destruct p|].
  destruct p as [|r'' p]; simpl; intros [= <- Heq]; [done|].
  by apply IH in Heq.
Qed.

(** When rows are left over, nothing is left of [A]. *)
Lemma oldest_reaching_reached A l :
  oldest_reaching A l ≠ l →
  leb (amount_left A (oldest_reaching A l)) zero = true.
Proof.
  revert A. induction l as [|r l IH]; intros A; simpl; [done|].
  destruct (leb A zero) eqn:HA; simpl; [done|].
  intros Hne. apply IH. congruence.
Qed.

(** A row that was assigned at least what is left is the last one
    consumed. *)
Lemma oldest_reaching_covered A l p r q sg m e :
  oldest_reaching A l = p ++ r :: q →
  amount_left A p = S754_finite sg m e →
  Math_min (Number (amount r)) (amount_left A p) = amount_left A p →
  q = [].
Proof.
  revert A p. induction l as [|r' l IH]; intros A p; simpl; [by destruct p|].
  destruct (leb A zero) eqn:HA; [by destruct p|].
  destruct p as [|r'' p]; simpl; intros [= <- Heq].
  - intros HL Hmin. unfold after_row in Heq. rewrite Hmin, HL in Heq.
    rewrite sub_diag_finite, oldest_reaching_nonpos in Heq by done.
    done.
  - by apply IH.
Qed.

Lemma marked_nil t table : marked t [] table = table.
Proof.
  unfold marked. rewrite <- (List.map_id table) at 2.
  apply List.map_ext. intros r.
  case_bool_decide as Hin; [|done]. by apply elem_of_nil in Hin.
Qed.

Lemma marked_cons t i ids table :
  marked t ids
    (List.map (fun r => if String.eqb (ma_id r) i
                        then mark_returned_row t r else r) table)
  = marked t (i :: ids) table.
Proof.
  unfold marked. rewrite List.map_map. apply List.map_ext. intros r.
  destruct (String.eqb_spec (ma_id r) i) as [Heq|Hne]; simpl.
  - rewrite (bool_decide_eq_true_2 (ma_id r ∈ i :: ids))
      by (rewrite elem_of_cons; tauto).
    by case_bool_decide.
  - case_bool_decide as Hin.
    + by rewrite (bool_decide_eq_true_2 (ma_id r ∈ i :: ids))
        by (rewrite elem_of_cons; tauto).
    + rewrite (bool_decide_eq_false_2 (ma_id r ∈ i :: ids)); [done|].
      rewrite elem_of_cons. tauto.
Qed.

(** The loop of the source marks the rows it consumes, those apart whose
    write fails; a failed write does not stop it. *)
Lemma mark_assignments_marks env l A s :
  mark_assignments env l A s
  = (with_money_assignments
       (marked (now env) (answered env (ma_id <$> oldest_reaching A l))
          (money_assignments s)) s,
     Ok tt).
Proof.
  revert A s. induction l as [|r l IH]; intros A s; simpl.
  - rewrite marked_nil. by destruct s.
  - destruct (leb A zero) eqn:HA; simpl.
    + rewrite marked_nil. by destruct s.
    + unfold bind, mark_returned, after_row.
      destruct (fails env (AssignmentUpdate (ma_id r))); simpl; rewrite IH.
      * done.
      * unfold with_money_assignments. simpl. by rewrite marked_cons.
Qed.

Lemma find_target_reads env role s : ∃ r, find_target env role s = (s, r).
Proof.
  unfold find_target, bind, first_with_role, ret.
  repeat case_match; simplify_eq; eauto.
Qed.

(** Whatever calls fail, marking rows writes nothing but the table of
    assignments. *)
Lemma mark_assignments_profiles env l A s :
  profiles (mark_assignments env l A s).1 = profiles s
  ∧ expenses (mark_assignments env l A s).1 = expenses s.
Proof.
  revert A s. induction l as [|r l IH]; intros A s; simpl; [done|].
  destruct (leb A zero); simpl; [done|].
  unfold bind, mark_returned.
  destruct (fails env (AssignmentUpdate (ma_id r))); simpl; [apply IH|].
  match goal with
  | |- context [mark_assignments env l ?A' ?s'] =>
      destruct (IH A' s') as [-> ->]
  end.
  done.
Qed.

Lemma mark_assignments_returns env l A s :
  ∃ s', mark_assignments env l A s = (s', Ok tt).
Proof.
  revert A s. induction l as [|r l IH]; intros A s; simpl; [by eexists|].
  destruct (leb A zero); simpl; [by eexists|].
  unfold bind, mark_returned.
  destruct (fails env (AssignmentUpdate (ma_id r))); simpl; apply IH.
Qed.

#[local] Arguments mark_assignments : simpl never.

(** The store a successful [return_money] leaves: both balances written,
    then the rows marked on the way from an engineer or employee to a
    cashier. *)
Lemma return_money_success env userId role b a s s' nm nb :
  return_money env userId role b a s = (s', Ok (nm, nb)) →
  ∃ targetRole target tp,
    find_target env role s = (s, Ok (Some targetRole, Some target))
    ∧ profiles s !! target = Some tp
    ∧ nb = sub b a
    ∧ let s_mid :=
        with_profiles
          (alter (set_balance (add (or_zero (balance tp)) a)) target
             (alter (set_balance (sub b a)) userId (profiles s))) s in
      s' = if is_returner role && role_eqb targetRole cashier
           then if fails env AssignmentsSelect then s_mid
                else (mark_assignments env
                        (unreturned_assignments env userId target s) a
                        s_mid).1
           else s_mid.
Proof.
  unfold return_money, bind. intros H.
  destruct (find_target_reads env role s) as [r Hr]. rewrite Hr in H.
  destruct r as [[[targetRole|] [target|]]|]; try discriminate H.
  destruct (truthy (Some target)); simpl in H; [|discriminate H].
  unfold select_profile, orThrow in H.
  destruct (fails env TargetProfileSelect); simpl in H; [discriminate H|].
  destruct (profiles s !! target) as [tp|] eqn:Htp; simpl in H;
    [|discriminate H].
  unfold update_balance in H.
  destruct (fails env UserBalanceUpdate); simpl in H; [discriminate H|].
  destruct (fails env TargetBalanceUpdate); simpl in H; [discriminate H|].
  exists targetRole, target, tp. split; [done|]. split; [done|].
  destruct (is_returner role && role_eqb targetRole cashier); simpl in H.
  - unfold select_assignments in H.
    destruct (fails env AssignmentsSelect); simpl in H.
    + injection H as <- _ <-. done.
    + match type of H with
      | context [unreturned_assignments env ?u ?t ?st] =>
          change (unreturned_assignments env u t st)
            with (unreturned_assignments env userId target s) in H
      end.
      destruct (unreturned_assignments env userId target s) as [|r0 rows];
        simpl in H.
      * injection H as <- _ <-. done.
      * unfold bind in H. match type of H with
        | context [mark_assignments ?e ?l ?A ?st] =>
            destruct (mark_assignments_returns e l A st) as [s'' Hm];
            rewrite Hm in H; simpl in H
        end.
        injection H as <- _ <-. apply (f_equal fst) in Hm. simpl in Hm.
        rewrite <- Hm. done.
  - injection H as <- _ <-. done.
Qed.

(** What the handler did when it shows the success toast. *)
Lemma handleReturnMoney_success env page s s' page' a nm nb :
  handleReturnMoney env page s = (s', page', Some (MoneyReturned a nm nb)) →
  ∃ userId role b,
    user page = Some userId ∧ userRole page = Some role
    ∧ userBalance page = Some b ∧ returnAmount page = a
    ∧ isNaN a = false ∧ leb a zero = false ∧ ltb b a = false
    ∧ page' = set_userBalance nb page
    ∧ return_money env userId role b a s = (s', Ok (nm, nb)).
Proof.
  unfold handleReturnMoney. intros H.
  destruct (user page) as [userId|]; [|discriminate H].
  destruct (userRole page) as [role|]; [|discriminate H].
  destruct (userBalance page) as [b|]; [|discriminate H].
  destruct (isNaN (returnAmount page)) eqn:Hnan; [discriminate H|].
  destruct (leb (returnAmount page) zero) eqn:Hpos; [discriminate H|].
  destruct (ltb b (returnAmount page)) eqn:Hle; [discriminate H|].
  simpl in H.
  destruct (return_money env userId role b (returnAmount page) s)
    as [s'' [[nm' nb']|e]] eqn:Hrm; [|discriminate H].
  injection H as <- <- <- <- <-. exists userId, role, b.
  repeat split; done.
Qed.

(** The profiles a successful return leaves. *)
Lemma return_money_profiles env userId role b a s s' nm nb targetRole target tp :
  return_money env userId role b a s = (s', Ok (nm, nb)) →
  find_target env role s = (s, Ok (Some targetRole, Some target)) →
  profiles s !! target = Some tp →
  profiles s'
  = alter (set_balance (add (or_zero (balance tp)) a)) target
      (alter (set_balance (sub b a)) userId (profiles s)).
Proof.
  intros H Hfind Htp.
  apply return_money_success in H
    as (targetRole' & target' & tp' & Hfind' & Htp' & _ & Hs').
  rewrite Hfind in Hfind'. injection Hfind' as <- <-.
  rewrite Htp in Htp'. injection Htp' as <-.
  rewrite Hs'. repeat case_match; try done.
  apply mark_assignments_profiles.
Qed.

(** C5, as the code has it. The handler checks the amount against the
    balance the page holds, and writes that balance minus the amount. An
    amount that is not a number, not positive or above the balance on the
    page changes no balance and is not a success. On success the page's
    balance is the page's balance before minus the amount, and the balance
    written for the target is the target's balance before plus the amount,
    both as the binary64 arithmetic of the source gives them; the balance
    written for the caller is the page's balance minus the amount, which
    starts from the stored balance when that was the one on the page, and
    is kept when the target is another user; no other profile changes. *)
Theorem return_money_transfers env page s s' page' toast :
  handleReturnMoney env page s = (s', page', toast) →
  ((isNaN (returnAmount page) = true
    ∨ leb (returnAmount page) zero = true
    ∨ ∃ b, userBalance page = Some b ∧ ltb b (returnAmount page) = true) →
   s' = s ∧ page' = page ∧ ∀ a nm nb, toast ≠ Some (MoneyReturned a nm nb))
  ∧ (∀ a nm nb,
       toast = Some (MoneyReturned a nm nb) →
       ∃ userId role b targetRole target tp,
         user page = Some userId ∧ userRole page = Some role
         ∧ userBalance page = Some b ∧ returnAmount page = a
         ∧ isNaN a = false ∧ leb a zero = false ∧ ltb b a = false
         ∧ find_target env role s = (s, Ok (Some targetRole, Some target))
         ∧ userBalance page' = Some (sub b a)
         ∧ profiles s !! target = Some tp
         ∧ (balance <$> profiles s' !! target)
           = Some (json_number (add (or_zero (balance tp)) a))
         ∧ (target ≠ userId → balance_of s userId = Some b →
            (balance <$> profiles s' !! userId)
            = Some (json_number (sub b a)))
         ∧ (∀ other, other ≠ userId → other ≠ target →
            profiles s' !! other = profiles s !! other)).
Proof.
  intros H. split.
  - intros Hbad. unfold handleReturnMoney in H.
    destruct (user page) as [userId|]; [|by injection H as <- <- <-].
    destruct (userRole page) as [role|]; [|by injection H as <- <- <-].
    destruct (userBalance page) as [b|]; [|by injection H as <- <- <-].
    destruct (isNaN (returnAmount page)) eqn:Hnan;
      [by injection H as <- <- <-|].
    destruct (leb (returnAmount page) zero) eqn:Hpos;
      [by injection H as <- <- <-|].
    destruct (ltb b (returnAmount page)) eqn:Hle;
      [by injection H as <- <- <-|].
    destruct Hbad as [?|[?|(b' & [= <-] & ?)]]; congruence.
  - intros a nm nb ->.
    apply handleReturnMoney_success in H
      as (userId & role & b & Hu & Hr & Hb & Ha & Hnan & Hpos & Hle & -> & H).
    pose proof H as Hrun.
    apply return_money_success in H
      as (targetRole & target & tp & Hfind & Htp & -> & _).
    pose proof (return_money_profiles _ _ _ _ _ _ _ _ _ _ _ _ Hrun Hfind Htp)
      as Hprof.
    exists userId, role, b, targetRole, target, tp.
    repeat split; try done.
    + rewrite Hprof, lookup_alter_eq.
      destruct (decide (userId = target)) as [->|Hne].
      * rewrite lookup_alter_eq, Htp. done.
      * rewrite lookup_alter_ne, Htp by done. done.
    + intros Hne Hsync. unfold balance_of in Hsync.
      rewrite Hprof, lookup_alter_ne, lookup_alter_eq by done.
      destruct (profiles s !! userId); [done|discriminate Hsync].
    + intros other Hou Hot.
      rewrite Hprof, !lookup_alter_ne by done. done.
Qed.

Lemma return_money_transfers_witness :
  balance_of (sample_store submitted (of_Z 1000)) "emp-1" = Some (of_Z 1000)
  ∧ balance_of (sample_store submitted (of_Z 1000)) "csh-1"
    = Some (of_Z 2000)
  ∧ balance_of
      (handleReturnMoney calm
         (sample_page "emp-1" employee (of_Z 1000) (of_Z 300))
         (sample_store submitted (of_Z 1000))).1.1 "emp-1" = Some (of_Z 700)
  ∧ balance_of
      (handleReturnMoney calm
         (sample_page "emp-1" employee (of_Z 1000) (of_Z 300))
         (sample_store submitted (of_Z 1000))).1.1 "csh-1" = Some (of_Z 2300)
  ∧ (handleReturnMoney calm
       (sample_page "emp-1" employee (of_Z 1000) (of_Z 1300))
       (sample_store submitted (of_Z 1000))).1.1
    = sample_store submitted (of_Z 1000).
Proof.
  split; [reflexivity|]. split; [reflexivity|].
  edestruct (return_money_transfers calm
               (sample_page "emp-1" employee (of_Z 1000) (of_Z 300))
               (sample_store submitted (of_Z 1000)))
    as [_ Hok]; [vm_compute; reflexivity|].
  edestruct Hok
    as (userId & role & b & targetRole & target & tp & Hu & Hr & Hb & _ & _
        & _ & _ & Hfind & _ & Htp & Htarget & Hcaller & _); [reflexivity|].
  injection Hu as <-. injection Hr as <-. injection Hb as <-.
  vm_compute in Hfind. injection Hfind as <- <-.
  vm_compute in Htp. injection Htp as <-.
  split.
  { unfold balance_of. specialize (Hcaller ltac:(discriminate) eq_refl).
    destruct (profiles _ !! "emp-1") as [p|]; [|discriminate Hcaller].
    simpl in Hcaller |- *. injection Hcaller as Hc.
    unfold balance_or_0. rewrite Hc. vm_compute. reflexivity. }
  split.
  { unfold balance_of.
    destruct (profiles _ !! "csh-1") as [p|]; [|discriminate Htarget].
    simpl in Htarget |- *. injection Htarget as Hc.
    unfold balance_or_0. rewrite Hc. vm_compute. reflexivity. }
  edestruct (return_money_transfers calm
               (sample_page "emp-1" employee (of_Z 1000) (of_Z 1300))
               (sample_store submitted (of_Z 1000)))
    as [Hbad _]; [vm_compute; reflexivity|].
  apply Hbad. right. right. exists (of_Z 1000).
  split; vm_compute; reflexivity.
Defined.

(** C5, as it is worded, fails. The page holds a balance that need not be
    the stored one (the page reads it once, when it is mounted): with
    1000.00 stored and 5000.00 on the page, returning 3000.00, more than
    the stored balance, succeeds and leaves the caller with 2000.00; with
    5000.00 stored and 1000.00 on the page, returning 500.00 succeeds and
    takes 4500.00 from the caller. And the source computes on binary64
    numbers: returning 0.01 of 0.03 leaves 0.019999999999999997 on the
    page and in the store, which is neither the number 0.02 nor the
    difference of the two numbers. *)
Lemma return_money_from_stale_page :
  balance_of (sample_store submitted (of_Z 1000)) "emp-1" = Some (of_Z 1000)
  ∧ ltb (of_Z 1000) (of_Z 3000) = true
  ∧ (handleReturnMoney calm
       (sample_page "emp-1" employee (of_Z 5000) (of_Z 3000))
       (sample_store submitted (of_Z 1000))).2
    = Some (MoneyReturned (of_Z 3000) "E. One" (of_Z 2000))
  ∧ balance_of
      (handleReturnMoney calm
         (sample_page "emp-1" employee (of_Z 5000) (of_Z 3000))
         (sample_store submitted (of_Z 1000))).1.1 "emp-1" = Some (of_Z 2000)
  ∧ balance_of (sample_store submitted (of_Z 5000)) "emp-1" = Some (of_Z 5000)
  ∧ ltb (of_Z 5000) (of_Z 500) = false
  ∧ (handleReturnMoney calm
       (sample_page "emp-1" employee (of_Z 1000) (of_Z 500))
       (sample_store submitted (of_Z 5000))).2
    = Some (MoneyReturned (of_Z 500) "E. One" (of_Z 500))
  ∧ balance_of
      (handleReturnMoney calm
         (sample_page "emp-1" employee (of_Z 1000) (of_Z 500))
         (sample_store submitted (of_Z 5000))).1.1 "emp-1" = Some (of_Z 500)
  ∧ ∃ r before returned after,
      balance_of
        (handleReturnMoney calm
           (sample_page "emp-1" employee (cents 3) (cents 1))
           (sample_store submitted (cents 3))).1.1 "emp-1" = Some r
      ∧ userBalance
          (handleReturnMoney calm
             (sample_page "emp-1" employee (cents 3) (cents 1))
             (sample_store submitted (cents 3))).1.2 = Some r
      ∧ r ≠ cents 2
      ∧ units (cents 3) = Some before ∧ units (cents 1) = Some returned
      ∧ units r = Some after ∧ after ≠ before - returned.
Proof.
  do 8 (split; [vm_compute; reflexivity|]).
  eexists _, _, _, _. split; [vm_compute; reflexivity|].
  split; [vm_compute; reflexivity|].
  split; [vm_compute; discriminate|].
  split; [reflexivity|]. split; [reflexivity|]. split; [reflexivity|].
  vm_compute. discriminate.
Qed.

(** The credit is computed from the balance of the target read before the
    debit: a return routed to the caller's own profile overwrites the debit
    and leaves the caller with more than before. *)
Lemma return_money_to_oneself :
  balance_of
    (handleReturnMoney
       {| fails := fun _ => false; now := 20;
          original_cashier := Some "emp-1"; tie_rank := fun _ => 0 |}
       (sample_page "emp-1" employee (of_Z 1000) (of_Z 300))
       (sample_store submitted (of_Z 1000))).1.1 "emp-1" = Some (of_Z 1300).
Proof. vm_compute. reflexivity. Qed.

(** C7, what the code does instead. When the credit of the target fails
    after the debit of the caller was written, the handler shows the error
    and the store it leaves is the store before with the debit in it: the
    caller stays debited and no write restoring the balance is sent, not
    even when every other store call would answer. *)
Theorem return_money_failed_credit_not_compensated
    env page s userId role b a targetRole target tp :
  user page = Some userId →
  userRole page = Some role →
  userBalance page = Some b →
  returnAmount page = a →
  isNaN a = false →
  leb a zero = false →
  ltb b a = false →
  find_target env role s = (s, Ok (Some targetRole, Some target)) →
  truthy (Some target) = true →
  profiles s !! target = Some tp →
  fails env TargetProfileSelect = false →
  fails env UserBalanceUpdate = false →
  fails env TargetBalanceUpdate = true →
  handleReturnMoney env page s
  = (with_profiles (alter (set_balance (sub b a)) userId (profiles s)) s,
     page, Some (ErrorToast (StoreError TargetBalanceUpdate))).
Proof.
  intros Hu Hr Hb Ha Hnan Hpos Hle Hfind Htruthy Htp HfP HfU HfT.
  unfold handleReturnMoney. rewrite Hu, Hr, Hb, Ha, Hnan, Hpos, Hle. simpl.
  unfold return_money, bind. rewrite Hfind, Htruthy. simpl.
  unfold select_profile. rewrite HfP, Htp. simpl.
  unfold update_balance. rewrite HfU. simpl. rewrite HfT. reflexivity.
Qed.

Lemma return_money_failed_credit_not_compensated_witness :
  balance_of (sample_store submitted (of_Z 1000)) "emp-1" = Some (of_Z 1000)
  ∧ (handleReturnMoney credit_fails
       (sample_page "emp-1" employee (of_Z 1000) (of_Z 300))
       (sample_store submitted (of_Z 1000))).2
    = Some (ErrorToast (StoreError TargetBalanceUpdate))
  ∧ balance_of
      (handleReturnMoney credit_fails
         (sample_page "emp-1" employee (of_Z 1000) (of_Z 300))
         (sample_store submitted (of_Z 1000))).1.1 "emp-1" = Some (of_Z 700)
  ∧ balance_of
      (handleReturnMoney credit_fails
         (sample_page "emp-1" employee (of_Z 1000) (of_Z 300))
         (sample_store submitted (of_Z 1000))).1.1 "csh-1" = Some (of_Z 2000).
Proof.
  rewrite (return_money_failed_credit_not_compensated credit_fails
             (sample_page "emp-1" employee (of_Z 1000) (of_Z 300))
             (sample_store submitted (of_Z 1000)) "emp-1" employee (of_Z 1000)
             (of_Z 300) cashier "csh-1" (sample_profile (of_Z 2000) None));
    [|vm_compute; reflexivity ..].
  vm_compute. repeat split; reflexivity.
Defined.

(** C10, as the code has it. After a successful return by an engineer or
    employee the target is a cashier. When the select of the caller's
    unreturned assignments from that cashier fails, no row is marked.
    When it answers, with the rows oldest first ([rows]), the rows the
    loop consumes are a prefix, and each of them is marked returned unless
    its own write fails, which does not stop the loop. The prefix goes on as
    long as something is left of the amount returned, each row taking the
    amount assigned to it, or all that is left when it was assigned at
    least as much, in the binary64 arithmetic of the source: before every
    consumed row the rest is positive, when rows are left over the rest is
    not, and a row assigned at least the rest is the last one consumed.
    Every such row is marked as a whole, the last one too; no other row of
    the table changes. *)
Theorem returned_assignments_marked_oldest_first
    env page s s' page' a nm nb userId role :
  handleReturnMoney env page s = (s', page', Some (MoneyReturned a nm nb)) →
  user page = Some userId →
  userRole page = Some role →
  is_returner role = true →
  ∃ target,
    find_target env role s = (s, Ok (Some cashier, Some target))
    ∧ let rows := unreturned_assignments env userId target s in
      let consumed := oldest_reaching a rows in
      money_assignments s'
      = (if fails env AssignmentsSelect then money_assignments s
         else marked (now env) (answered env (ma_id <$> consumed))
                (money_assignments s))
      ∧ (∀ r, r ∈ rows
              ↔ r ∈ money_assignments s ∧ recipient_id r = userId
                ∧ cashier_id r = target ∧ is_returned r = false)
      ∧ StronglySorted (fun r1 r2 => assigned_at r1 <= assigned_at r2) rows
      ∧ consumed `prefix_of` rows
      ∧ (∀ p r q, consumed = p ++ r :: q →
                  leb (amount_left a p) zero = false)
      ∧ (consumed ≠ rows → leb (amount_left a consumed) zero = true)
      ∧ (∀ p r q sg m e,
           consumed = p ++ r :: q →
           amount_left a p = S754_finite sg m e →
           Math_min (Number (amount r)) (amount_left a p) = amount_left a p →
           q = []).
Proof.
  intros H Hu Hr Hret.
  apply handleReturnMoney_success in H
    as (userId' & role' & b & Hu' & Hr' & _ & _ & _ & _ & _ & _ & H).
  rewrite Hu in Hu'. injection Hu' as <-.
  rewrite Hr in Hr'. injection Hr' as <-.
  apply return_money_success in H
    as (targetRole & target & tp & Hfind & _ & _ & Hs').
  assert (targetRole = cashier) as ->.
  { unfold find_target, bind, first_with_role, ret in Hfind.
    destruct role; try discriminate Hret;
      repeat case_match; simplify_eq; done. }
  exists target. split; [exact Hfind|].
  rewrite Hret in Hs'. simpl in Hs'.
  split.
  { rewrite Hs'. destruct (fails env AssignmentsSelect); [done|].
    by rewrite mark_assignments_marks. }
  split; [intros r; apply unreturned_assignments_rows|].
  split; [apply unreturned_assignments_sorted|].
  split; [apply oldest_reaching_prefix|].
  split; [intros p r q; apply oldest_reaching_before|].
  split; [apply oldest_reaching_reached|].
  intros p r q sg m e. apply oldest_reaching_covered.
Qed.

Lemma returned_assignments_marked_oldest_first_witness :
  (ma_id <$> unreturned_assignments calm "emp-1" "csh-1"
               (sample_store submitted (of_Z 1000)))
  = ["ma-2"; "ma-4"; "ma-1"]
  ∧ ((fun r => (ma_id r, is_returned r)) <$>
       money_assignments
         (handleReturnMoney calm
            (sample_page "emp-1" employee (of_Z 1000) (of_Z 300))
            (sample_store submitted (of_Z 1000))).1.1)
    = [("ma-1", false); ("ma-2", true); ("ma-3", false); ("ma-4", true);
       ("ma-5", true)].
Proof.
  split; [reflexivity|].
  edestruct (returned_assignments_marked_oldest_first calm
               (sample_page "emp-1" employee (of_Z 1000) (of_Z 300))
               (sample_store submitted (of_Z 1000)))
    as (target & Hfind & Hmarked & _);
    [vm_compute; reflexivity ..|].
  vm_compute in Hfind. injection Hfind as <-.
  vm_compute. reflexivity.
Defined.

(** C10, as it is worded, fails. The handler does not look at the answers
    of the calls on the assignment table: when the select of the rows
    fails, the return succeeds all the same and no row is marked, though
    the caller has unreturned assignments from the cashier. And the rest
    is kept in binary64 arithmetic: of assignments of 0.70, 0.10 and 5.00
    a return of 0.80 marks all three, because 0.8 - 0.7 - 0.1 leaves a
    positive rest there. *)
Lemma return_marks_nothing_without_select :
  (ma_id <$> unreturned_assignments select_fails "emp-1" "csh-1"
               (sample_store submitted (of_Z 1000)))
  = ["ma-2"; "ma-4"; "ma-1"]
  ∧ (handleReturnMoney select_fails
       (sample_page "emp-1" employee (of_Z 1000) (of_Z 300))
       (sample_store submitted (of_Z 1000))).2
    = Some (MoneyReturned (of_Z 300) "E. One" (of_Z 700))
  ∧ money_assignments
      (handleReturnMoney select_fails
         (sample_page "emp-1" employee (of_Z 1000) (of_Z 300))
         (sample_store submitted (of_Z 1000))).1.1
    = money_assignments (sample_store submitted (of_Z 1000))
  ∧ (70 + 10 = 80)%Z
  ∧ (handleReturnMoney calm
       (sample_page "emp-1" employee (of_Z 1000) (cents 80))
       (with_money_assignments small_assignments
          (sample_store submitted (of_Z 1000)))).2
    = Some (MoneyReturned (cents 80) "E. One" (sub (of_Z 1000) (cents 80)))
  ∧ ((fun r => (ma_id r, amount r, is_returned r)) <$>
       money_assignments
         (handleReturnMoney calm
            (sample_page "emp-1" employee (of_Z 1000) (cents 80))
            (with_money_assignments small_assignments
               (sample_store submitted (of_Z 1000)))).1.1)
    = [("ma-1", Some (cents 70), true); ("ma-2", Some (cents 10), true);
       ("ma-3", Some (of_Z 5), true)].
Proof. vm_compute. repeat split; reflexivity. Qed.

(** ** What the operations of the service never do *)

(** The body of an operation, audit insert included, case by case; the
    statement is in the goal. *)
Ltac op_step :=
  first
    [ match goal with
      | |- context [hasRole ?e ?u ?r ?s] =>
          let b := fresh "b" in
          let Hb := fresh "Hrole" in
          destruct (hasRole_reads e u r s) as [b Hb]; rewrite Hb;
          destruct b
      end
    | case_match ];
  simpl in *; simplify_eq.

Ltac op_run :=
  unfold updateExpense, submitExpense, assignToEngineer,
    verifyExpense, approveExpense, rejectExpense, canUserEditExpense,
    canEngineerReviewExpense, logAction, bind, select_expense,
    select_profile, update_expense, update_expense_unchecked, update_balance,
    orThrow, ret, throw, status_eqb;
  simpl; repeat op_step.

(** *** Roles *)

(** X1. [hasRole] answers true exactly when the user id, with the white
    space trimmed off both ends, is not empty, the query answers, and
    exactly one row of [user_roles] carries this user with this role: an id
    of white space only holds no role whatever the table says, and a pair
    that is stored twice counts as not held. It never writes. *)
Theorem hasRole_exactly_one_row env userId role s :
  hasRole env userId role s
  = (s, Ok (negb (String.eqb (trim userId) "")
            && negb (fails env (RoleSelect userId role))
            && bool_decide (length (role_rows userId role s) = 1%nat))).
Proof.
  unfold hasRole.
  assert (String.eqb userId "" || String.eqb (trim userId) ""
          = String.eqb (trim userId) "") as ->.
  { destruct (String.eqb_spec userId "") as [->|_]; reflexivity. }
  destruct (String.eqb (trim userId) ""); simpl; [done|].
  destruct (fails env (RoleSelect userId role)); simpl; [done|].
  destruct (role_rows userId role s) as [|r1 [|r2 rows]]; done.
Qed.

(** An id that is one no-break space (U+00A0) holds no role, though a
    row of [user_roles] carries it and the query would answer. *)
Lemma hasRole_refuses_no_break_space :
  let nbsp := String (Ascii.ascii_of_nat 194)
                (String (Ascii.ascii_of_nat 160) "") in
  let s := {| expenses := ∅; profiles := ∅; user_roles := [(nbsp, admin)];
              audit_logs := []; money_assignments := [] |} in
  role_rows nbsp admin s = [(nbsp, admin)]
  ∧ hasRole calm nbsp admin s = (s, Ok false).
Proof. vm_compute. split; reflexivity. Qed.

(** *** Failures *)

Lemma createExpense_cases env userId data s :
  (fails env ExpenseInsert = true
   ∧ createExpense env userId data s = (s, Throw CreateFailed))
  ∨ (fails env ExpenseInsert = false
     ∧ ∃ es,
         createExpense env userId data s
         = (with_audit_logs (audit_logs s ++ es)
              (with_expenses
                 (<[fresh (dom (expenses s)) :=
                      new_expense env (fresh (dom (expenses s))) userId data]>
                    (expenses s)) s),
            Ok (new_expense env (fresh (dom (expenses s))) userId data))
         ∧ es = if fails env AuditInsert then []
                else [{| log_expense_id := fresh (dom (expenses s));
                         log_user_id := userId;
                         action := "expense_created";
                         log_comment := Some "Expense created" |}]).
Proof.
  unfold createExpense, bind, insert_expense, logAction.
  destruct (fails env ExpenseInsert); [by left|right]. split; [done|].
  destruct (fails env AuditInsert); eexists; (split; [|reflexivity]).
  - cbn [fst snd]. rewrite app_nil_r. by destruct s.
  - reflexivity.
Qed.

(** X2. An operation that throws has written nothing, with one exception:
    the failed deduction of [approveExpense], which is thrown after the
    status was written. *)
Theorem thrown_operation_leaves_store env op s s' err :
  exec env op s = (s', Throw err) →
  err ≠ DeductionFailed →
  s' = s.
Proof.
  destruct op; simpl.
  - destruct (createExpense_cases env userId data s)
      as [[_ ->]|(_ & es & -> & _)]; intros; by simplify_eq.
  - op_run; intros; simplify_eq; done.
  - op_run; intros; simplify_eq; done.
  - op_run; intros; simplify_eq; done.
  - op_run; intros; simplify_eq; done.
  - op_run; intros; simplify_eq; done.
  - op_run; intros; simplify_eq; done.
Qed.

Lemma thrown_operation_leaves_store_witness :
  exec calm (Approve "exp-1" "eng-1" None) (sample_store verified (of_Z 5000))
  = (sample_store verified (of_Z 5000), Throw ApproveNotAdmin).
Proof.
  assert ((exec calm (Approve "exp-1" "eng-1" None)
             (sample_store verified (of_Z 5000))).2 = Throw ApproveNotAdmin)
    as Hres by (vm_compute; reflexivity).
  destruct (exec calm (Approve "exp-1" "eng-1" None)
              (sample_store verified (of_Z 5000))) as [s' r] eqn:Hrun.
  simpl in Hres. subst r.
  by rewrite (thrown_operation_leaves_store _ _ _ _ _ Hrun).
Defined.

(** *** The audit log *)

(** X3. The audit log is append-only under every operation: the log
    before is a prefix of the log after. An operation that throws appends
    nothing; one that returns appends exactly one entry when the insert
    into [audit_logs] answers (and nothing when it does not, without
    failing for that), and the entry names the acting user and the expense
    worked on. *)
Theorem audit_log_append_only env op s :
  ∃ es,
    audit_logs (exec env op s).1 = audit_logs s ++ es
    ∧ (∀ err, (exec env op s).2 = Throw err → es = [])
    ∧ (∀ e, (exec env op s).2 = Ok e →
        if fails env AuditInsert then es = []
        else ∃ entry,
            es = [entry]
            ∧ log_user_id entry = caller op
            ∧ log_expense_id entry
              = default (fresh (dom (expenses s))) (target op)).
Proof.
  destruct op; simpl.
  - destruct (createExpense_cases env userId data s)
      as [[_ ->]|(_ & es & -> & ->)]; simpl.
    + exists []. rewrite app_nil_r. done.
    + eexists. split; [reflexivity|]. split; [done|]. intros _ _.
      destruct (fails env AuditInsert); eauto.
  - op_run;
      first [ exists []; rewrite app_nil_r; done
            | eexists [_]; split; [reflexivity|]; split; [done|];
              intros ? _; eauto ].
  - op_run;
      first [ exists []; rewrite app_nil_r; done
            | eexists [_]; split; [reflexivity|]; split; [done|];
              intros ? _; eauto ].
  - op_run;
      first [ exists []; rewrite app_nil_r; done
            | eexists [_]; split; [reflexivity|]; split; [done|];
              intros ? _; eauto ].
  - op_run;
      first [ exists []; rewrite app_nil_r; done
            | eexists [_]; split; [reflexivity|]; split; [done|];
              intros ? _; eauto ].
  - op_run;
      first [ exists []; rewrite app_nil_r; done
            | eexists [_]; split; [reflexivity|]; split; [done|];
              intros ? _; eauto ].
  - op_run;
      first [ exists []; rewrite app_nil_r; done
            | eexists [_]; split; [reflexivity|]; split; [done|];
              intros ? _; eauto ].
Qed.

(** *** Balances and identity *)

(** X4. The service writes a profile in one place only: an operation
    after which some user's profile differs is an approval of a verified
    expense owned by that user, by a caller holding the admin role, and it
    returned normally. Creating, updating, submitting, assigning,
    verifying and rejecting never touch a balance. *)
Theorem profile_written_only_by_approval env op s userId :
  profiles (exec env op s).1 !! userId ≠ profiles s !! userId →
  ∃ expenseId adminId comment e0 e,
    op = Approve expenseId adminId comment
    ∧ expenses s !! expenseId = Some e0
    ∧ user_id e0 = userId
    ∧ status e0 = verified
    ∧ hasRole env adminId admin s = (s, Ok true)
    ∧ (exec env op s).2 = Ok e.
Proof.
  destruct op; simpl.
  - destruct (createExpense_cases env userId0 data s)
      as [[_ ->]|(_ & es & -> & _)]; simpl; done.
  - op_run; done.
  - op_run; done.
  - op_run; done.
  - op_run; done.
  - op_run; try done.
    all: intros Hne; simpl in Hne.
    all: repeat case_bool_decide; try done.
    all: destruct (decide (user_id e = userId)) as [Heq|Hneq];
      [|by rewrite lookup_alter_ne in Hne].
    all: eauto 12.
  - op_run; done.
Qed.

Lemma profile_written_only_by_approval_witness :
  ∃ e0,
    expenses (sample_store verified (of_Z 5000)) !! "exp-1" = Some e0
    ∧ user_id e0 = "emp-1".
Proof.
  destruct (profile_written_only_by_approval calm
              (Approve "exp-1" "adm-1" None) (sample_store verified (of_Z 5000))
              "emp-1")
    as (i & a & c & e0 & e & Hop & He0 & Hu & _).
  - vm_compute. discriminate.
  - injection Hop as <- <- <-. eauto.
Defined.

#[local] Transparent apply_update.

Lemma fields_when_given {A B} (proj : Expense → B) (o : option A) set e :
  (∀ v e', proj (set v e') = proj e') →
  proj (when_given o set e) = proj e.
Proof. intros Hset. destruct o; simpl; [apply Hset | reflexivity]. Qed.

(** A patch leaves the id, the owner and the creation time of a row, and
    sets the total to the amount it carries, if any. *)
Lemma apply_update_identity env data totalAmount e :
  id (apply_update env data totalAmount e) = id e
  ∧ user_id (apply_update env data totalAmount e) = user_id e
  ∧ created_at (apply_update env data totalAmount e) = created_at e
  ∧ total_amount (apply_update env data totalAmount e)
    = match u_amount data with
      | Some v => json_number v
      | None => totalAmount
      end.
Proof.
  unfold apply_update. simpl.
  rewrite !(fields_when_given id), !(fields_when_given user_id),
    !(fields_when_given created_at) by reflexivity.
  done.
Qed.

#[local] Opaque apply_update.

(** X5. No operation deletes an expense or changes its id, its owner or
    its creation time. The total amount of an expense changes only through
    [updateExpense] with an amount in the patch, to that amount as the
    request carries it; approving,
    verifying, rejecting, assigning and submitting pay out or pass on the
    amount that was recorded. *)
Theorem expense_identity_kept env op s x e :
  expenses s !! x = Some e →
  ∃ e',
    expenses (exec env op s).1 !! x = Some e'
    ∧ id e' = id e
    ∧ user_id e' = user_id e
    ∧ created_at e' = created_at e
    ∧ (total_amount e' = total_amount e
       ∨ ∃ userId data v,
           op = Update x userId data ∧ u_amount data = Some v
           ∧ total_amount e' = json_number v).
Proof.
  intros He. destruct op; simpl.
  - destruct (createExpense_cases env userId data s)
      as [[_ ->]|(_ & es & -> & _)]; simpl; [eauto 10|].
    rewrite lookup_insert_ne; [eauto 10|].
    intros Heq. pose proof (is_fresh (dom (expenses s))) as Hfresh.
    rewrite Heq in Hfresh. apply not_elem_of_dom in Hfresh. congruence.
  - op_run; eauto 10.
    all: cbn [fst snd expenses with_expenses with_audit_logs].
    all: rewrite lookup_insert; split_target; simplify_eq; eauto 10.
    all: eexists; split; [reflexivity|].
    all: destruct (apply_update_identity env data (total_amount e) e)
      as (-> & -> & -> & ->).
    all: repeat (split; [done|]).
    all: destruct (u_amount data) eqn:Hamt; simpl; eauto 10.
  - op_run; eauto 10.
    all: cbn [fst snd expenses with_expenses with_audit_logs].
    all: rewrite lookup_insert; split_target; simplify_eq; eauto 10.
  - op_run; eauto 10.
    all: cbn [fst snd expenses with_expenses with_audit_logs].
    all: rewrite lookup_insert; split_target; simplify_eq; eauto 10.
  - op_run; eauto 10.
    all: cbn [fst snd expenses with_expenses with_audit_logs].
    all: rewrite lookup_insert; split_target; simplify_eq; eauto 10.
  - op_run; eauto 10.
    all: cbn [fst snd expenses with_expenses with_audit_logs with_profiles].
    all: rewrite ?alter_insert_eq, lookup_insert; split_target; simplify_eq;
      eauto 10.
    all: destruct comment; simpl; eauto 10.
  - op_run; eauto 10.
    all: cbn [fst snd expenses with_expenses with_audit_logs].
    all: rewrite lookup_insert; split_target; simplify_eq; eauto 10.
    all: destruct comment; simpl; eauto 10.
Qed.

Lemma expense_identity_kept_witness :
  ∃ e',
    expenses
      (exec calm (Update "exp-1" "emp-1" (status_patch to_approved))
         (sample_store submitted zero)).1 !! "exp-1" = Some e'
    ∧ user_id e' = "emp-1" ∧ total_amount e' = Some (of_Z 1500).
Proof.
  destruct (expense_identity_kept calm
              (Update "exp-1" "emp-1" (status_patch to_approved))
              (sample_store submitted zero) "exp-1" (sample_expense submitted))
    as (e' & He' & _ & Hu & _ & [Ht|(u & d & v & Hop & Hamt & _)]).
  - vm_compute. reflexivity.
  - eauto.
  - injection Hop as <- <-. discriminate Hamt.
Defined.

(** *** Settled expenses *)

(** X6. An expense that is no longer submitted is closed to everyone who
    is not an admin: whatever operation such a caller directs at it
    (update, submit, assign, verify, approve, reject) throws and writes
    nothing. Only a holder of the admin role moves a verified, approved or
    rejected expense. *)
Theorem settled_expense_closed_to_non_admins env op s x e0 :
  target op = Some x →
  expenses s !! x = Some e0 →
  status e0 ≠ submitted →
  hasRole env (caller op) admin s = (s, Ok false) →
  ∃ err, exec env op s = (s, Throw err).
Proof.
  intros Ht He0 Hst Hrole.
  destruct op; simpl in *; simplify_eq.
  - unfold updateExpense, canUserEditExpense, bind. rewrite Hrole. simpl.
    unfold select_expense. destruct (fails env EditCheckSelect); simpl;
      [eauto|].
    rewrite He0. simpl. unfold status_eqb.
    rewrite (bool_decide_eq_false_2 _ Hst), andb_false_r. simpl. eauto.
  - unfold submitExpense, canUserEditExpense, bind. rewrite Hrole. simpl.
    unfold select_expense. destruct (fails env EditCheckSelect); simpl;
      [eauto|].
    rewrite He0. simpl. unfold status_eqb.
    rewrite (bool_decide_eq_false_2 _ Hst), andb_false_r. simpl. eauto.
  - unfold assignToEngineer, bind. rewrite Hrole. simpl. eauto.
  - clear Hrole. unfold verifyExpense, canEngineerReviewExpense, bind,
      select_expense.
    destruct (fails env ReviewCheckSelect); simpl; [eauto|].
    rewrite He0. simpl.
    destruct (is_string (assigned_engineer_id e0) engineerId); simpl;
      [|eauto].
    destruct (fails env ExpenseSelect); simpl; [eauto|].
    rewrite He0. simpl. unfold status_eqb.
    case_bool_decide; simpl; [eauto|].
    rewrite (bool_decide_eq_false_2 _ Hst). simpl. eauto.
  - unfold approveExpense, bind. rewrite Hrole. simpl. eauto.
  - unfold rejectExpense, bind. rewrite Hrole. simpl. eauto.
Qed.

Lemma settled_expense_closed_to_non_admins_witness :
  exec calm (Update "exp-1" "emp-1" (status_patch to_submitted))
    (sample_store approved zero)
  = (sample_store approved zero, Throw EditDenied).
Proof.
  destruct (settled_expense_closed_to_non_admins calm
              (Update "exp-1" "emp-1" (status_patch to_submitted))
              (sample_store approved zero) "exp-1" (sample_expense approved))
    as [err Hrun]; [vm_compute; try reflexivity ..|].
  - discriminate.
  - rewrite Hrun. vm_compute in Hrun. injection Hrun as <-. reflexivity.
Defined.




(** *** From one operation to the next *)

Lemma submitExpense_returns env expenseId userId s s1 e :
  submitExpense env expenseId userId s = (s1, Ok e) →
  ∃ p0 eng,
    profiles s !! userId = Some p0
    ∧ reporting_engineer_id p0 = Some eng
    ∧ eng ≠ ""
    ∧ expenses s1 !! expenseId = Some e
    ∧ assigned_engineer_id e = Some eng
    ∧ status e = submitted
    ∧ profiles s1 = profiles s.
Proof.
  op_run; intros; simplify_eq.
  all: cbn [fst snd expenses profiles with_expenses with_audit_logs].
  all: rewrite lookup_insert_eq.
  all: match goal with
       | H : negb (truthy (reporting_engineer_id ?p)) = false |- _ =>
           destruct (reporting_engineer_id p) as [eng|] eqn:Heng;
           simpl in H; [|discriminate H];
           destruct (String.eqb_spec eng "") as [->|Hne];
           [discriminate H|]
       end.
  all: eexists _, eng; repeat (split; [done|]); done.
Qed.

(** X8. Submission hands the expense to the one engineer who can verify
    it. After [submitExpense] has returned, the reporting engineer of the
    submitting user verifies the expense successfully (given store calls
    that answer), and [verifyExpense] refuses every other user. *)
Theorem submitted_expense_verifiable_by_reporting_engineer
    env expenseId userId s s1 e :
  submitExpense env expenseId userId s = (s1, Ok e) →
  ∃ p0 eng,
    profiles s !! userId = Some p0
    ∧ reporting_engineer_id p0 = Some eng
    ∧ (∀ env' comment,
         fails env' ReviewCheckSelect = false →
         fails env' ExpenseSelect = false →
         fails env' ExpenseUpdate = false →
         ∃ s2 e2,
           verifyExpense env' expenseId eng comment s1 = (s2, Ok e2)
           ∧ expenses s2 !! expenseId = Some e2
           ∧ status e2 = verified)
    ∧ (∀ env' other comment,
         other ≠ eng →
         verifyExpense env' expenseId other comment s1
         = (s1, Throw ReviewDenied)).
Proof.
  intros H. apply submitExpense_returns in H
    as (p0 & eng & Hp0 & Heng & _ & He & Ha & Hst & _).
  exists p0, eng. split; [done|]. split; [done|]. split.
  - intros env' comment HfR HfS HfU.
    unfold verifyExpense, canEngineerReviewExpense, bind, select_expense,
      update_expense, logAction.
    rewrite HfR, He. simpl. rewrite Ha. simpl. rewrite String.eqb_refl.
    simpl. rewrite HfS, He. simpl. unfold status_eqb. rewrite Hst. simpl.
    rewrite HfU, He. simpl.
    destruct (fails env' AuditInsert); simpl; eexists _, _;
      (split; [reflexivity|]); simpl; rewrite lookup_insert_eq; done.
  - intros env' other comment Hne.
    unfold verifyExpense, canEngineerReviewExpense, bind, select_expense.
    destruct (fails env' ReviewCheckSelect); simpl; [done|].
    rewrite He. simpl. rewrite Ha. simpl.
    destruct (String.eqb_spec eng other) as [->|_]; done.
Qed.

Lemma submitted_expense_verifiable_by_reporting_engineer_witness :
  status_of
    (verifyExpense calm "exp-1" "eng-1" None
       (submitExpense calm "exp-1" "emp-1" (sample_store submitted zero)).1).1
    "exp-1" = Some verified
  ∧ verifyExpense calm "exp-1" "eng-2" None
      (submitExpense calm "exp-1" "emp-1" (sample_store submitted zero)).1
    = ((submitExpense calm "exp-1" "emp-1" (sample_store submitted zero)).1,
       Throw ReviewDenied).
Proof.
  destruct (submitted_expense_verifiable_by_reporting_engineer calm
              "exp-1" "emp-1" (sample_store submitted zero)
              (submitExpense calm "exp-1" "emp-1"
                 (sample_store submitted zero)).1
              (set_updated_at 20
                 (set_assigned_engineer_id (Some "eng-1")
                    (set_status submitted (sample_expense submitted))))
              ltac:(vm_compute; reflexivity))
    as (p0 & eng & Hp0 & Heng & Hverify & Hother).
  vm_compute in Hp0. injection Hp0 as <-. injection Heng as <-.
  split.
  - destruct (Hverify calm None eq_refl eq_refl eq_refl)
      as (s2 & e2 & Hrun & He2 & Hst).
    rewrite Hrun. unfold status_of. simpl. rewrite He2. simpl. by rewrite Hst.
  - apply Hother. discriminate.
Defined.

(** X9. [createExpense] stores the new expense under an id that was not
    in use: looking the id up afterwards gives back the expense that was
    returned, every other expense is as before and no profile is touched.
    The expense belongs to the creating user, has no engineer assigned,
    and, while it is submitted, its creator passes the edit check. *)
Theorem created_expense_is_new env userId data s s' e :
  createExpense env userId data s = (s', Ok e) →
  expenses s !! id e = None
  ∧ expenses s' !! id e = Some e
  ∧ (∀ x, x ≠ id e → expenses s' !! x = expenses s !! x)
  ∧ profiles s' = profiles s
  ∧ user_id e = userId
  ∧ assigned_engineer_id e = None
  ∧ total_amount e = json_number (or_zero (c_amount data))
  ∧ (status e = submitted →
     ∀ env', fails env' EditCheckSelect = false →
             canUserEditExpense env' (id e) userId s' = (s', Ok true)).
Proof.
  intros H.
  destruct (createExpense_cases env userId data s)
    as [[_ Hc]|(_ & es & Hc & _)]; rewrite Hc in H; [discriminate H|].
  injection H as <- <-. simpl.
  pose proof (is_fresh (dom (expenses s))) as Hfresh.
  apply not_elem_of_dom in Hfresh.
  split; [done|]. split; [by rewrite lookup_insert_eq|].
  split; [by intros x Hx; rewrite lookup_insert_ne|].
  repeat (split; [done|]).
  intros Hst env' Hf. unfold canUserEditExpense, bind.
  match goal with
  | |- context [hasRole ?e ?u ?r ?st] =>
      destruct (hasRole_reads e u r st) as [b ->]
  end.
  destruct b; simpl; [done|].
  unfold select_expense. rewrite Hf. simpl. rewrite lookup_insert_eq. simpl.
  rewrite String.eqb_refl. unfold status_eqb.
  simpl in Hst. rewrite Hst. done.
Qed.

Lemma created_expense_is_new_witness :
  ∃ e,
    (createExpense calm "emp-2" (sample_data (of_Z 420))
       (sample_store approved zero)).2 = Ok e
    ∧ expenses (sample_store approved zero) !! id e = None
    ∧ expenses
        (createExpense calm "emp-2" (sample_data (of_Z 420))
           (sample_store approved zero)).1 !! id e = Some e
    ∧ user_id e = "emp-2"
    ∧ total_amount e = Some (of_Z 420).
Proof.
  destruct (createExpense calm "emp-2" (sample_data (of_Z 420))
              (sample_store approved zero)) as [s' [e|err]] eqn:Hrun.
  - destruct (created_expense_is_new _ _ _ _ _ _ Hrun)
      as (Hnew & Hget & _ & _ & Hu & _ & Ht & _).
    exists e. simpl. rewrite Ht. done.
  - vm_compute in Hrun. discriminate Hrun.
Defined.

(** ** The review page *)

(** X10. A reviewer who does not hold the admin role gets nothing done
    with an expense at or below the approval limit: the dialog offers
    Reject and Approve for it, and both handlers end in the permission
    error of the service and write nothing. (Verify, the one action open
    to an engineer, is offered above the limit only.) *)
Theorem review_page_below_limit_needs_admin env page s userId exp b disabled :
  EngineerReview.user page = Some userId →
  EngineerReview.selectedExpense page = Some exp →
  leb (Number (total_amount exp)) (EngineerReview.engineerApprovalLimit page)
  = true →
  hasRole env userId admin s = (s, Ok false) →
  (b, disabled) ∈ EngineerReview.action_buttons page →
  ∃ err,
    EngineerReview.click env b page s = (s, Some (EngineerReview.Failed err))
    ∧ kind err = Some PermissionError.
Proof.
  intros Hu Hexp Hle Hrole Hin.
  unfold EngineerReview.action_buttons in Hin. rewrite Hexp in Hin.
  destruct (status_eqb (status exp) rejected);
    [by apply elem_of_nil in Hin|].
  simpl in Hin. rewrite Hle in Hin.
  apply elem_of_cons in Hin as [[= -> _]|Hin];
    [|apply elem_of_cons in Hin as [[= -> _]|Hin];
      [|by apply elem_of_nil in Hin]].
  - exists RejectNotAdmin. split; [|done].
    unfold EngineerReview.click, EngineerReview.rejectExpense,
      EngineerReview.review, rejectExpense, bind.
    rewrite Hexp, Hu, Hrole. done.
  - exists ApproveNotAdmin. split; [|done].
    unfold EngineerReview.click, EngineerReview.approveExpense,
      EngineerReview.review, approveExpense, bind.
    rewrite Hexp, Hu, Hrole. done.
Qed.

Lemma review_page_below_limit_needs_admin_witness :
  EngineerReview.action_buttons
    (sample_review "eng-1" (sample_expense submitted) (of_Z 50000))
  = [(EngineerReview.Reject, false); (EngineerReview.Approve, false)]
  ∧ EngineerReview.click calm EngineerReview.Approve
      (sample_review "eng-1" (sample_expense submitted) (of_Z 50000))
      (sample_store submitted (of_Z 5000))
    = (sample_store submitted (of_Z 5000),
       Some (EngineerReview.Failed ApproveNotAdmin)).
Proof.
  split; [vm_compute; reflexivity|].
  destruct (review_page_below_limit_needs_admin calm
              (sample_review "eng-1" (sample_expense submitted) (of_Z 50000))
              (sample_store submitted (of_Z 5000)) "eng-1"
              (sample_expense submitted) EngineerReview.Approve false)
    as (err & Hrun & _); [vm_compute; try reflexivity ..|].
  - vm_compute. apply elem_of_cons. right. apply elem_of_cons. by left.
  - rewrite Hrun. vm_compute in Hrun. injection Hrun as <-. reflexivity.
Defined.

(** X11. The Approve button of the review page never approves an expense
    that is still submitted in the store, whoever clicks it and whatever
    the store calls do: the handler ends in an error and writes nothing,
    since [ExpenseService.approveExpense] asks for the status verified. *)
Theorem review_page_approve_of_submitted_fails env page s userId exp e0 :
  EngineerReview.user page = Some userId →
  EngineerReview.selectedExpense page = Some exp →
  expenses s !! id exp = Some e0 →
  status e0 = submitted →
  ∃ err,
    EngineerReview.approveExpense env page s
    = (s, Some (EngineerReview.Failed err))
    ∧ (err = ApproveNotAdmin ∨ err = ApproveNotVerified
       ∨ err = StoreError ExpenseSelect).
Proof.
  intros Hu Hexp He0 Hst.
  unfold EngineerReview.approveExpense, EngineerReview.review.
  rewrite Hexp, Hu. unfold approveExpense, bind.
  destruct (hasRole_reads env userId admin s) as [b ->].
  destruct b; simpl; [|eauto].
  unfold select_expense. destruct (fails env ExpenseSelect); simpl;
    [eauto 6|].
  rewrite He0. simpl. unfold status_eqb. rewrite Hst. simpl. eauto 6.
Qed.

Lemma review_page_approve_of_submitted_fails_witness :
  EngineerReview.approveExpense calm
    (sample_review "adm-1" (sample_expense submitted) (of_Z 50000))
    (sample_store submitted (of_Z 5000))
  = (sample_store submitted (of_Z 5000),
     Some (EngineerReview.Failed ApproveNotVerified)).
Proof.
  destruct (review_page_approve_of_submitted_fails calm
              (sample_review "adm-1" (sample_expense submitted) (of_Z 50000))
              (sample_store submitted (of_Z 5000)) "adm-1"
              (sample_expense submitted) (sample_expense submitted))
    as (err & Hrun & _); [vm_compute; reflexivity ..|].
  rewrite Hrun. vm_compute in Hrun. injection Hrun as <-. reflexivity.
Defined.

(** ** Returning money: what else the handler does and does not do *)

Lemma mark_assignments_cons env r l A :
  mark_assignments env (r :: l) A
  = if leb A zero then ret tt
    else bind (mark_returned env (ma_id r))
           (fun _ => mark_assignments env l
                       (sub A (Math_min (Number (amount r)) A))).
Proof. reflexivity. Qed.

(** Whatever calls fail, the loop leaves the table with some of the rows
    it was given marked, and every other row as it was. *)
Lemma mark_assignments_touches env l A s :
  ∃ ids,
    ids ⊆ ma_id <$> l
    ∧ mark_assignments env l A s
      = (with_money_assignments
           (marked (now env) ids (money_assignments s)) s,
         Ok tt).
Proof.
  revert A s. induction l as [|r l IH]; intros A s.
  - exists []. split; [done|]. rewrite marked_nil. by destruct s.
  - rewrite mark_assignments_cons. destruct (leb A zero); simpl.
    + exists []. split; [apply list_subseteq_nil|].
      rewrite marked_nil. unfold ret. by destruct s.
    + unfold bind, mark_returned.
      destruct (fails env (AssignmentUpdate (ma_id r))); simpl.
      * destruct (IH (sub A (Math_min (Number (amount r)) A)) s)
          as (ids & Hsub & ->).
        exists ids. split; [|done]. by apply list_subseteq_cons.
      * match goal with
        | |- context [mark_assignments env l ?A' ?s'] =>
            destruct (IH A' s') as (ids & Hsub & ->)
        end.
        exists (ma_id r :: ids). split.
        -- intros x [->|Hx]%elem_of_cons; apply elem_of_cons; auto.
        -- unfold with_money_assignments. simpl. by rewrite marked_cons.
Qed.

(** The three ways [return_money] ends: an exception before anything was
    written; the failed credit, with the debit written; or success, with
    both balances written and some of the caller's unreturned rows from
    the target marked. *)
Lemma return_money_outcomes env userId role b a s :
  (∃ err,
     return_money env userId role b a s = (s, Throw err)
     ∧ err ≠ StoreError TargetBalanceUpdate)
  ∨ return_money env userId role b a s
    = (with_profiles (alter (set_balance (sub b a)) userId (profiles s)) s,
       Throw (StoreError TargetBalanceUpdate))
  ∨ ∃ nm ids targetRole target tp,
      find_target env role s = (s, Ok (Some targetRole, Some target))
      ∧ profiles s !! target = Some tp
      ∧ ids ⊆ ma_id <$> unreturned_assignments env userId target s
      ∧ return_money env userId role b a s
        = (with_money_assignments
             (marked (now env) ids (money_assignments s))
             (with_profiles
                (alter (set_balance (add (or_zero (balance tp)) a)) target
                   (alter (set_balance (sub b a)) userId (profiles s))) s),
           Ok (nm, sub b a)).
Proof.
  unfold return_money, bind.
  destruct (find_target_reads env role s) as [r Hr]. rewrite Hr.
  destruct r as [[[targetRole|] [target|]]|e];
    try (left; eexists; split; [reflexivity|]; simpl; try discriminate).
  2:{ unfold find_target, bind, first_with_role, ret in Hr.
      repeat case_match; simplify_eq; discriminate. }
  destruct (truthy (Some target)); simpl;
    [|left; eexists; split; [reflexivity|discriminate]].
  unfold select_profile, orThrow.
  destruct (fails env TargetProfileSelect); simpl;
    [left; eexists; split; [reflexivity|discriminate]|].
  destruct (profiles s !! target) as [tp|] eqn:Htp; simpl;
    [|left; eexists; split; [reflexivity|discriminate]].
  unfold update_balance.
  destruct (fails env UserBalanceUpdate); simpl;
    [left; eexists; split; [reflexivity|discriminate]|].
  destruct (fails env TargetBalanceUpdate); simpl; [right; by left|].
  right. right.
  destruct (is_returner role && role_eqb targetRole cashier); simpl.
  - unfold select_assignments.
    destruct (fails env AssignmentsSelect); simpl.
    + exists (or_else (name tp) (role_name targetRole)), [], targetRole,
        target, tp.
      split; [done|]. split; [done|]. split; [apply list_subseteq_nil|].
      by rewrite marked_nil.
    + match goal with
      | |- context [unreturned_assignments env ?u ?t ?st] =>
          change (unreturned_assignments env u t st)
            with (unreturned_assignments env userId target s)
      end.
      destruct (unreturned_assignments env userId target s) as [|r0 rows]
        eqn:Hrows; simpl.
      * exists (or_else (name tp) (role_name targetRole)), [], targetRole,
          target, tp.
        split; [done|]. split; [done|]. split; [apply list_subseteq_nil|].
      by rewrite marked_nil.
      * unfold bind.
        match goal with
        | |- context [mark_assignments ?e ?l ?A ?st] =>
            destruct (mark_assignments_touches e l A st)
              as (ids & Hsub & ->)
        end.
        exists (or_else (name tp) (role_name targetRole)), ids, targetRole,
          target, tp.
        split; [done|]. split; [done|]. split; [by rewrite Hrows|].
        done.
  - exists (or_else (name tp) (role_name targetRole)), [], targetRole,
      target, tp.
    split; [done|]. split; [done|]. split; [apply list_subseteq_nil|].
    by rewrite marked_nil.
Qed.

(** The same for the handler, which adds the checks of the amount. *)
Lemma handleReturnMoney_outcomes env page s :
  (∃ toast,
     handleReturnMoney env page s = (s, page, toast)
     ∧ (∀ a nm nb, toast ≠ Some (MoneyReturned a nm nb))
     ∧ toast ≠ Some (ErrorToast (StoreError TargetBalanceUpdate)))
  ∨ (∃ userId b a,
       user page = Some userId
       ∧ handleReturnMoney env page s
         = (with_profiles
              (alter (set_balance (sub b a)) userId (profiles s)) s,
            page, Some (ErrorToast (StoreError TargetBalanceUpdate))))
  ∨ ∃ userId role b a nm ids targetRole target tp,
      user page = Some userId
      ∧ userRole page = Some role
      ∧ find_target env role s = (s, Ok (Some targetRole, Some target))
      ∧ profiles s !! target = Some tp
      ∧ ids ⊆ ma_id <$> unreturned_assignments env userId target s
      ∧ handleReturnMoney env page s
        = (with_money_assignments
             (marked (now env) ids (money_assignments s))
             (with_profiles
                (alter (set_balance (add (or_zero (balance tp)) a)) target
                   (alter (set_balance (sub b a)) userId (profiles s))) s),
           set_userBalance (sub b a) page,
           Some (MoneyReturned a nm (sub b a))).
Proof.
  unfold handleReturnMoney.
  destruct (user page) as [userId|];
    [|left; eexists; split; [reflexivity|]; split; [intros|]; discriminate].
  destruct (userRole page) as [role|];
    [|left; eexists; split; [reflexivity|]; split; [intros|]; discriminate].
  destruct (userBalance page) as [b|];
    [|left; eexists; split; [reflexivity|]; split; [intros|]; discriminate].
  cbv zeta.
  destruct (isNaN (returnAmount page) || leb (returnAmount page) zero);
    [left; eexists; split; [reflexivity|]; split; [intros|]; discriminate|].
  destruct (ltb b (returnAmount page));
    [left; eexists; split; [reflexivity|]; split; [intros|]; discriminate|].
  destruct (return_money_outcomes env userId role b (returnAmount page) s)
    as [(err & -> & Herr)|[->|(nm & ids & tr & t & tp & Hf & Htp & Hsub & ->)]].
  - left. eexists. split; [reflexivity|]. split; [intros; discriminate|].
    congruence.
  - right. left. by exists userId, b, (returnAmount page).
  - right. right.
    exists userId, role, b, (returnAmount page), nm, ids, tr, t, tp. done.
Qed.

(** X12. Returning money is not an audited operation and touches no
    expense: whatever the page holds and whatever the store calls do,
    [handleReturnMoney] leaves the expenses, the audit log and the role
    table exactly as they were. *)
Theorem return_money_writes_no_expense_no_log env page s :
  expenses (handleReturnMoney env page s).1.1 = expenses s
  ∧ audit_logs (handleReturnMoney env page s).1.1 = audit_logs s
  ∧ user_roles (handleReturnMoney env page s).1.1 = user_roles s.
Proof.
  destruct (handleReturnMoney_outcomes env page s)
    as [(toast & -> & _)|[(u & b & a & _ & ->)
        |(u & r & b & a & nm & ids & tr & t & tp & _ & _ & _ & _ & _ & ->)]];
    done.
Qed.

(** X13. Of all the ways [handleReturnMoney] can fail, only the failed
    credit of the target leaves a write behind: when the handler shows
    neither the success toast nor the error of that write, the store and
    the page are exactly as before. *)
Theorem return_money_failure_leaves_store env page s s' page' toast :
  handleReturnMoney env page s = (s', page', toast) →
  (∀ a nm nb, toast ≠ Some (MoneyReturned a nm nb)) →
  toast ≠ Some (ErrorToast (StoreError TargetBalanceUpdate)) →
  s' = s ∧ page' = page.
Proof.
  intros H Hok Hcredit.
  destruct (handleReturnMoney_outcomes env page s)
    as [(toast' & Hrun & _)|[(u & b & a & _ & Hrun)
        |(u & r & b & a & nm & ids & tr & t & tp & _ & _ & _ & _ & _ & Hrun)]];
    rewrite Hrun in H; injection H as <- <- <-.
  - done.
  - by destruct Hcredit.
  - by destruct (Hok a nm (sub b a)).
Qed.

Lemma return_money_failure_leaves_store_witness :
  handleReturnMoney calm (sample_page "adm-1" admin (of_Z 1000) (of_Z 300))
    (sample_store submitted zero)
  = (sample_store submitted zero, sample_page "adm-1" admin (of_Z 1000) (of_Z 300),
     Some (ErrorToast InvalidReturnRole)).
Proof.
  assert ((handleReturnMoney calm (sample_page "adm-1" admin (of_Z 1000) (of_Z 300))
             (sample_store submitted zero)).2
          = Some (ErrorToast InvalidReturnRole)) as Htoast
    by (vm_compute; reflexivity).
  destruct (handleReturnMoney calm (sample_page "adm-1" admin (of_Z 1000) (of_Z 300))
              (sample_store submitted zero)) as [[s' page'] toast] eqn:Hrun.
  simpl in Htoast. subst toast.
  destruct (return_money_failure_leaves_store _ _ _ _ _ _ Hrun)
    as [-> ->]; [intros; discriminate | discriminate | reflexivity].
Defined.

Lemma same_key_same_row {A B} (f : A → B) (l : list A) x y :
  NoDup (f <$> l) → x ∈ l → y ∈ l → f x = f y → x = y.
Proof.
  induction l as [|z l IH]; simpl; [by intros _ ?%elem_of_nil|].
  intros [Hz Hl]%NoDup_cons [->|Hx]%elem_of_cons [->|Hy]%elem_of_cons Hf;
    [done| | |by apply IH].
  - destruct Hz. rewrite Hf. by apply list_elem_of_fmap_2.
  - destruct Hz. rewrite <- Hf. by apply list_elem_of_fmap_2.
Qed.

Lemma Forall2_map_self {A} (R : A → A → Prop) (f : A → A) (l : list A) :
  (∀ x, x ∈ l → R x (f x)) → Forall2 R l (List.map f l).
Proof.
  induction l as [|x l IH]; intros H; simpl; constructor.
  - apply H, elem_of_cons. by left.
  - apply IH. intros y Hy. apply H, elem_of_cons. by right.
Qed.

(** X14. Whatever store calls fail, [handleReturnMoney] changes the table
    of assignments row by row and only by marking: each row is either as
    before or the same row marked returned now, and a row that gets marked
    was an unreturned assignment to the signed-in user. No row is added or
    dropped, no amount, cashier or recipient changes, and no row of
    another recipient is touched. The ids of the table are taken to be
    distinct. *)
Theorem return_money_marks_only_own_unreturned_rows env page s :
  NoDup (ma_id <$> money_assignments s) →
  Forall2
    (fun r r' =>
       r' = r
       ∨ (r' = mark_returned_row (now env) r
          ∧ is_returned r = false
          ∧ user page = Some (recipient_id r)))
    (money_assignments s)
    (money_assignments (handleReturnMoney env page s).1.1).
Proof.
  intros Hnodup.
  destruct (handleReturnMoney_outcomes env page s)
    as [(toast & -> & _)|[(u & b & a & _ & ->)
        |(u & r & b & a & nm & ids & tr & t & tp & Hu & _ & _ & _ & Hsub
          & ->)]]; simpl.
  - rewrite <- (List.map_id (money_assignments s)) at 2.
    apply Forall2_map_self. auto.
  - rewrite <- (List.map_id (money_assignments s)) at 2.
    apply Forall2_map_self. auto.
  - unfold marked. apply Forall2_map_self. intros x Hx.
    case_bool_decide as Hin; [right|by left]. split; [done|].
    apply Hsub in Hin. apply list_elem_of_fmap in Hin as (x0 & Hid & Hx0).
    apply unreturned_assignments_rows in Hx0 as (Hx0 & Hrec & _ & Hret).
    assert (x = x0) as <- by by eapply (same_key_same_row ma_id).
    by rewrite Hrec.
Qed.

Lemma return_money_marks_only_own_unreturned_rows_witness :
  Forall2
    (fun r r' =>
       r' = r
       ∨ (r' = mark_returned_row 20 r
          ∧ is_returned r = false
          ∧ Some "emp-1" = Some (recipient_id r)))
    (money_assignments (sample_store submitted (of_Z 1000)))
    (money_assignments
       (handleReturnMoney calm (sample_page "emp-1" employee (of_Z 1000) (of_Z 300))
          (sample_store submitted (of_Z 1000))).1.1).
Proof.
  apply (return_money_marks_only_own_unreturned_rows calm
           (sample_page "emp-1" employee (of_Z 1000) (of_Z 300))
           (sample_store submitted (of_Z 1000))).
  apply (bool_decide_unpack
           (NoDup (ma_id <$> money_assignments
                               (sample_store submitted (of_Z 1000))))).
  vm_compute. exact I.
Defined.

(** ** The CSV export *)

Lemma double_quotes_inj a b : double_quotes a = double_quotes b → a = b.
Proof.
  revert b. induction a as [|x a IH]; intros [|y b]; simpl; [done| | |].
  - destruct (Ascii.eqb y quote); discriminate.
  - destruct (Ascii.eqb x quote); discriminate.
  - destruct (Ascii.eqb_spec x quote) as [->|Hx],
      (Ascii.eqb_spec y quote) as [->|Hy]; intros H; simplify_eq.
    + f_equal. by apply IH.
    + f_equal. by apply IH.
Qed.

Lemma append_last_inj a b c :
  a +:+ String c "" = b +:+ String c "" → a = b.
Proof.
  revert b. induction a as [|x a IH]; intros [|y b]; simpl; intros H;
    simplify_eq; [done|by destruct b|by destruct a|].
  f_equal. by apply IH.
Qed.

Lemma quotes_paired_double_quotes s : quotes_paired (double_quotes s) = true.
Proof.
  induction s as [|a s IH]; simpl; [done|].
  destruct (Ascii.eqb a quote) eqn:Ha; simpl; [done|]. by rewrite Ha.
Qed.

(** X15. [escapeCSV] gives different fields for different strings, so a
    reader of the export can tell the values apart. ([null], [undefined]
    and the empty string all become the empty field.) *)
Theorem escapeCSV_injective a b :
  escapeCSV (Some a) = escapeCSV (Some b) → a = b.
Proof.
  unfold escapeCSV.
  destruct (has_char comma a || has_char quote a || has_char line_feed a) eqn:Ha,
    (has_char comma b || has_char quote b || has_char line_feed b) eqn:Hb;
    intros H.
  - injection H as H. apply append_last_inj in H.
    by apply double_quotes_inj.
  - subst b. apply orb_false_elim in Hb as [Hb _].
    apply orb_false_elim in Hb as [_ Hb]. simpl in Hb. discriminate Hb.
  - subst a. apply orb_false_elim in Ha as [Ha _].
    apply orb_false_elim in Ha as [_ Ha]. simpl in Ha. discriminate Ha.
  - done.
Qed.

Lemma escapeCSV_injective_witness :
  escapeCSV None = escapeCSV (Some "")
  ∧ escapeCSV (Some "Pune, camp") ≠ escapeCSV (Some "Pune") .
Proof.
  split; [reflexivity|].
  intros H. apply escapeCSV_injective in H. discriminate H.
Defined.

(** X16. Every field [escapeCSV] produces is well-formed: either it is the
    value itself and holds no comma, no quote and no line feed, or it is
    enclosed in quotes and every quote inside stands doubled. *)
Theorem escapeCSV_field_well_formed value :
  (escapeCSV value = default "" value
   ∧ has_char comma (escapeCSV value) = false
   ∧ has_char quote (escapeCSV value) = false
   ∧ has_char line_feed (escapeCSV value) = false)
  ∨ ∃ str body,
      value = Some str
      ∧ escapeCSV value = String quote (body +:+ String quote "")
      ∧ body = double_quotes str
      ∧ quotes_paired body = true.
Proof.
  destruct value as [str|]; simpl; [|by left].
  destruct (has_char comma str) eqn:H1, (has_char quote str) eqn:H2,
    (has_char line_feed str) eqn:H3; simpl;
    try (right; eexists _, _; split; [reflexivity|];
         split; [reflexivity|]; split; [reflexivity|];
         apply quotes_paired_double_quotes).
  by left.
Qed.

(** ** The Balances page *)

Lemma set_balance_same v p :
  balance p = json_number v → set_balance v p = p.
Proof. destruct p; simpl; intros ->; reflexivity. Qed.

Lemma write_balance_same u v w p :
  profiles (Balances.store w) !! u = Some p → balance p = json_number v →
  Balances.write_balance u v w = w.
Proof.
  intros Hp Hb. destruct w as [[e pr ur al ma] n].
  unfold Balances.write_balance, Balances.with_store, with_profiles; simpl in *.
  do 2 f_equal. apply map_eq. intros i.
  destruct (decide (i = u)) as [->|Hne].
  - rewrite lookup_alter_eq, Hp. simpl. by rewrite set_balance_same.
  - by rewrite lookup_alter_ne.
Qed.

Lemma write_balance_twice u v v' w :
  Balances.write_balance u v (Balances.write_balance u v' w)
  = Balances.write_balance u v w.
Proof.
  destruct w as [[e pr ur al ma] n].
  unfold Balances.write_balance, Balances.with_store, with_profiles; simpl.
  do 2 f_equal. apply map_eq. intros i.
  destruct (decide (i = u)) as [->|Hne].
  - rewrite !lookup_alter_eq. by destruct (pr !! u).
  - by rewrite !lookup_alter_ne.
Qed.

Lemma debited_positive page a :
  ltb zero a = true → Balances.debited page a = Balances.cashier_user page.
Proof.
  intros Ha. unfold Balances.debited.
  destruct (Balances.cashier_user page); [|done]. by rewrite Ha.
Qed.

Ltac balances_frame :=
  unfold Balances.adder_profile, Balances.notifyBalanceAdded,
    Balances.debited in *;
  repeat case_match; simplify_eq; simpl;
  split_and!; try done;
  try (intros ? ? ?; rewrite ?lookup_alter_ne by congruence; done);
  try (intros ?; rewrite ?lookup_alter_is_Some; done);
  try (exists []; split;
       [by rewrite app_nil_r | split; [simpl; lia | constructor]]);
  try (eexists [_]; split;
       [reflexivity | split; [simpl; lia | by repeat constructor]]);
  try (by left); try (by right; left); try (by right; right; eexists).

(** X17. Whatever the store answers, [addAmountToUser] leaves expenses,
    role rows, audit log and money assignments alone, writes no profile
    other than the recipient's and the signed-in cashier's (so an admin's
    addition debits nobody), creates and deletes no profile, adds at most
    one notification and that one for the recipient; and unless it ends
    with the toast of success or with the failure of the recipient's
    write, it changes neither the store nor the page. *)
Theorem add_amount_frame fails page userId a w w' page' t :
  Balances.addAmountToUser fails page userId a w = (w', page', t) →
  expenses (Balances.store w') = expenses (Balances.store w)
  ∧ user_roles (Balances.store w') = user_roles (Balances.store w)
  ∧ audit_logs (Balances.store w') = audit_logs (Balances.store w)
  ∧ money_assignments (Balances.store w')
    = money_assignments (Balances.store w)
  ∧ (∀ i, i ≠ userId → Balances.cashier_user page ≠ Some i →
       profiles (Balances.store w') !! i = profiles (Balances.store w) !! i)
  ∧ (∀ i, is_Some (profiles (Balances.store w') !! i)
          ↔ is_Some (profiles (Balances.store w) !! i))
  ∧ (∃ extra, Balances.notifications w' = Balances.notifications w ++ extra
              ∧ (length extra ≤ 1)%nat
              ∧ Forall (fun n => Balances.n_user_id n = userId) extra)
  ∧ (w' = w ∧ page' = page
     ∨ t = Some (Balances.Failed
                   (Balances.StoreFailure (Balances.TargetUpdate userId)))
     ∨ ∃ n, t = Some (Balances.AmountAdded a n)).
Proof.
  unfold Balances.addAmountToUser. intros E.
  balances_frame.
Qed.

Lemma add_amount_frame_witness :
  ∃ w' page' t,
    Balances.addAmountToUser all_answer (sample_balances "adm-1" admin)
      "emp-1" (of_Z 300) sample_world = (w', page', t)
    ∧ ∀ i, i ≠ "emp-1" →
        profiles (Balances.store w') !! i
        = profiles (Balances.store sample_world) !! i.
Proof.
  edestruct (add_amount_frame all_answer (sample_balances "adm-1" admin)
               "emp-1" (of_Z 300) sample_world)
    as (_ & _ & _ & _ & Hp & _); [vm_compute; reflexivity|].
  eexists _, _, _. split; [vm_compute; reflexivity|].
  intros i Hi. apply Hp; [done|]. vm_compute. discriminate.
Defined.

(** X18. A cashier's addition of a positive amount to a user of the
    table ends with the toast of success exactly when the recipient is
    another user, the balance the page holds for the cashier is not below
    the amount, and the two writes answer. Then the balance written for the
    cashier is that balance minus the amount, the balance written for the
    recipient is the balance of the recipient's row plus the amount, both
    as the binary64 arithmetic of the source gives them, and the page's
    cashier balance is the same difference. *)
Theorem cashier_add_moves_money fails page userId a w u row w' page' t :
  Balances.cashier_user page = Some u →
  Balances.find_row page userId = Some row →
  ltb zero a = true →
  Balances.addAmountToUser fails page userId a w = (w', page', t) →
  (t = Some (Balances.AmountAdded a (Balances.row_name row))
   ↔ userId ≠ u ∧ ltb (Balances.cashierBalance page) a = false
     ∧ fails Balances.CashierUpdate = false
     ∧ fails (Balances.TargetUpdate userId) = false)
  ∧ (t = Some (Balances.AmountAdded a (Balances.row_name row)) →
     profiles (Balances.store w') !! u
     = set_balance (sub (Balances.cashierBalance page) a)
         <$> profiles (Balances.store w) !! u
     ∧ profiles (Balances.store w') !! userId
       = set_balance (add (or_zero (Balances.row_balance row)) a)
           <$> profiles (Balances.store w) !! userId
     ∧ Balances.cashierBalance page' = sub (Balances.cashierBalance page) a).
Proof.
  intros Hu Hrow Ha. unfold Balances.addAmountToUser.
  rewrite Hrow, (debited_positive _ _ Ha), Hu.
  rewrite (bool_decide_eq_true_2 (is_Some (Some u))) by eauto.
  cbn [andb].
  destruct (decide (u = userId)) as [->|Hne].
  { rewrite bool_decide_eq_true_2 by done. intros E; simplify_eq.
    split; [split; [done | by intros (? & _)] | done]. }
  rewrite bool_decide_eq_false_2 by congruence.
  destruct (ltb (Balances.cashierBalance page) a) eqn:Hlt.
  { intros E; simplify_eq.
    split; [split; [done | by intros (_ & ? & _)] | done]. }
  destruct (fails Balances.CashierUpdate) eqn:Hc.
  { intros E; simplify_eq.
    split; [split; [done | by intros (_ & _ & ? & _)] | done]. }
  destruct (fails (Balances.TargetUpdate userId)) eqn:Ht.
  { intros E; simplify_eq.
    split; [split; [done | by intros (_ & _ & _ & ?)] | done]. }
  intros E.
  assert (Hw : ∃ extra,
             w' = {| Balances.store :=
                       Balances.store
                         (Balances.write_balance userId
                            (add (or_zero (Balances.row_balance row)) a)
                            (Balances.write_balance u
                               (sub (Balances.cashierBalance page) a) w));
                     Balances.notifications := extra |}).
  { unfold Balances.adder_profile, Balances.notifyBalanceAdded in E.
    repeat case_match; simplify_eq; by eexists. }
  destruct Hw as (extra & ->).
  assert (Hpage : Balances.cashierBalance page'
                  = sub (Balances.cashierBalance page) a) by by simplify_eq.
  assert (Ht' : t = Some (Balances.AmountAdded a (Balances.row_name row)))
    by by simplify_eq.
  clear E. split; [split; [done | done] |]. intros _.
  cbn [Balances.store Balances.write_balance Balances.with_store profiles
       with_profiles].
  split_and!; [|by rewrite lookup_alter_eq, lookup_alter_ne by done|done].
  rewrite lookup_alter_ne by done. by rewrite lookup_alter_eq.
Qed.

Lemma cashier_add_moves_money_witness :
  ∃ w' page',
    Balances.addAmountToUser all_answer (sample_balances "csh-1" cashier)
      "emp-1" (of_Z 300) sample_world
    = (w', page', Some (Balances.AmountAdded (of_Z 300) (Some "E. One")))
    ∧ (balance_or_0 <$> profiles (Balances.store w') !! "csh-1")
      = Some (of_Z 1700)
    ∧ (balance_or_0 <$> profiles (Balances.store w') !! "emp-1")
      = Some (of_Z 1300).
Proof.
  edestruct (cashier_add_moves_money all_answer
               (sample_balances "csh-1" cashier) "emp-1" (of_Z 300)
               sample_world "csh-1")
    as [[_ Hok] Hgo]; [vm_compute; reflexivity ..|].
  destruct Hgo as (H1 & H2 & _).
  { apply Hok. split_and!; [discriminate | vm_compute; reflexivity
                           | reflexivity | reflexivity]. }
  eexists _, _. split; [vm_compute; reflexivity|].
  split; [rewrite H1 | rewrite H2]; vm_compute; reflexivity.
Defined.

(** The two balances need not add up to what they did before: a cashier
    holding 0.02 who adds 0.01 to a user holding 0.06 is left with 0.01,
    and the user with 0.06999999999999999. *)
Lemma cashier_add_not_conserved :
  ∃ w' page' t cashier_after user_after,
    Balances.addAmountToUser all_answer
      {| Balances.user := Some "csh-1"; Balances.userRole := Some cashier;
         Balances.rows :=
           [Balances.Build_ProfileRow "emp-1" None (Some (cents 6))
              "employee"];
         Balances.cashierBalance := cents 2 |}
      "emp-1" (cents 1) sample_world = (w', page', t)
    ∧ balance_of (Balances.store w') "csh-1" = Some cashier_after
    ∧ balance_of (Balances.store w') "emp-1" = Some user_after
    ∧ cashier_after = cents 1
    ∧ user_after ≠ cents 7
    ∧ add cashier_after user_after ≠ add (cents 2) (cents 6).
Proof.
  eexists _, _, _, _, _. split; [vm_compute; reflexivity|].
  split; [vm_compute; reflexivity|]. split; [vm_compute; reflexivity|].
  split; [vm_compute; reflexivity|].
  split; vm_compute; discriminate.
Qed.

(** X19. When the write of the recipient's balance fails after the
    cashier was debited, [addAmountToUser] writes the page's cashier
    balance back: if that balance was the stored one and the second write
    answers, store and page are exactly as before; the outcome of the
    second write is not looked at, and if it fails too the cashier's
    profile stays debited while the page shows the old balance. The
    cashier is a user other than the recipient, the amount is positive and
    the page's balance is not below it. *)
Theorem add_amount_rolls_back fails page userId a w u row p :
  Balances.cashier_user page = Some u →
  Balances.find_row page userId = Some row →
  userId ≠ u →
  ltb zero a = true →
  ltb (Balances.cashierBalance page) a = false →
  profiles (Balances.store w) !! u = Some p →
  balance p = json_number (Balances.cashierBalance page) →
  fails Balances.CashierUpdate = false →
  fails (Balances.TargetUpdate userId) = true →
  Balances.addAmountToUser fails page userId a w
  = (if fails Balances.CashierRollback
     then Balances.write_balance u (sub (Balances.cashierBalance page) a) w
     else w,
     page,
     Some (Balances.Failed
             (Balances.StoreFailure (Balances.TargetUpdate userId)))).
Proof.
  intros Hu Hrow Hne Hpos Hle Hp Hb Hc Ht.
  unfold Balances.addAmountToUser.
  rewrite Hrow, (debited_positive _ _ Hpos), Hu, Hc, Ht, Hle.
  rewrite bool_decide_eq_false_2 by congruence.
  rewrite andb_false_r. cbn [andb].
  rewrite write_balance_twice, (write_balance_same _ _ _ _ Hp Hb).
  by destruct page.
Qed.

Lemma add_amount_rolls_back_witness :
  Balances.addAmountToUser (target_write_fails "emp-1")
    (sample_balances "csh-1" cashier) "emp-1" (of_Z 300) sample_world
  = (sample_world, sample_balances "csh-1" cashier,
     Some (Balances.Failed
             (Balances.StoreFailure (Balances.TargetUpdate "emp-1")))).
Proof.
  apply (add_amount_rolls_back (target_write_fails "emp-1")
           (sample_balances "csh-1" cashier) "emp-1" (of_Z 300) sample_world
           "csh-1"
           (Balances.Build_ProfileRow "emp-1" (Some "E. One")
              (Some (of_Z 1000)) "employee")
           (sample_profile (of_Z 2000) None)).
  all: vm_compute; first [reflexivity | discriminate].
Defined.

(** X20. The notification is beside the point for the money: two runs of
    [addAmountToUser] whose three balance writes answer alike end with the
    same store, the same page and the same toast, whatever the read of the
    adder's name and the insertion of the notification do. *)
Theorem add_amount_ignores_notification_failures f g page userId a w :
  f Balances.CashierUpdate = g Balances.CashierUpdate →
  f (Balances.TargetUpdate userId) = g (Balances.TargetUpdate userId) →
  f Balances.CashierRollback = g Balances.CashierRollback →
  Balances.store (Balances.addAmountToUser f page userId a w).1.1
  = Balances.store (Balances.addAmountToUser g page userId a w).1.1
  ∧ (Balances.addAmountToUser f page userId a w).1.2
    = (Balances.addAmountToUser g page userId a w).1.2
  ∧ (Balances.addAmountToUser f page userId a w).2
    = (Balances.addAmountToUser g page userId a w).2.
Proof.
  intros Hc Ht Hr. unfold Balances.addAmountToUser.
  rewrite Hc, Ht, Hr.
  unfold Balances.adder_profile, Balances.notifyBalanceAdded.
  repeat case_match; simplify_eq; simpl; done.
Qed.

Lemma add_amount_ignores_notification_failures_witness :
  Balances.store
    (Balances.addAmountToUser all_answer (sample_balances "csh-1" cashier)
       "emp-1" (of_Z 300) sample_world).1.1
  = Balances.store
      (Balances.addAmountToUser
         (fun site =>
            match site with
            | Balances.NotificationInsert _ => true
            | _ => false
            end)
         (sample_balances "csh-1" cashier) "emp-1" (of_Z 300)
         sample_world).1.1.
Proof.
  apply (add_amount_ignores_notification_failures all_answer); reflexivity.
Defined.

(** X21. [updateBalance] has no such compensation: when the recipient's
    write fails after a cashier paid for a raise, the cashier's profile and
    the page keep the debit and the recipient's profile is as before. The
    raise is the new balance minus the balance of the recipient's row, as
    the binary64 arithmetic of the source gives it, and it is that number
    the handler compares with the cashier's balance and takes from it. *)
Theorem update_balance_failed_write_keeps_debit
    fails page userId newBalance w u row w' page' t :
  Balances.cashier_user page = Some u →
  Balances.find_row page userId = Some row →
  userId ≠ u →
  ltb zero (sub newBalance (or_zero (Balances.row_balance row))) = true →
  ltb (Balances.cashierBalance page)
    (sub newBalance (or_zero (Balances.row_balance row))) = false →
  fails Balances.CashierUpdate = false →
  fails (Balances.TargetUpdate userId) = true →
  Balances.updateBalance fails page userId newBalance w = (w', page', t) →
  t = Some (Balances.Failed
              (Balances.StoreFailure (Balances.TargetUpdate userId)))
  ∧ profiles (Balances.store w') !! u
    = set_balance
        (sub (Balances.cashierBalance page)
           (sub newBalance (or_zero (Balances.row_balance row))))
        <$> profiles (Balances.store w) !! u
  ∧ profiles (Balances.store w') !! userId
    = profiles (Balances.store w) !! userId
  ∧ Balances.cashierBalance page'
    = sub (Balances.cashierBalance page)
        (sub newBalance (or_zero (Balances.row_balance row))).
Proof.
  intros Hu Hrow Hne Hpos Hle Hc Ht.
  unfold Balances.updateBalance.
  rewrite Hrow. cbv zeta.
  rewrite (debited_positive _ _ Hpos), Hu, Hc, Ht, Hle.
  rewrite bool_decide_eq_false_2 by congruence.
  rewrite andb_false_r. cbn [andb]. intros E; simplify_eq.
  cbn [Balances.store Balances.write_balance Balances.with_store profiles
       with_profiles Balances.cashierBalance Balances.set_cashierBalance].
  split_and!; [done | by rewrite lookup_alter_eq
              | by rewrite lookup_alter_ne | done].
Qed.

Lemma update_balance_failed_write_keeps_debit_witness :
  ∃ w' page',
    Balances.updateBalance (target_write_fails "emp-1")
      (sample_balances "csh-1" cashier) "emp-1" (of_Z 1300) sample_world
    = (w', page',
       Some (Balances.Failed
               (Balances.StoreFailure (Balances.TargetUpdate "emp-1"))))
    ∧ (balance_or_0 <$> profiles (Balances.store w') !! "csh-1")
      = Some (of_Z 1700).
Proof.
  edestruct (update_balance_failed_write_keeps_debit
               (target_write_fails "emp-1") (sample_balances "csh-1" cashier)
               "emp-1" (of_Z 1300) sample_world "csh-1")
    as (_ & H1 & _);
    [vm_compute; first [reflexivity | discriminate] ..|].
  eexists _, _. split; [vm_compute; reflexivity|].
  rewrite H1. vm_compute; reflexivity.
Defined.

(** X22. Setting a user's balance to the balance of the user's row plus
    a positive amount does to the store and to the page what adding that
    amount does, whenever the recipient's write answers and taking the
    row's balance from the new balance gives the amount back, which the
    binary64 arithmetic of the source does for some amounts and not for
    others. *)
Theorem update_balance_agrees_with_add fails page userId a w row :
  Balances.find_row page userId = Some row →
  ltb zero a = true →
  sub (add (or_zero (Balances.row_balance row)) a)
    (or_zero (Balances.row_balance row)) = a →
  fails (Balances.TargetUpdate userId) = false →
  Balances.store
    (Balances.updateBalance fails page userId
       (add (or_zero (Balances.row_balance row)) a) w).1.1
  = Balances.store (Balances.addAmountToUser fails page userId a w).1.1
  ∧ (Balances.updateBalance fails page userId
       (add (or_zero (Balances.row_balance row)) a) w).1.2
    = (Balances.addAmountToUser fails page userId a w).1.2.
Proof.
  intros Hrow Ha Hback Ht.
  unfold Balances.updateBalance, Balances.addAmountToUser.
  rewrite Hrow, Ht. cbv zeta. rewrite Hback.
  rewrite (debited_positive _ _ Ha).
  unfold Balances.adder_profile, Balances.notifyBalanceAdded.
  repeat case_match; simplify_eq; simpl; done.
Qed.

Lemma update_balance_agrees_with_add_witness :
  Balances.store
    (Balances.updateBalance all_answer (sample_balances "csh-1" cashier)
       "emp-1" (of_Z 1300) sample_world).1.1
  = Balances.store
      (Balances.addAmountToUser all_answer (sample_balances "csh-1" cashier)
         "emp-1" (of_Z 300) sample_world).1.1.
Proof.
  change (of_Z 1300) with (add (or_zero (Some (of_Z 1000))) (of_Z 300)).
  apply (update_balance_agrees_with_add all_answer
           (sample_balances "csh-1" cashier) "emp-1" (of_Z 300) sample_world
           (Balances.Build_ProfileRow "emp-1" (Some "E. One")
              (Some (of_Z 1000)) "employee"));
    vm_compute; reflexivity.
Defined.

(** Where the difference does not give the amount back the two handlers
    part: with 0.1 in the cashier's hands and 0.7 in the user's row,
    adding 0.1 goes through, and setting the balance to 0.8 is refused
    for want of balance, since 0.8 - 0.7 is 0.10000000000000009 there. *)
Lemma update_balance_differs_from_add :
  let page :=
    {| Balances.user := Some "csh-1"; Balances.userRole := Some cashier;
       Balances.rows :=
         [Balances.Build_ProfileRow "emp-1" None (Some (cents 70))
            "employee"];
       Balances.cashierBalance := cents 10 |} in
  (Balances.addAmountToUser all_answer page "emp-1" (cents 10)
     sample_world).2
  = Some (Balances.AmountAdded (cents 10) None)
  ∧ (Balances.updateBalance all_answer page "emp-1" (cents 80) sample_world)
    = (sample_world, page,
       Some (Balances.InsufficientBalance (sub (cents 80) (cents 70))
               (cents 10)))
  ∧ sub (cents 80) (cents 70) ≠ cents 10.
Proof.
  vm_compute. split; [reflexivity|]. split; [reflexivity|]. discriminate.
Qed.

Lemma bulk_loop_counts fails page amount adminProfile ids :
  ∀ w sc ec w' sc' ec',
    Balances.bulk_loop fails page amount adminProfile ids w sc ec
    = (w', sc', ec') →
    (sc' + length (bulk_failed fails page ids)
     = sc + length (bulk_attempted page ids))%nat
    ∧ (ec' = ec + length (bulk_failed fails page ids))%nat.
Proof.
  unfold bulk_failed, bulk_attempted.
  induction ids as [|i ids IH]; intros w sc ec w' sc' ec' E; simpl in E.
  { simplify_eq. simpl. lia. }
  simpl. destruct (Balances.find_row page i) as [r|] eqn:Hr.
  - rewrite bool_decide_eq_true_2 by eauto. simpl.
    destruct (fails (Balances.TargetUpdate i)) eqn:Hf;
      apply IH in E; simpl; lia.
  - rewrite bool_decide_eq_false_2 by (intros [? ?]; done).
    apply IH in E. lia.
Qed.

Lemma bulk_loop_profiles fails page amount adminProfile ids :
  ∀ w sc ec w' sc' ec' i,
    Balances.bulk_loop fails page amount adminProfile ids w sc ec
    = (w', sc', ec') →
    profiles (Balances.store w') !! i
    = match Balances.find_row page i with
      | Some r =>
          if bool_decide (i ∈ ids)
             && negb (fails (Balances.TargetUpdate i))
          then set_balance (add (or_zero (Balances.row_balance r)) amount)
                 <$> profiles (Balances.store w) !! i
          else profiles (Balances.store w) !! i
      | None => profiles (Balances.store w) !! i
      end.
Proof.
  induction ids as [|j ids IH]; intros w sc ec w' sc' ec' i E; simpl in E.
  { simplify_eq. by destruct (Balances.find_row page i). }
  assert (Hnotify : ∀ w1,
             profiles (Balances.store
                         (match adminProfile with
                          | Some p =>
                              Balances.notifyBalanceAdded fails j amount
                                (name p) w1
                          | None => w1
                          end))
             = profiles (Balances.store w1)).
  { intros w1. unfold Balances.notifyBalanceAdded.
    by repeat case_match. }
  destruct (decide (i = j)) as [->|Hne].
  - rewrite (bool_decide_eq_true_2 (j ∈ j :: ids)) by (apply elem_of_cons; by left).
    destruct (Balances.find_row page j) as [r|] eqn:Hr.
    + destruct (fails (Balances.TargetUpdate j)) eqn:Hf.
      * apply (IH _ _ _ _ _ _ j) in E. rewrite E, Hr, Hf.
        by rewrite andb_false_r.
      * apply (IH _ _ _ _ _ _ j) in E. rewrite E, Hr, Hf, Hnotify.
        simpl. rewrite lookup_alter_eq.
        destruct (bool_decide (j ∈ ids)); simpl; [|done].
        by destruct (profiles (Balances.store w) !! j).
    + apply (IH _ _ _ _ _ _ j) in E. by rewrite E, Hr.
  - assert (Hin : bool_decide (i ∈ j :: ids) = bool_decide (i ∈ ids)).
    { apply bool_decide_ext. rewrite elem_of_cons.
      split; [by intros [?|?] | by right]. }
    rewrite Hin.
    destruct (Balances.find_row page j) as [r|] eqn:Hr.
    + destruct (fails (Balances.TargetUpdate j)) eqn:Hf.
      * by apply (IH _ _ _ _ _ _ i) in E.
      * apply (IH _ _ _ _ _ _ i) in E. rewrite E, Hnotify. simpl.
        by rewrite lookup_alter_ne by done.
    + by apply (IH _ _ _ _ _ _ i) in E.
Qed.

Lemma find_row_map page f i :
  (∀ r, Balances.row_user_id (f r) = Balances.row_user_id r) →
  Balances.find_row (Balances.set_rows (List.map f (Balances.rows page)) page)
    i
  = f <$> Balances.find_row page i.
Proof.
  intros Hf. unfold Balances.find_row. simpl.
  induction (Balances.rows page) as [|r l IH]; simpl; [done|].
  rewrite Hf. by destruct (String.eqb (Balances.row_user_id r) i).
Qed.

Lemma find_row_user_id page i r :
  Balances.find_row page i = Some r → Balances.row_user_id r = i.
Proof.
  intros H. apply find_some in H as [_ H]. by apply String.eqb_eq.
Qed.

(** X23. The toast of the bulk dialog counts exactly: the selected users
    with a row of the table are the ones written to; the toast is the one
    of success, with their number, when none of these writes fails, and
    otherwise tells how many answered and how many failed. A failed write
    does not stop the loop. *)
Theorem bulk_add_counts fails page ids amount w w' page' t :
  ids ≠ [] → leb amount zero = false →
  Balances.bulk_add_clicked fails page ids amount w = (w', page', t) →
  t = Some (match bulk_failed fails page ids with
            | [] => Balances.BulkSuccess amount
                      (length (bulk_attempted page ids))
            | failed =>
                Balances.BulkPartial
                  (length (bulk_attempted page ids) - length failed)
                  (length failed)
            end).
Proof.
  intros Hids Ha. unfold Balances.bulk_add_clicked.
  destruct ids as [|i0 ids0] eqn:Eids; [done|]. rewrite <- Eids. clear Hids.
  rewrite Ha.
  destruct (Balances.bulk_loop _ _ _ _ _ _ _ _) as [[w1 sc] ec] eqn:E.
  apply bulk_loop_counts in E as [Hs He]. intros ?; simplify_eq.
  f_equal.
  destruct (bulk_failed fails page (i0 :: ids0)) as [|f l]; simpl in *.
  - f_equal. lia.
  - f_equal. lia.
Qed.

Lemma bulk_add_counts_witness :
  ∃ w' page' t,
    Balances.bulk_add_clicked (target_write_fails "emp-2")
      (sample_balances "adm-1" admin) ["emp-1"; "emp-2"; "nobody"] (of_Z 50)
      sample_world
    = (w', page', t)
    ∧ t = Some (Balances.BulkPartial 1 1).
Proof.
  eexists _, _, _. split; [vm_compute; reflexivity|].
  etransitivity;
    [eapply (bulk_add_counts (target_write_fails "emp-2")
               (sample_balances "adm-1" admin) ["emp-1"; "emp-2"; "nobody"]
               (of_Z 50) sample_world);
     [discriminate | reflexivity | vm_compute; reflexivity]
    | vm_compute; reflexivity].
Defined.

(** X24. In the bulk dialog a failed write touches one user only: for each
    selected user with a row, the balance written is the balance of that
    row plus the amount, as the binary64 arithmetic of the source gives
    it, if the user's write answered, and the stored profile is untouched
    if it failed, whatever happened to the others; the page shows the
    raised balance in both cases; users that are not selected keep their
    profile and their row. *)
Theorem bulk_add_isolates_failures fails page ids amount w w' page' t i r :
  leb amount zero = false → i ∈ ids → Balances.find_row page i = Some r →
  Balances.bulk_add_clicked fails page ids amount w = (w', page', t) →
  profiles (Balances.store w') !! i
  = (if fails (Balances.TargetUpdate i) then profiles (Balances.store w) !! i
     else set_balance (add (or_zero (Balances.row_balance r)) amount)
            <$> profiles (Balances.store w) !! i)
  ∧ Balances.find_row page' i
    = Some (Balances.set_row_balance
              (add (or_zero (Balances.row_balance r)) amount) r)
  ∧ ∀ j, j ∉ ids →
      profiles (Balances.store w') !! j = profiles (Balances.store w) !! j
      ∧ Balances.find_row page' j = Balances.find_row page j.
Proof.
  intros Ha Hi Hr. unfold Balances.bulk_add_clicked.
  destruct ids as [|i0 ids0] eqn:Eids; [by apply elem_of_nil in Hi|].
  rewrite <- Eids in *. clear Eids.
  rewrite Ha.
  destruct (Balances.bulk_loop _ _ _ _ _ _ _ _) as [[w1 sc] ec] eqn:E.
  intros ?; simplify_eq.
  assert (Hmap : ∀ r0,
             Balances.row_user_id
               (if bool_decide (Balances.row_user_id r0 ∈ ids)
                then Balances.set_row_balance
                       (add (or_zero (Balances.row_balance r0)) amount) r0
                else r0)
             = Balances.row_user_id r0).
  { intros r0. by case_bool_decide. }
  split_and!.
  - rewrite (bulk_loop_profiles _ _ _ _ _ _ _ _ _ _ _ i E), Hr.
    rewrite bool_decide_eq_true_2 by done.
    by destruct (fails (Balances.TargetUpdate i)).
  - rewrite (find_row_map page _ i Hmap), Hr. simpl.
    rewrite (find_row_user_id _ _ _ Hr).
    by rewrite bool_decide_eq_true_2 by done.
  - intros j Hj. split.
    + rewrite (bulk_loop_profiles _ _ _ _ _ _ _ _ _ _ _ j E).
      rewrite bool_decide_eq_false_2 by done.
      by destruct (Balances.find_row page j).
    + rewrite (find_row_map page _ j Hmap).
      destruct (Balances.find_row page j) as [rj|] eqn:Hrj; [|done].
      simpl. rewrite (find_row_user_id _ _ _ Hrj).
      by rewrite bool_decide_eq_false_2 by done.
Qed.

Lemma bulk_add_isolates_failures_witness :
  ∃ w' page' t,
    Balances.bulk_add_clicked (target_write_fails "emp-2")
      (sample_balances "adm-1" admin) ["emp-1"; "emp-2"] (of_Z 50)
      sample_world
    = (w', page', t)
    ∧ (balance_or_0 <$> profiles (Balances.store w') !! "emp-1")
      = Some (of_Z 1050)
    ∧ (balance_or_0 <$> profiles (Balances.store w') !! "emp-2") = Some zero
    ∧ (Balances.row_balance <$> Balances.find_row page' "emp-2")
      = Some (Some (of_Z 50)).
Proof.
  eexists _, _, _. split; [vm_compute; reflexivity|].
  edestruct (bulk_add_isolates_failures (target_write_fails "emp-2")
               (sample_balances "adm-1" admin) ["emp-1"; "emp-2"] (of_Z 50)
               sample_world) with (i := "emp-2") as (H1 & H2 & _);
    [reflexivity | by do 2 constructor | vm_compute; reflexivity
    | vm_compute; reflexivity |].
  split_and!; [vm_compute; reflexivity | |].
  - rewrite H1. vm_compute; reflexivity.
  - rewrite H2. reflexivity.
Defined.
